(** * commit0 agent orchestrator: a shallow embedding and its properties

    The development follows [agent/run_agent.py], [agent/agents.py] and
    [baselines/run_aider.py].  Python [str] values are Rocq [string]s (a
    string is its sequence of code units, compared unit by unit as Python
    compares code points), Python lists are [list]s, the [set] built at
    [run_agent.py:64] is a [gset string], and the branch table of a git
    repository is a [gmap string Commit].  Effects (exceptions, the
    process-wide [sys.stdout]/[sys.stderr], the working directory, the git
    repository, the calls made to the external coder) are threaded through a
    small state-and-exception monad. *)

From Stdlib Require Import ZArith Lia Ascii String List Bool.
From stdpp Require Import base option gmap strings list sorting.

Open Scope string_scope.

(** ** Python [str] operations used by the sources *)

Module PyStr.

(** [s.split(sep)] for a one-character separator: the fields between the
    occurrences of [sep]; never the empty list ([''.split(':') == ['']]). *)
Fixpoint split (sep : ascii) (s : string) : list string :=
  match s with
  | EmptyString => [EmptyString]
  | String c s' =>
      if Ascii.eqb c sep then EmptyString :: split sep s'
      else match split sep s' with
           | [] => [String c EmptyString]
           | w :: ws => String c w :: ws
           end
  end.

(** Scanner of [s.replace(old, new)] for a non-empty [old]: occurrences
    are taken left to right and do not overlap; [skip] counts the
    characters of the occurrence just replaced that are still to be
    dropped. *)
Fixpoint replace_go (old new : string) (skip : nat) (s : string) : string :=
  match s with
  | EmptyString => EmptyString
  | String c s' =>
      match skip with
      | S k => replace_go old new k s'
      | O =>
          if String.prefix old s
          then new ++ replace_go old new (String.length old - 1) s'
          else String c (replace_go old new 0 s')
      end
  end.

(** With an empty [old], Python puts [new] before every character and
    at the end. *)
Fixpoint intersperse (new : string) (s : string) : string :=
  match s with
  | EmptyString => new
  | String c s' => new ++ String c (intersperse new s')
  end.

Definition replace (old new : string) (s : string) : string :=
  match old with
  | EmptyString => intersperse new s
  | String _ _ => replace_go old new 0 s
  end.

(** [old in s] *)
Fixpoint occurs (old : string) (s : string) : bool :=
  match s with
  | EmptyString => String.prefix old EmptyString
  | String _ s' => String.prefix old s || occurs old s'
  end.

(** [s.lower()] on the ASCII letters. *)
Definition lower_ascii (c : ascii) : ascii :=
  let n := nat_of_ascii c in
  if (65 <=? n)%nat && (n <=? 90)%nat then ascii_of_nat (n + 32) else c.

Fixpoint lower (s : string) : string :=
  match s with
  | EmptyString => EmptyString
  | String c s' => String (lower_ascii c) (lower s')
  end.

(** [sep.join(parts)] *)
Definition join (sep : string) (parts : list string) : string :=
  String.concat sep parts.

End PyStr.

(** [sorted(list(set(xs)))] on strings: the set is a [gset], [list] lists
    its elements in the set's own order, [sorted] sorts them. *)
Definition sorted_set (xs : list string) : list string :=
  merge_sort String.le (elements (list_to_set (C := gset string) xs)).

(** ** [pathlib] paths (POSIX flavour)

    A path is its root ([""], ["/"] or ["//"]) and its parts.  Parsing a
    segment splits it at ["/"] and drops the empty and ["."] components; a
    segment that starts with ["/"] is absolute and replaces what came
    before it (exactly two leading slashes give the root ["//"]). *)

Record Path : Type := mkPath { root : string; parts : list string }.

#[global] Instance Path_eq_dec : EqDecision Path.
Proof. solve_decision. Defined.

Definition keep_part (x : string) : bool :=
  negb (String.eqb x "") && negb (String.eqb x ".").

Definition parse_parts (seg : string) : list string :=
  List.filter keep_part (PyStr.split "/" seg).

Definition splitroot (seg : string) : string :=
  match seg with
  | String "/" (String "/" (String "/" _)) => "/"
  | String "/" (String "/" _) => "//"
  | String "/" _ => "/"
  | _ => ""
  end.

(** [PurePath(seg)] *)
Definition path_of (seg : string) : Path :=
  mkPath (splitroot seg) (parse_parts seg).

(** [p / seg] *)
Definition path_div (p : Path) (seg : string) : Path :=
  match splitroot seg with
  | EmptyString => mkPath (root p) (parts p ++ parse_parts seg)
  | r => mkPath r (parse_parts seg)
  end.

Infix "//" := path_div (at level 40, left associativity).

(** [str(p)]; the empty path is written as a dot. *)
Definition path_str (p : Path) : string :=
  match root p, parts p with
  | EmptyString, [] => "."
  | r, ps => r ++ PyStr.join "/" ps
  end.

(** [os.path.join(a, b)] (POSIX) *)
Definition os_path_join (a b : string) : string :=
  if String.prefix "/" b then b
  else if String.eqb a "" then b
  else if String.eqb (String.substring (String.length a - 1) 1 a) "/" then a ++ b
  else a ++ "/" ++ b.

(** [s.rstrip("/")] *)
Fixpoint rstrip_slash (s : string) : string :=
  match s with
  | EmptyString => EmptyString
  | String c s' =>
      match rstrip_slash s' with
      | EmptyString => if Ascii.eqb c "/" then EmptyString else String c EmptyString
      | t => String c t
      end
  end.

(** [os.path.dirname(p)] (POSIX): what stands before the last slash,
    the slash included, with its trailing slashes removed unless it is
    made of slashes only. *)
Definition os_path_dirname (p : string) : string :=
  let head := match List.removelast (PyStr.split "/" p) with
              | [] => EmptyString
              | fields => PyStr.join "/" fields ++ "/"
              end in
  match rstrip_slash head with
  | EmptyString => head
  | t => t
  end.

(** ** Exceptions and the state-and-exception monad *)

Inductive Exc : Type :=
| ValueError (msg : string)
| AttributeError (msg : string)
| NotImplementedError (msg : string)
| NameError (name : string)
| UnboundLocalError (name : string)
| AssertionError (msg : string)
| Exception (msg : string)
| RuntimeError (msg : string)
| FileNotFoundError (msg : string)
| GitError (msg : string)
| CalledProcessError (returncode : Z)
| OSError (errno : Z)
| ExternalError (cls : string)
| KeyboardInterrupt
| SystemExit.

#[global] Instance Exc_eq_dec : EqDecision Exc.
Proof. solve_decision. Defined.

(** [isinstance(e, Exception)]: every class above derives from
    [Exception] except [KeyboardInterrupt] and [SystemExit], which derive
    from [BaseException] only. *)
Definition is_Exception (e : Exc) : bool :=
  match e with
  | KeyboardInterrupt | SystemExit => false
  | _ => true
  end.

(** The result of running a piece of code: it returns, an exception
    escapes it, or the budget of retry rounds is used up before it comes
    to an end (the retry loop of [agents.py:28] has no bound of its own). *)
Inductive Res (A : Type) : Type :=
| Ret (a : A)
| Raise (e : Exc)
| OutOfFuel.

Arguments Ret {A} a.
Arguments Raise {A} e.
Arguments OutOfFuel {A}.

Definition M (W A : Type) : Type := W -> Res A * W.

Definition ret {W A : Type} (a : A) : M W A := fun w => (Ret a, w).

Definition bind {W A B : Type} (m : M W A) (k : A -> M W B) : M W B :=
  fun w =>
    match m w with
    | (Ret a, w') => k a w'
    | (Raise e, w') => (Raise e, w')
    | (OutOfFuel, w') => (OutOfFuel, w')
    end.

Definition raise {W A : Type} (e : Exc) : M W A := fun w => (Raise e, w).

Definition gets {W A : Type} (f : W -> A) : M W A := fun w => (Ret (f w), w).

Definition modify {W : Type} (f : W -> W) : M W unit := fun w => (Ret tt, f w).

(** A collaborator that returns a value or raises. *)
Definition lift {W A : Type} (r : Exc + A) : M W A :=
  match r with
  | inl e => raise e
  | inr a => ret a
  end.

Declare Scope py_scope.
Delimit Scope py_scope with py.
Notation "x <- c ;; k" := (bind c (fun x => k))
  (at level 100, c at next level, right associativity) : py_scope.
Notation "c ;; k" := (bind c (fun _ => k))
  (at level 100, right associativity) : py_scope.
Open Scope py_scope.

(** [for x in xs: body(x)] *)
Fixpoint for_each {W A : Type} (xs : list A) (body : A -> M W unit) : M W unit :=
  match xs with
  | [] => ret tt
  | x :: xs' => body x ;; for_each xs' body
  end.

(** [a, b = xs] ([run_agent.py:57], [run_aider.py:50]) *)
Definition unpack2 {W : Type} (xs : list string) : M W (string * string) :=
  match xs with
  | [a; b] => ret (a, b)
  | [] | [_] => raise (ValueError "not enough values to unpack")
  | _ => raise (ValueError "too many values to unpack")
  end.

(** ** The process and its surroundings *)

(** What [sys.stdout] or [sys.stderr] is bound to. *)
Inductive Stream : Type :=
| std_stdout                 (* sys.__stdout__ *)
| std_stderr                 (* sys.__stderr__ *)
| devnull                    (* open(os.devnull, "w") *)
| log_stream (file : Path).  (* open(log_file, "a") *)

#[global] Instance Stream_eq_dec : EqDecision Stream.
Proof. solve_decision. Defined.

(** A git repository: its branch table, what [HEAD] points at and the
    commits it holds.  Commits are named by their hexsha. *)
Definition Commit : Type := string.

Inductive Head : Type :=
| OnBranch (b : string)
| Detached (c : Commit).

Record Git : Type := mkGit {
  heads : gmap string Commit;
  HEAD : Head;
  objects : gset Commit
}.

(** Modelled from the spec: [agent.class_types.AgentConfig] is not under
    src/; section 6 lists its recognized fields. *)
Record AgentConfig : Type := mkAgentConfig {
  agent_name : string;
  model_name : string;
  max_iteration : Z;
  run_tests : bool;
  use_lint_info : bool
}.

(** Modelled from the spec: [commit0.harness.constants.RepoInstance] is
    not under src/; the fields read by [run_agent_for_repo] are
    [example["repo"]], [example["base_commit"]] and
    [example["test"]["test_dir"]]. *)
Record RepoInstance : Type := mkRepoInstance {
  repo : string;
  base_commit : Commit;
  test_dir : string
}.

(** The arguments [Coder.create] and [coder.run] receive
    ([agents.py:79-97]). *)
Record CoderCall : Type := mkCoderCall {
  main_model : string;
  fnames : list string;
  auto_lint : bool;
  auto_test : bool;
  lint_cmds : string;
  test_cmd : string;
  input_history_file : Path;
  chat_history_file : Path;
  max_reflection : Z;
  coder_message : string
}.

(** The arguments of one call of [AiderAgents.run]. *)
Record Invocation : Type := mkInvocation {
  inv_message : string;
  inv_test_cmd : string;
  inv_lint_cmd : string;
  inv_fnames : list string;
  inv_log_dir : Path
}.

(** A call of the coder as it happened: its arguments, and what
    [sys.stdout] and [sys.stderr] were bound to while it ran. *)
Record CoderRun : Type := mkCoderRun {
  run_call : CoderCall;
  run_stdout : Stream;
  run_stderr : Stream
}.

(** What the external coder does with a call: it finishes, or it raises. *)
Inductive CoderResult : Type :=
| CoderDone
| CoderFails (e : Exc).

(** File-system writes of the orchestrator. *)
Inductive FsOp : Type :=
| Mkdir (dir : Path)
| Makedirs (dir : string)
| WriteYaml (file : string) (cfg : AgentConfig).

(** A record of the dataset as [run_agent] sees it: any Python value; of
    a dict, the fields; of a field, whether it is a [str]. *)
Inductive Field : Type :=
| FStr (s : string)
| FOther.

Inductive DatasetRecord : Type :=
| ENotDict
| EDict (d : gmap string Field).

(** A task handed to the worker pool: the arguments of
    [run_agent_for_repo]. *)
Record Task : Type := mkTask {
  task_base_dir : string;
  task_config : AgentConfig;
  task_example : DatasetRecord
}.

Record World : Type := mkWorld {
  cwd : string;
  sys_stdout : Stream;
  sys_stderr : Stream;
  repos : gmap string Git;           (* the git repositories, by path *)
  printed : list (Stream * string);  (* every print, with where it went *)
  fs : list FsOp;
  logging_root : option Path;        (* file of logging.basicConfig *)
  httpx_handlers : list Path;
  agent_runs : list Invocation;      (* calls of AiderAgents.run *)
  coder_runs : list CoderRun;        (* calls of the coder, one per attempt *)
  sleeps : list Z;                   (* waits between attempts, in seconds *)
  submitted : list Task              (* pool.apply_async calls *)
}.

Definition set_cwd (d : string) (w : World) : World :=
  mkWorld d (sys_stdout w) (sys_stderr w) (repos w) (printed w) (fs w)
    (logging_root w) (httpx_handlers w) (agent_runs w) (coder_runs w)
    (sleeps w) (submitted w).

Definition set_stdout (s : Stream) (w : World) : World :=
  mkWorld (cwd w) s (sys_stderr w) (repos w) (printed w) (fs w)
    (logging_root w) (httpx_handlers w) (agent_runs w) (coder_runs w)
    (sleeps w) (submitted w).

Definition set_stderr (s : Stream) (w : World) : World :=
  mkWorld (cwd w) (sys_stdout w) s (repos w) (printed w) (fs w)
    (logging_root w) (httpx_handlers w) (agent_runs w) (coder_runs w)
    (sleeps w) (submitted w).

Definition set_repos (r : gmap string Git) (w : World) : World :=
  mkWorld (cwd w) (sys_stdout w) (sys_stderr w) r (printed w) (fs w)
    (logging_root w) (httpx_handlers w) (agent_runs w) (coder_runs w)
    (sleeps w) (submitted w).

(** [print(msg, file=sys.stderr)] *)
Definition print_stderr (msg : string) (w : World) : World :=
  mkWorld (cwd w) (sys_stdout w) (sys_stderr w) (repos w)
    (printed w ++ [(sys_stderr w, msg)]) (fs w)
    (logging_root w) (httpx_handlers w) (agent_runs w) (coder_runs w)
    (sleeps w) (submitted w).

Definition fs_op (op : FsOp) (w : World) : World :=
  mkWorld (cwd w) (sys_stdout w) (sys_stderr w) (repos w) (printed w)
    (fs w ++ [op])
    (logging_root w) (httpx_handlers w) (agent_runs w) (coder_runs w)
    (sleeps w) (submitted w).

(** [logging.basicConfig(filename=f, ...)]: configures the root logger
    unless it is configured already. *)
Definition basicConfig (f : Path) (w : World) : World :=
  mkWorld (cwd w) (sys_stdout w) (sys_stderr w) (repos w) (printed w) (fs w)
    (match logging_root w with Some g => Some g | None => Some f end)
    (httpx_handlers w) (agent_runs w) (coder_runs w)
    (sleeps w) (submitted w).

(** [logging.getLogger("httpx").addHandler(logging.FileHandler(f))] *)
Definition add_httpx_handler (f : Path) (w : World) : World :=
  mkWorld (cwd w) (sys_stdout w) (sys_stderr w) (repos w) (printed w) (fs w)
    (logging_root w) (httpx_handlers w ++ [f]) (agent_runs w) (coder_runs w)
    (sleeps w) (submitted w).

Definition log_agent_run (i : Invocation) (w : World) : World :=
  mkWorld (cwd w) (sys_stdout w) (sys_stderr w) (repos w) (printed w) (fs w)
    (logging_root w) (httpx_handlers w) (agent_runs w ++ [i]) (coder_runs w)
    (sleeps w) (submitted w).

Definition log_coder_run (c : CoderCall) (w : World) : World :=
  mkWorld (cwd w) (sys_stdout w) (sys_stderr w) (repos w) (printed w) (fs w)
    (logging_root w) (httpx_handlers w) (agent_runs w)
    (coder_runs w ++ [mkCoderRun c (sys_stdout w) (sys_stderr w)])
    (sleeps w) (submitted w).

(** [time.sleep(d)] between two attempts *)
Definition sleep (d : Z) (w : World) : World :=
  mkWorld (cwd w) (sys_stdout w) (sys_stderr w) (repos w) (printed w) (fs w)
    (logging_root w) (httpx_handlers w) (agent_runs w) (coder_runs w)
    (sleeps w ++ [d]) (submitted w).

Definition submit (t : Task) (w : World) : World :=
  mkWorld (cwd w) (sys_stdout w) (sys_stderr w) (repos w) (printed w) (fs w)
    (logging_root w) (httpx_handlers w) (agent_runs w) (coder_runs w)
    (sleeps w) (submitted w ++ [t]).

(** What the message builder is given besides the configuration and the
    repository path: [test_file=...] or [test_dir=...]. *)
Inductive MessageTarget : Type :=
| TestFile (f : string)
| TestDir (d : string).

(** The collaborators of the orchestrator that are not under src/: the
    functions of [agent.commit0_utils] and [commit0.harness], the
    constants [RUN_AIDER_LOG_DIR] and [SPLIT], the path functions that
    read the file system, and the external coder.  The coder is given the
    number of coder calls made so far in the process, its arguments and
    the repositories, which it may change (it commits its edits). *)
Record Collaborators : Type := mkCollaborators {
  get_tests : string -> Exc + list string;
  args2string : AgentConfig -> string;
  get_message : AgentConfig -> string -> MessageTarget -> string;
  get_target_edit_files : string -> list string;
  get_lint_cmd : string -> bool -> string;
  RUN_AIDER_LOG_DIR : Path;
  SPLIT : gmap string (list string);
  abspath : string -> string -> string;   (* cwd, path *)
  resolve : string -> Path -> Path;       (* cwd, path *)
  coder : nat -> CoderCall -> gmap string Git -> CoderResult * gmap string Git
}.

(** ** [agent/agents.py] *)

(** [tenacity.wait_exponential(multiplier, min, max)] with the default
    base 2: the wait after attempt number [n] (counted from 1) is
    [max(max(0, min), min(multiplier * 2 ** (n - 1), max))]. *)
Definition wait_exponential (multiplier min max : Z) (attempt_number : nat) : Z :=
  Z.max (Z.max 0 min)
        (Z.min (multiplier * 2 ^ (Z.of_nat attempt_number - 1)) max).

(** [tenacity.retry(wait=...)] with its defaults: no stop condition, and
    an attempt is repeated when it raised an instance of [Exception]; any
    other exception is re-raised at once.  [fuel] bounds the number of
    attempts the model follows. *)
Fixpoint retrying {A : Type} (wait : nat -> Z) (fuel : nat) (attempt_number : nat)
  (fn : M World A) : M World A :=
  match fuel with
  | O => fun w => (OutOfFuel, w)
  | S fuel' =>
      fun w =>
        match fn w with
        | (Raise e, w') =>
            if is_Exception e
            then retrying wait fuel' (S attempt_number) fn
                   (sleep (wait attempt_number) w')
            else (Raise e, w')
        | other => other
        end
  end.

Record AiderAgents : Type := mkAiderAgents {
  self_max_iteration : Z;
  self_model : string
}.

(** [Coder.create(...)], [coder.max_reflection = ...] and
    [coder.run(message)]: the opaque capability. *)
Definition coder_run (E : Collaborators) (c : CoderCall) : M World unit :=
  fun w =>
    let '(r, repos') := coder E (length (coder_runs w)) c (repos w) in
    let w' := set_repos repos' (log_coder_run c w) in
    match r with
    | CoderDone => (Ret tt, w')
    | CoderFails e => (Raise e, w')
    end.

(** The body of [AiderAgents.run] ([agents.py:39-104]): one attempt. *)
Definition AiderAgents_run_body (E : Collaborators) (self : AiderAgents)
  (message test_cmd lint_cmd : string) (fnames : list string) (log_dir : Path)
  : M World unit :=
  let auto_test := negb (String.eqb test_cmd "") in
  let auto_lint := negb (String.eqb lint_cmd "") in
  here <- gets cwd ;;
  let log_dir := resolve E here log_dir in
  modify (fs_op (Mkdir log_dir)) ;;
  let input_history_file := log_dir // ".aider.input.history" in
  let chat_history_file := log_dir // ".aider.chat.history.md" in
  modify (print_stderr ("check " ++ abspath E here (path_str chat_history_file)
                        ++ " for prompts and lm generations")) ;;
  let log_file := log_dir // "aider.log" in
  modify (basicConfig log_file) ;;
  modify (set_stdout (log_stream log_file)) ;;
  modify (set_stderr (log_stream log_file)) ;;
  modify (add_httpx_handler log_file) ;;
  coder_run E (mkCoderCall (self_model self) fnames auto_lint auto_test
                 lint_cmd test_cmd input_history_file chat_history_file
                 (self_max_iteration self) message) ;;
  modify (set_stdout std_stdout) ;;
  modify (set_stderr std_stderr).

(** [AiderAgents.run] as callers see it, under
    [@retry(wait=wait_exponential(multiplier=1, min=4, max=10))]. *)
Definition AiderAgents_run (E : Collaborators) (fuel : nat) (self : AiderAgents)
  (message test_cmd lint_cmd : string) (fnames : list string) (log_dir : Path)
  : M World unit :=
  modify (log_agent_run (mkInvocation message test_cmd lint_cmd fnames log_dir)) ;;
  retrying (wait_exponential 1 4 10) fuel 1
    (AiderAgents_run_body E self message test_cmd lint_cmd fnames log_dir).

(** The log file of an invocation and the call the coder receives, as
    [AiderAgents_run_body] computes them in working directory [here]. *)
Definition log_file_of (E : Collaborators) (here : string) (log_dir : Path) : Path :=
  resolve E here log_dir // "aider.log".

Definition coder_call_of (E : Collaborators) (self : AiderAgents)
  (message test_cmd lint_cmd : string) (fnames : list string)
  (here : string) (log_dir : Path) : CoderCall :=
  mkCoderCall (self_model self) fnames
    (negb (String.eqb lint_cmd "")) (negb (String.eqb test_cmd ""))
    lint_cmd test_cmd
    (resolve E here log_dir // ".aider.input.history")
    (resolve E here log_dir // ".aider.chat.history.md")
    (self_max_iteration self) message.

(** ** [agent/run_agent.py] *)

(** [with DirContext(d): body]: [__init__] remembers the working
    directory, [__enter__] changes to [d], [__exit__] changes back on
    every way out of the body and lets an exception pass. *)
Definition with_DirContext {A : Type} (d : string) (body : M World A) : M World A :=
  fun w =>
    let saved := cwd w in
    let '(r, w') := body (set_cwd d w) in
    (r, set_cwd saved w').

(** [Repo(repo_path)] inside the [try] of [run_agent.py:68-73]. *)
Definition open_repo (repo_path : string) : M World string :=
  fun w =>
    match repos w !! repo_path with
    | Some _ => (Ret repo_path, w)
    | None =>
        (Raise (Exception (repo_path ++
           " is not a git repo. Check if base_dir is correctly specified.")), w)
    end.

(** An operation of the git repository at [repo_path]. *)
Definition on_repo {A : Type} (repo_path : string) (op : Git -> Exc + (A * Git))
  : M World A :=
  fun w =>
    match repos w !! repo_path with
    | None => (Raise (GitError "no such repository"), w)
    | Some g =>
        match op g with
        | inl e => (Raise e, w)
        | inr (a, g') => (Ret a, set_repos (<[repo_path := g']> (repos w)) w)
        end
    end.

(** Modelled from the spec: [agent.commit0_utils.create_branch] is not
    under src/.  Section 4.1: it creates a branch named [branch] off
    [from_commit] if absent; the branch is the working branch of the run
    (sections 2 and 5: the work units share the checked-out branch), so it
    is checked out in both cases.  A failure of git is raised. *)
Definition create_branch (branch : string) (from_commit : Commit) (g : Git)
  : Exc + (unit * Git) :=
  match heads g !! branch with
  | Some _ => inr (tt, mkGit (heads g) (OnBranch branch) (objects g))
  | None =>
      if bool_decide (from_commit ∈ objects g)
      then inr (tt, mkGit (<[branch := from_commit]> (heads g)) (OnBranch branch)
                      (objects g))
      else inl (RuntimeError ("Failed to create or switch to branch '" ++ branch ++ "'"))
  end.

(** [local_repo.commit(name).hexsha] for a branch name. *)
Definition repo_commit (name : string) (g : Git) : Exc + (Commit * Git) :=
  match heads g !! name with
  | Some c => inr (c, g)
  | None => inl (GitError ("bad revision '" ++ name ++ "'"))
  end.

(** [local_repo.git.reset("--hard", c)]: moves the checked-out branch (or
    a detached [HEAD]) to [c]. *)
Definition git_reset_hard (c : Commit) (g : Git) : Exc + (unit * Git) :=
  if bool_decide (c ∈ objects g)
  then match HEAD g with
       | OnBranch b => inr (tt, mkGit (<[b := c]> (heads g)) (OnBranch b) (objects g))
       | Detached _ => inr (tt, mkGit (heads g) (Detached c) (objects g))
       end
  else inl (GitError ("unknown revision '" ++ c ++ "'")).

(** [agent_config.attr] on an [Optional] configuration. *)
Definition deref {W : Type} (agent_config : option AgentConfig) : M W AgentConfig :=
  match agent_config with
  | Some cfg => ret cfg
  | None => raise (AttributeError "'NoneType' object has no attribute")
  end.

(** [test_file.replace(".py", "").replace("/", "__")]
    ([run_agent.py:102] and [:127]) *)
Definition log_name (file : string) : string :=
  PyStr.replace "/" "__" (PyStr.replace ".py" "" file).

(** The part of a test identifier used for the iteration:
    [i.split(":")[0]]. *)
Definition test_path (i : string) : string :=
  List.hd "" (PyStr.split ":" i).

(** The field before the first separator, as the words of the spec have
    it ("the portion before the first ':'"): the longest prefix free of
    the separator. *)
Fixpoint before_first (sep : ascii) (s : string) : string :=
  match s with
  | EmptyString => EmptyString
  | String c s' => if Ascii.eqb c sep then EmptyString
                   else String c (before_first sep s')
  end.

(** Lines 84-90: the branch of the run is created or checked out, and set
    back to the base commit when its tip is another commit. *)
Definition branch_setup (local_repo run_id : string) (base : Commit) : M World unit :=
  on_repo local_repo (create_branch run_id base) ;;
  latest_commit <- on_repo local_repo (repo_commit run_id) ;;
  if bool_decide (latest_commit <> base)
  then on_repo local_repo (git_reset_hard base)
  else ret tt.

(** The invocation made for one test file (lines 99-112). *)
Definition test_invocation (E : Collaborators) (cfg : AgentConfig)
  (local_repo repo_path run_id : string) (target_edit_files : list string)
  (test_file : string) : Invocation :=
  let test_cmd := "python -m commit0 test " ++ repo_path ++ " " ++ test_file
                  ++ " --branch " ++ run_id in
  let test_file_name := log_name test_file in
  let log_dir := RUN_AIDER_LOG_DIR E // "with_tests" // test_file_name in
  let lint_cmd := get_lint_cmd E local_repo (use_lint_info cfg) in
  let message := get_message E cfg repo_path (TestFile test_file) in
  mkInvocation message test_cmd lint_cmd target_edit_files log_dir.

(** The invocation made for one target file (lines 127-130). *)
Definition file_invocation (E : Collaborators) (cfg : AgentConfig)
  (local_repo : string) (message : string) (f : string) : Invocation :=
  let file_name := log_name f in
  let log_dir := RUN_AIDER_LOG_DIR E // "no_tests" // file_name in
  let lint_cmd := get_lint_cmd E local_repo (use_lint_info cfg) in
  mkInvocation message "" lint_cmd [f] log_dir.

Definition agent_run (E : Collaborators) (fuel : nat) (agent : AiderAgents)
  (i : Invocation) : M World unit :=
  AiderAgents_run E fuel agent (inv_message i) (inv_test_cmd i) (inv_lint_cmd i)
    (inv_fnames i) (inv_log_dir i).

(** What lines 57-91 compute for the rest of the function. *)
Record RunContext : Type := mkRunContext {
  ctx_cfg : AgentConfig;
  ctx_agent : AiderAgents;
  ctx_local_repo : string;
  ctx_repo_path : string;
  ctx_run_id : string;
  ctx_test_files : list string;
  ctx_target_edit_files : list string
}.

(** Lines 59-60 *)
Definition normalize_repo_name (name : string) : string :=
  PyStr.replace "." "-" (PyStr.lower name).

(** Lines 57-91: the repository and its tests are found, the agent is
    built, and the branch of the run is set up. *)
Definition repo_setup (E : Collaborators) (repo_base_dir : string)
  (agent_config : option AgentConfig) (example : RepoInstance)
  : M World RunContext :=
  unpacked <- unpack2 (PyStr.split "/" (repo example)) ;;
  let repo_name := normalize_repo_name unpacked.2 in
  test_files_str <- lift (get_tests E repo_name) ;;
  let test_files := sorted_set (List.map test_path test_files_str) in
  here <- gets cwd ;;
  let repo_path := abspath E here (os_path_join repo_base_dir repo_name) in
  local_repo <- open_repo repo_path ;;
  cfg <- deref agent_config ;;
  agent <- (if String.eqb (agent_name cfg) "aider"
            then ret (mkAiderAgents (max_iteration cfg) (model_name cfg))
            else raise (NotImplementedError
                          (agent_name cfg ++ " is not implemented; please add your implementations in baselines/agents.py."))) ;;
  let run_id := args2string E cfg in
  modify (print_stderr ("Agent is coding on branch: " ++ run_id)) ;;
  branch_setup local_repo run_id (base_commit example) ;;
  let target_edit_files := get_target_edit_files E repo_path in
  ret (mkRunContext cfg agent local_repo repo_path run_id test_files
         target_edit_files).

(** The invocations of lines 98-112 and 126-130, in the order of the
    loops. *)
Definition plan (E : Collaborators) (example : RepoInstance) (ctx : RunContext)
  : list Invocation :=
  if run_tests (ctx_cfg ctx) then
    List.map (test_invocation E (ctx_cfg ctx) (ctx_local_repo ctx)
                (ctx_repo_path ctx) (ctx_run_id ctx) (ctx_target_edit_files ctx))
             (ctx_test_files ctx)
  else
    List.map (file_invocation E (ctx_cfg ctx) (ctx_local_repo ctx)
                (get_message E (ctx_cfg ctx) (ctx_repo_path ctx)
                   (TestDir (test_dir example))))
             (ctx_target_edit_files ctx).

(** Lines 92-130: the work of a repository once its branch is set up. *)
Definition run_work (E : Collaborators) (fuel : nat)
  (agent_config : option AgentConfig) (example : RepoInstance)
  (ctx : RunContext) : M World unit :=
  let cfg := ctx_cfg ctx in
  let agent := ctx_agent ctx in
  let local_repo := ctx_local_repo ctx in
  let repo_path := ctx_repo_path ctx in
  let run_id := ctx_run_id ctx in
  let target_edit_files := ctx_target_edit_files ctx in
  with_DirContext repo_path
    (match agent_config with
     | None => raise (ValueError "Invalid input")
     | Some _ =>
         if run_tests cfg then
           for_each (ctx_test_files ctx) (fun test_file =>
             agent_run E fuel agent
               (test_invocation E cfg local_repo repo_path run_id
                  target_edit_files test_file))
         else
           let message := get_message E cfg repo_path (TestDir (test_dir example)) in
           here <- gets cwd ;;
           let agent_config_log_file :=
             abspath E here
               (path_str (RUN_AIDER_LOG_DIR E // "no_tests" // ".agent.yaml")) in
           modify (fs_op (Makedirs (os_path_dirname agent_config_log_file))) ;;
           modify (fs_op (WriteYaml agent_config_log_file cfg)) ;;
           for_each target_edit_files (fun f =>
             agent_run E fuel agent (file_invocation E cfg local_repo message f))
     end).

(** [run_agent_for_repo] ([run_agent.py:50-130]). *)
Definition run_agent_for_repo (E : Collaborators) (fuel : nat)
  (repo_base_dir : string) (agent_config : option AgentConfig)
  (example : RepoInstance) : M World unit :=
  ctx <- repo_setup E repo_base_dir agent_config example ;;
  run_work E fuel agent_config example ctx.

(** One commit made on the checked-out branch, as the coder makes them. *)
Definition git_commit (c : Commit) (g : Git) : Git :=
  match HEAD g with
  | OnBranch b => mkGit (<[b := c]> (heads g)) (OnBranch b) ({[c]} ∪ objects g)
  | Detached _ => mkGit (heads g) (Detached c) ({[c]} ∪ objects g)
  end.

(** The tip of a branch of the repository at a path. *)
Definition branch_tip (w : World) (repo_path branch : string) : option Commit :=
  g ← repos w !! repo_path; heads g !! branch.

(** The part of a string after its last separator, as the words of the
    spec have it ("the trailing path segment"): the whole string when it
    holds no separator. *)
Fixpoint after_last (sep : ascii) (s : string) : string :=
  match s with
  | EmptyString => EmptyString
  | String c s' =>
      if PyStr.occurs (String sep EmptyString) s' then after_last sep s'
      else if Ascii.eqb c sep then s' else s
  end.

(** The fields of [.commit0.yaml] that [run_agent] reads. *)
Record Commit0Config : Type := mkCommit0Config {
  dataset_name : string;
  dataset_split : string;
  repo_split : string;
  base_dir : string
}.

(** [read_yaml_config]: [None] stands for a configuration file that does
    not exist. *)
Definition read_yaml_config {W : Type} (config_file : string)
  (content : option AgentConfig) : M W AgentConfig :=
  match content with
  | None => raise (FileNotFoundError
                     ("The config file '" ++ config_file ++ "' does not exist."))
  | Some c => ret c
  end.

(** The condition of the comprehension at [run_agent.py:147-158]. *)
Definition selected (E : Collaborators) (repo_split : string)
  (example : DatasetRecord) : bool :=
  String.eqb repo_split "all"
  || match example with
     | ENotDict => false
     | EDict d =>
         match d !! "repo" with
         | Some (FStr r) =>
             bool_decide (List.last (PyStr.split "/" r) "" ∈
                            default [] (SPLIT E !! repo_split))
         | Some FOther | None => false
         end
     end.

(** [assert cond, msg] *)
Definition py_assert {W : Type} (cond : bool) (msg : string) : M W unit :=
  if cond then ret tt else raise (AssertionError msg).

(** [run_agent] ([run_agent.py:133-182]) up to the submission of the
    tasks to the pool; what the workers do is [run_agent_for_repo]. *)
Definition run_agent (E : Collaborators) (agent_config_file : string)
  (content : option AgentConfig) (commit0_config : Commit0Config)
  (dataset : list DatasetRecord) : M World unit :=
  agent_config <- read_yaml_config agent_config_file content ;;
  let filtered_dataset :=
    List.filter (selected E (repo_split commit0_config)) dataset in
  py_assert (0 <? length filtered_dataset)%nat "No examples available" ;;
  (if (1 <? length filtered_dataset)%nat
   then modify (set_stdout devnull) else ret tt) ;;
  for_each filtered_dataset (fun example =>
    modify (submit (mkTask (base_dir commit0_config) agent_config example))).

(** ** [baselines/run_aider.py] *)

Module Baseline.

Record TarMember : Type := mkTarMember {
  isfile : bool;
  content : option string      (* tar.extractfile(member), decoded *)
}.

Record AiderConfig : Type := mkAiderConfig {
  llm_name : string;
  use_lint_info : bool
}.

(** How [subprocess.Popen(...)] followed by [communicate()] ends. *)
Inductive ProcOutcome : Type :=
| Completed (stdout stderr : string)
| ProcRaises (e : Exc).

Inductive LogRecord : Type :=
| Info (msg : string)
| Error (msg : string).

Record BWorld : Type := mkBWorld {
  b_cwd : string;
  launched : list string;     (* commands given to subprocess.Popen *)
  log : list LogRecord
}.

Definition b_chdir (d : string) (w : BWorld) : BWorld :=
  mkBWorld d (launched w) (log w).

Definition b_launch (cmd : string) (w : BWorld) : BWorld :=
  mkBWorld (b_cwd w) (launched w ++ [cmd]) (log w).

Definition b_log (r : LogRecord) (w : BWorld) : BWorld :=
  mkBWorld (b_cwd w) (launched w) (log w ++ [r]).

(** The collaborators of the baseline: the archive of test ids, the
    directories that exist, the helpers of [baselines.baseline_utils] and
    the operating system running a command (given the number of commands
    launched before). *)
Record BCollaborators : Type := mkBCollaborators {
  tar_open : string -> Exc + list TarMember;
  dir_exists : string -> bool;
  get_target_edit_files_cmd_args : string -> string;
  get_message_to_aider : AiderConfig -> string -> string -> RepoInstance -> string;
  popen : nat -> string -> ProcOutcome
}.

(** The double-quote character of the f-string at [run_aider.py:31]. *)
Definition dquote : string := String (ascii_of_nat 34) EmptyString.

(** [get_aider_cmd] ([run_aider.py:23-37]) *)
Definition get_aider_cmd (model files message_to_aider test_cmd lint_cmd : string)
  : string :=
  let base_cmd := "aider --model " ++ model ++ " --file " ++ files
                  ++ " --message " ++ dquote ++ message_to_aider ++ dquote in
  let base_cmd := if negb (String.eqb lint_cmd "")
                  then base_cmd ++ " --auto-lint --lint-cmd '" ++ lint_cmd ++ "'"
                  else base_cmd in
  let base_cmd := if negb (String.eqb test_cmd "")
                  then base_cmd ++ " --auto-test --test --test-cmd '" ++ test_cmd ++ "'"
                  else base_cmd in
  base_cmd ++ " --yes".

(** Lines 55-59: the text of the last regular member of the archive;
    [None] while the variable [test_files_str] is unbound. *)
Fixpoint read_members (members : list TarMember) (test_files_str : option string)
  : option string :=
  match members with
  | [] => test_files_str
  | m :: ms =>
      read_members ms
        (if isfile m
         then match content m with
              | Some text => Some text
              | None => test_files_str
              end
         else test_files_str)
  end.

(** [isinstance(e, subprocess.CalledProcessError)] *)
Definition is_CalledProcessError (e : Exc) : bool :=
  match e with
  | CalledProcessError _ => true
  | _ => false
  end.

(** [e.errno] for the instances of [OSError], among them those of its
    subclass [FileNotFoundError] (errno 2); [None] for the exceptions that
    are not instances of [OSError]. *)
Definition os_errno (e : Exc) : option Z :=
  match e with
  | OSError errno => Some errno
  | FileNotFoundError _ => Some 2%Z
  | _ => None
  end.

(** The [try] statement of lines 91-112: the command is launched and its
    output logged; a [CalledProcessError] and an [OSError] are logged and
    the statement is left normally; any other exception escapes it. *)
Definition try_popen (E : BCollaborators) (aider_cmd : string) : M BWorld unit :=
  fun w =>
    let w1 := b_launch aider_cmd w in
    match popen E (length (launched w)) aider_cmd with
    | Completed stdout stderr =>
        (Ret tt, b_log (Info ("STDERR: " ++ stderr))
                   (b_log (Info ("STDOUT: " ++ stdout)) w1))
    | ProcRaises e =>
        if is_CalledProcessError e
        then (Ret tt, b_log (Error "STDERR") (b_log (Error "STDOUT")
                        (b_log (Error "Command failed with exit code") w1)))
        else match os_errno e with
             | Some errno =>
                 if (errno =? 63)%Z
                 then (Ret tt,
                       b_log (Error ("Command: " ++ aider_cmd))
                         (b_log (Error "Command failed due to file name being too long") w1))
                 else (Ret tt, b_log (Error "OSError occurred") w1)
             | None => (Raise e, w1)
             end
    end.

(** The exception that the [try] statement lets through, if any. *)
Definition escaping (o : ProcOutcome) : option Exc :=
  match o with
  | Completed _ _ => None
  | ProcRaises e =>
      if is_CalledProcessError e then None
      else match os_errno e with
           | Some _ => None
           | None => Some e
           end
  end.

(** The command of the iteration for a test file (lines 81-89). *)
Definition aider_cmd_of (aider_config : AiderConfig)
  (repo_name target_edit_files_cmd_args message_to_aider lint_cmd test_file : string)
  : string :=
  get_aider_cmd (llm_name aider_config) target_edit_files_cmd_args
    message_to_aider
    ("python -m commit0 test " ++ repo_name ++ " " ++ test_file) lint_cmd.

(** The body of the loop of lines 80-113. *)
Definition loop_body (E : BCollaborators) (aider_config : AiderConfig)
  (repo_name target_edit_files_cmd_args message_to_aider lint_cmd test_file : string)
  : M BWorld unit :=
  let test_cmd := "python -m commit0 test " ++ repo_name ++ " " ++ test_file in
  let aider_cmd := get_aider_cmd (llm_name aider_config) target_edit_files_cmd_args
                     message_to_aider test_cmd lint_cmd in
  try_popen E aider_cmd ;;
  (* line 113: the expression statement [asdf]; no such name is bound in
     the function, the module or the builtins *)
  raise (NameError "asdf").

(** [run_aider_for_repo] ([run_aider.py:40-113]).  At line 62 the
    variable [test_files_str] is unbound or holds a [str] (the decoded
    text of a member), so the [else []] of that line is never taken: the
    text is split, and a split has at least one field. *)
Definition run_aider_for_repo (E : BCollaborators)
  (commit0_config : option Commit0Config) (aider_config : option AiderConfig)
  (ds : RepoInstance) : M BWorld unit :=
  match commit0_config, aider_config with
  | Some commit0_config, Some aider_config =>
      unpacked <- unpack2 (PyStr.split "/" (repo ds)) ;;
      let repo_name := unpacked.2 in
      let repo_name := PyStr.lower repo_name in
      let repo_name := PyStr.replace "." "-" repo_name in
      members <- lift (tar_open E ("commit0/data/test_ids/" ++ repo_name ++ ".tar.bz2")) ;;
      test_files_str <- match read_members members None with
                        | Some text => ret text
                        | None => raise (UnboundLocalError "test_files_str")
                        end ;;
      let test_files := PyStr.split "010" test_files_str in
      let test_files := sorted_set (List.map test_path test_files) in
      let repo_path := os_path_join (base_dir commit0_config) repo_name in
      (if dir_exists E repo_path then modify (b_chdir repo_path)
       else raise (FileNotFoundError repo_path)) ;;
      let target_edit_files_cmd_args := get_target_edit_files_cmd_args E repo_path in
      let message_to_aider :=
        get_message_to_aider E aider_config target_edit_files_cmd_args repo_path ds in
      let lint_cmd := if use_lint_info aider_config
                      then "pre-commit run --config ../../.pre-commit-config.yaml --files"
                      else "" in
      for_each test_files
        (loop_body E aider_config repo_name target_edit_files_cmd_args
           message_to_aider lint_cmd)
  | _, _ => raise (ValueError "Invalid input")
  end.

(** The condition of the comprehension at [run_aider.py:131-136]; the
    rows of the dataset are read as they come, and [SPLIT] is the table
    of [commit0.harness.constants]. *)
Definition selected (SPLIT : gmap string (list string)) (repo_split : string)
  (example : RepoInstance) : bool :=
  String.eqb repo_split "all"
  || bool_decide (List.last (PyStr.split "/" (repo example)) "" ∈
                    default [] (SPLIT !! repo_split)).

(** [main] ([run_aider.py:117-139]), given the two parts of the
    configuration and the rows that [load_dataset] returns. *)
Definition main (E : BCollaborators) (SPLIT : gmap string (list string))
  (commit0_config : option Commit0Config) (aider_config : option AiderConfig)
  (dataset : list RepoInstance) : M BWorld unit :=
  match commit0_config, aider_config with
  | Some c0, Some _ =>
      let filtered_dataset :=
        List.filter (selected SPLIT (repo_split c0)) dataset in
      for_each filtered_dataset (fun example =>
        run_aider_for_repo E commit0_config aider_config example)
  | _, _ => raise (ValueError "Invalid input")
  end.

End Baseline.

(** File names on which the log directory keeps names apart: [stem.py]
    where the stem holds no [.py], no two underscores in a row and no
    underscore right before a slash, and is neither empty nor a dot. *)
Definition clean_stem (stem : string) : bool :=
  negb (PyStr.occurs ".py" stem) && negb (PyStr.occurs "__" stem)
  && negb (PyStr.occurs "_/" stem)
  && negb (String.eqb stem "") && negb (String.eqb stem ".").

(** [m] leaves the component [f] of the world as it found it, however
    it ends. *)
Definition preserves {X A : Type} (f : World -> X) (m : M World A) : Prop :=
  forall w, f (m w).2 = f w.

(** The [i]-th call of the coder in the process fails with an
    [Exception], or finishes, whatever it is asked. *)
Definition fails_at (E : Collaborators) (i : nat) : Prop :=
  exists e, is_Exception e = true /\ forall c g, (coder E i c g).1 = CoderFails e.

Definition done_at (E : Collaborators) (i : nat) : Prop :=
  forall c g, (coder E i c g).1 = CoderDone.

(** The coder calls made since the world [w], in a later world [w']. *)
Definition new_coder_runs (w w' : World) : list CoderRun :=
  drop (length (coder_runs w)) (coder_runs w').

(** [m] comes to an end on its own: it returns or raises, and needs no
    budget of attempts. *)
Definition terminates {W A : Type} (m : M W A) : Prop :=
  forall w, (m w).1 <> OutOfFuel.

(** The invocations a run is to make, spelled out from its inputs: the
    working directory [here] it starts in, the name [name] after the
    slash of [example["repo"]] and the test identifiers [ids] that
    [get_tests] returns for it. *)
Definition planned_invocations (E : Collaborators) (repo_base_dir : string)
  (cfg : AgentConfig) (example : RepoInstance) (here name : string)
  (ids : list string) : list Invocation :=
  let repo_path :=
    abspath E here (os_path_join repo_base_dir (normalize_repo_name name)) in
  let target_edit_files := get_target_edit_files E repo_path in
  if run_tests cfg then
    List.map (test_invocation E cfg repo_path repo_path (args2string E cfg)
                target_edit_files)
             (sorted_set (List.map test_path ids))
  else
    List.map (file_invocation E cfg repo_path
                (get_message E cfg repo_path (TestDir (test_dir example))))
             target_edit_files.

(** The invocations made since the world [w], in a later world [w']. *)
Definition new_agent_runs (w w' : World) : list Invocation :=
  drop (length (agent_runs w)) (agent_runs w').

(** The world in which the loop of line 126 starts: the working
    directory is the repository, and the configuration has been written
    to its log file (lines 118-124). *)
Definition no_tests_loop_start (E : Collaborators) (ctx : RunContext)
  (w : World) : World :=
  let file := abspath E (ctx_repo_path ctx)
                (path_str (RUN_AIDER_LOG_DIR E // "no_tests" // ".agent.yaml")) in
  fs_op (WriteYaml file (ctx_cfg ctx))
    (fs_op (Makedirs (os_path_dirname file)) (set_cwd (ctx_repo_path ctx) w)).

(** Commits made one after the other on the checked-out branch of the
    repository at [path]. *)
Definition commit_all (path : string) (cs : list Commit) (w : World) : World :=
  set_repos (alter (fun g => List.fold_left (fun g c => git_commit c g) cs g)
                   path (repos w)) w.

(** The number of occurrences of a character in a string. *)
Fixpoint count_char (sep : ascii) (s : string) : nat :=
  match s with
  | EmptyString => 0
  | String c s' => (if Ascii.eqb c sep then 1 else 0) + count_char sep s'
  end.

(** An attempt of the invocation [i] made in the working directory
    [here], as it is recorded: the call the coder receives, with both
    streams on the log file of the invocation. *)
Definition coder_run_of (E : Collaborators) (agent : AiderAgents) (here : string)
  (i : Invocation) : CoderRun :=
  let lf := log_file_of E here (inv_log_dir i) in
  mkCoderRun
    (coder_call_of E agent (inv_message i) (inv_test_cmd i) (inv_lint_cmd i)
       (inv_fnames i) here (inv_log_dir i))
    (log_stream lf) (log_stream lf).

(** The [i]-th call of the coder in the process raises [e], whatever it
    is asked. *)
Definition raises_at (E : Collaborators) (i : nat) (e : Exc) : Prop :=
  forall c g, (coder E i c g).1 = CoderFails e.

(** The configurations written to a file so far, with the file of each. *)
Definition yaml_written (w : World) : list (string * AgentConfig) :=
  omap (fun op => match op with
                  | WriteYaml file cfg => Some (file, cfg)
                  | _ => None
                  end) (fs w).

(** The part of the world that the logging set-up of [agents.py:58-77]
    is about, and how it has moved from [w] to [w'] when the coder was
    called [new] in between: one more handler of the [httpx] logger for
    each call, on the file the streams were bound to during the call;
    and the root logger on the file of the first call, unless it was
    configured before. *)
Definition logs (w : World) : list CoderRun * list Path * option Path :=
  (coder_runs w, httpx_handlers w, logging_root w).

Definition logging_follows (w w' : World) (new : list CoderRun) : Prop :=
  coder_runs w' = (coder_runs w ++ new)%list
  /\ List.map log_stream (httpx_handlers w') =
       (List.map log_stream (httpx_handlers w) ++ List.map run_stdout new)%list
  /\ option_map log_stream (logging_root w') =
       match logging_root w with
       | Some g => Some (log_stream g)
       | None => List.head (List.map run_stdout new)
       end.

(** [m] moves the logging set-up in that way, however it ends. *)
Definition logging_kept {A : Type} (m : M World A) : Prop :=
  forall w, exists new, logging_follows w (m w).2 new.


(** ** Concrete collaborators and worlds, to run the model on *)

Definition demo_abspath (here p : string) : string :=
  if String.prefix "/" p then p else here ++ "/" ++ p.

Definition demo_resolve (here : string) (p : Path) : Path :=
  match root p with
  | EmptyString => mkPath "/" (parse_parts here ++ parts p)
  | _ => p
  end.

Definition coder_ok (n : nat) (c : CoderCall) (g : gmap string Git)
  : CoderResult * gmap string Git := (CoderDone, g).

(** A coder that follows a script: the result of its [n]-th call is the
    [n]-th entry, and [CoderDone] past the end. *)
Definition coder_script (script : list CoderResult) (n : nat) (c : CoderCall)
  (g : gmap string Git) : CoderResult * gmap string Git :=
  (List.nth n script CoderDone, g).

(** A coder that always fails with the same error. *)
Definition coder_failing (e : Exc) (n : nat) (c : CoderCall)
  (g : gmap string Git) : CoderResult * gmap string Git := (CoderFails e, g).

Definition demo_env
  (the_coder : nat -> CoderCall -> gmap string Git -> CoderResult * gmap string Git)
  : Collaborators :=
  mkCollaborators
    (fun _ => inr ["tests/test_b.py::test_one"; "tests/test_a.py::test_one";
                   "tests/test_b.py::test_two"])
    (fun cfg => "aider_" ++ model_name cfg)
    (fun _ _ _ => "Here is your task")
    (fun _ => ["src/a.py"; "src/b.py"])
    (fun _ lint => if lint then "pre-commit run" else "")
    (path_of "logs/aider")
    {[ "lite" := ["demo"; "other"] ]}
    demo_abspath demo_resolve the_coder.

Definition demo_config : AgentConfig := mkAgentConfig "aider" "gpt-4o" 3 true false.

Definition demo_config_no_tests : AgentConfig :=
  mkAgentConfig "aider" "gpt-4o" 3 false false.

Definition demo_instance : RepoInstance := mkRepoInstance "org/Demo" "c0" "tests".

(** A repository whose branch of the run exists already and has moved
    away from the base commit. *)
Definition stale_git : Git :=
  mkGit {[ "main" := "c0"; "aider_gpt-4o" := "c7" ]} (OnBranch "main")
        {[ "c0"; "c7" ]}.

Definition fresh_git : Git :=
  mkGit {[ "main" := "c0" ]} (OnBranch "main") {[ "c0" ]}.

Definition demo_world (g : Git) : World :=
  mkWorld "/work" std_stdout std_stderr {[ "/work/repos/demo" := g ]}
    [] [] None [] [] [] [] [].

(** The coder of the retry scenario: two failures of the service, then
    success. *)
Definition flaky_env : Collaborators :=
  demo_env (coder_script [CoderFails (ExternalError "APIConnectionError");
                          CoderFails (ExternalError "APIConnectionError");
                          CoderDone]).

(** A dataset of three records and the configuration that selects the
    split ["lite"] of [demo_env]. *)
Definition demo_dataset : list DatasetRecord :=
  [EDict {[ "repo" := FStr "org/demo"; "base_commit" := FStr "c0" ]};
   EDict {[ "repo" := FStr "org/unlisted" ]};
   ENotDict].

Definition demo_commit0 (split : string) : Commit0Config :=
  mkCommit0Config "commit0" "test" split "repos".

(** An operating system on which every command runs to its end, except
    that a command with a null byte in it cannot be launched:
    [subprocess.Popen] raises [ValueError] for it. *)
Definition nul : string := String (ascii_of_nat 0) EmptyString.

Definition newline : string := String (ascii_of_nat 10) EmptyString.

Definition popen_checking_nul (n : nat) (cmd : string) : Baseline.ProcOutcome :=
  if PyStr.occurs nul cmd
  then Baseline.ProcRaises (ValueError "embedded null byte")
  else Baseline.Completed "done" "".

(** The baseline on a repository whose archive of test ids holds the
    text [ids]. *)
Definition demo_baseline (ids : string) : Baseline.BCollaborators :=
  Baseline.mkBCollaborators
    (fun _ => inr [Baseline.mkTarMember true (Some ids)])
    (fun _ => true)
    (fun _ => "src/a.py src/b.py")
    (fun _ _ _ _ => "Here is your task")
    popen_checking_nul.

Definition two_test_files : string :=
  "tests/test_a.py::test_one" ++ newline ++ "tests/test_b.py::test_one".

(** The same, with a null byte in the path of the first test file. *)
Definition two_test_files_nul : string :=
  "tests/test_a" ++ nul ++ ".py::test_one" ++ newline ++ "tests/test_b.py::test_one".

Definition demo_bworld : Baseline.BWorld := Baseline.mkBWorld "/work" [] [].

(** The coder of the interruption scenario: a failure of the service,
    then the user interrupts. *)
Definition interrupted_env : Collaborators :=
  demo_env (coder_script [CoderFails (ExternalError "APIConnectionError");
                          CoderFails KeyboardInterrupt]).

(** * Properties *)

(** ** The string and path functions on concrete inputs *)

Example split_test_id :
  PyStr.split ":" "tests/test_a.py::test_x" = ["tests/test_a.py"; ""; "test_x"].
Proof. reflexivity. Qed.

Example split_empty : PyStr.split ":" "" = [""].
Proof. reflexivity. Qed.

Example replace_py_then_slash :
  log_name "tests/test_a.py" = "tests__test_a".
Proof. reflexivity. Qed.

Example replace_does_not_overlap : PyStr.replace "aa" "b" "aaa" = "ba".
Proof. reflexivity. Qed.

Example replace_empty_pattern : PyStr.replace "" "-" "ab" = "-a-b-".
Proof. reflexivity. Qed.

Example normalize_repo_name_ex : normalize_repo_name "Web3.py" = "web3-py".
Proof. reflexivity. Qed.

Example sorted_set_ex : sorted_set ["b"; "a"; "b"; "c"; "a"] = ["a"; "b"; "c"].
Proof. vm_compute. reflexivity. Qed.

Example path_div_ex :
  path_of "logs/aider" // "with_tests" // "tests__test_a" =
  mkPath "" ["logs"; "aider"; "with_tests"; "tests__test_a"].
Proof. reflexivity. Qed.

Example path_div_dot :
  path_of "logs/aider" // "no_tests" // "." = path_of "logs/aider" // "no_tests".
Proof. reflexivity. Qed.

Example path_div_absolute : path_of "logs/aider" // "/tmp/x" = mkPath "/" ["tmp"; "x"].
Proof. reflexivity. Qed.

Example os_path_join_ex : os_path_join "repos" "demo" = "repos/demo".
Proof. reflexivity. Qed.

Example os_path_dirname_ex :
  List.map os_path_dirname ["/a/b/.agent.yaml"; "/a"; "a"; "a//b"; "//a"]
  = ["/a/b"; "/"; ""; "a"; "//"].
Proof. reflexivity. Qed.

Example path_str_ex :
  path_str (path_of "logs/aider" // "no_tests" // ".agent.yaml")
  = "logs/aider/no_tests/.agent.yaml".
Proof. reflexivity. Qed.

Example after_last_ex : after_last "/" "org/sub/demo" = "demo".
Proof. reflexivity. Qed.

(** ** Strings *)

Section Strings.

Implicit Types (s t : string) (c : ascii).

Lemma split_nonempty sep s : PyStr.split sep s <> [].
Proof.
  destruct s as [|c s]; simpl; [done|].
  destruct (Ascii.eqb c sep); [done|]. by destruct (PyStr.split sep s).
Qed.

Lemma prefix_cons a s b t :
  String.prefix (String a s) (String b t) = Ascii.eqb a b && String.prefix s t.
Proof.
  simpl. destruct (ascii_dec a b) as [->|Hne].
  - by rewrite Ascii.eqb_refl.
  - by apply Ascii.eqb_neq in Hne as ->.
Qed.

Lemma prefix_nil s : String.prefix "" s = true.
Proof. by destruct s. Qed.

Lemma occurs_cons old c s :
  PyStr.occurs old (String c s) = false ->
  String.prefix old (String c s) = false /\ PyStr.occurs old s = false.
Proof. simpl. intros H. by apply orb_false_elim in H. Qed.

Lemma occurs_char_cons sep c s :
  PyStr.occurs (String sep "") (String c s) =
  Ascii.eqb sep c || PyStr.occurs (String sep "") s.
Proof.
  cbn [PyStr.occurs]. by rewrite prefix_cons, prefix_nil, andb_true_r.
Qed.

Lemma append_cons c s t : String c s ++ t = String c (s ++ t).
Proof. reflexivity. Qed.

Lemma append_nil_r s : s ++ "" = s.
Proof. induction s as [|c s IH]; [done|]. by rewrite append_cons, IH. Qed.

Lemma append_assoc s t u : (s ++ t) ++ u = s ++ (t ++ u).
Proof. induction s as [|c s IH]; [done|]. by rewrite !append_cons, IH. Qed.

Lemma hd_split sep s : List.hd "" (PyStr.split sep s) = before_first sep s.
Proof.
  induction s as [|c s IH]; simpl; [done|].
  destruct (Ascii.eqb c sep); [done|].
  destruct (PyStr.split sep s) eqn:Hs; simpl in *; [|by rewrite IH].
  by destruct (split_nonempty sep s).
Qed.

(** [before_first] is a prefix, holds no separator and stops at the
    first one. *)
Lemma before_first_spec sep s :
  exists rest, s = before_first sep s ++ rest
    /\ PyStr.occurs (String sep "") (before_first sep s) = false
    /\ (rest = "" \/ String.prefix (String sep "") rest = true).
Proof.
  induction s as [|c s (rest & Hs & Hocc & Hrest)].
  - exists "". by intuition.
  - cbn [before_first]. destruct (Ascii.eqb c sep) eqn:Hc.
    + exists (String c s). split; [done|]. split; [done|]. right.
      by rewrite prefix_cons, prefix_nil, (Ascii.eqb_sym sep c), Hc.
    + exists rest. split; [by rewrite append_cons, <-Hs|]. split; [|done].
      by rewrite occurs_char_cons, Hocc, (Ascii.eqb_sym sep c), Hc.
Qed.

(** A split is the string itself when it holds no separator; otherwise
    its last field is what follows the last separator. *)
Lemma split_last_cases sep s :
  (PyStr.split sep s = [s] /\ PyStr.occurs (String sep "") s = false)
  \/ (exists pre w ws, PyStr.split sep s = w :: ws /\ ws <> []
        /\ s = pre ++ String sep (List.last ws "")
        /\ PyStr.occurs (String sep "") (List.last ws "") = false).
Proof.
  induction s as [|c s IH]; [by left|].
  cbn [PyStr.split]. destruct (Ascii.eqb c sep) eqn:Hc.
  - apply Ascii.eqb_eq in Hc as ->. right.
    destruct IH as [[Hs Hocc]|(pre & w & ws & Hs & Hne & Heq & Hocc)].
    + exists "", "", [s]. rewrite Hs. by intuition.
    + exists (String sep pre), "", (w :: ws). rewrite Hs.
      split; [done|]. split; [done|].
      assert (Hl : List.last (w :: ws) "" = List.last ws "")
        by (by destruct ws).
      rewrite Hl. split; [|done]. by rewrite append_cons, <-Heq.
  - destruct IH as [[Hs Hocc]|(pre & w & ws & Hs & Hne & Heq & Hocc)].
    + left. rewrite Hs. split; [done|].
      by rewrite occurs_char_cons, Hocc, (Ascii.eqb_sym sep c), Hc.
    + right. rewrite Hs. exists (String c pre), (String c w), ws.
      split; [done|]. split; [done|]. split; [|done].
      by rewrite append_cons, <-Heq.
Qed.

Lemma last_split_spec sep s :
  exists pre, s = pre ++ List.last (PyStr.split sep s) ""
    /\ PyStr.occurs (String sep "") (List.last (PyStr.split sep s) "") = false
    /\ (pre = "" \/ exists pre', pre = pre' ++ String sep "").
Proof.
  destruct (split_last_cases sep s)
    as [[Hs Hocc]|(pre & w & ws & Hs & Hne & Heq & Hocc)].
  - exists "". rewrite Hs. simpl. by intuition.
  - assert (Hl : List.last (PyStr.split sep s) "" = List.last ws "").
    { rewrite Hs. by destruct ws. }
    rewrite Hl. exists (pre ++ String sep "").
    split; [by rewrite append_assoc|]. split; [done|]. right. by exists pre.
Qed.

End Strings.

(** ** [sorted(list(set(xs)))] *)

Section SortedSet.

Implicit Types (xs l : list string) (x : string).

Lemma sorted_set_perm xs :
  sorted_set xs ≡ₚ elements (list_to_set (C := gset string) xs).
Proof. apply merge_sort_Permutation. Qed.

Lemma sorted_set_elem xs x : x ∈ sorted_set xs <-> x ∈ xs.
Proof.
  rewrite sorted_set_perm, elem_of_elements. apply elem_of_list_to_set.
Qed.

Lemma sorted_set_NoDup xs : NoDup (sorted_set xs).
Proof. rewrite sorted_set_perm. apply NoDup_elements. Qed.

Lemma sorted_set_le xs : StronglySorted String.le (sorted_set xs).
Proof. apply StronglySorted_merge_sort; apply _. Qed.

Lemma strict_of_NoDup l :
  StronglySorted String.le l -> NoDup l -> StronglySorted (strict String.le) l.
Proof.
  induction 1 as [|x l Hl IH Hx]; intros Hnd; [constructor|].
  apply NoDup_cons in Hnd as [Hnotin Hnd]. constructor; [by apply IH|].
  apply Forall_forall. intros y Hy. split.
  - by eapply Forall_forall in Hx.
  - intros Hyx. eapply Forall_forall in Hx; [|done].
    assert (x = y) as -> by (by apply (anti_symm String.le)). done.
Qed.

(** The list is strictly increasing: sorted, and free of duplicates. *)
Lemma sorted_set_strict xs : StronglySorted (strict String.le) (sorted_set xs).
Proof. apply strict_of_NoDup; [apply sorted_set_le|apply sorted_set_NoDup]. Qed.

(** It is the only strictly increasing list of the distinct elements of
    [xs], whatever order the set lists them in and however they are
    sorted. *)
Lemma sorted_set_unique xs l :
  StronglySorted (strict String.le) l -> (forall x, x ∈ l <-> x ∈ xs) ->
  l = sorted_set xs.
Proof.
  intros Hl Hel.
  assert (Hle : StronglySorted String.le l).
  { clear Hel. induction Hl as [|x l Hl IH Hx]; constructor; [done|].
    eapply Forall_impl; [exact Hx|]. by intros y [? _]. }
  assert (Hnd : NoDup l).
  { clear Hel Hle. induction Hl as [|x l Hl IH Hx]; constructor; [|done].
    intros Hin. eapply Forall_forall in Hx; [|done]. by destruct Hx as [? []]. }
  apply (StronglySorted_unique String.le); [done|apply sorted_set_le|].
  apply NoDup_Permutation; [done|apply sorted_set_NoDup|].
  intros x. by rewrite Hel, sorted_set_elem.
Qed.

End SortedSet.

(** ** Log directories *)

Section LogNames.

Implicit Types (s t : string) (c : ascii).

Lemma replace_slash_cons c s :
  PyStr.replace "/" "__" (String c s) =
  if Ascii.eqb c "/" then String "_" (String "_" (PyStr.replace "/" "__" s))
  else String c (PyStr.replace "/" "__" s).
Proof.
  unfold PyStr.replace. cbn [PyStr.replace_go].
  rewrite prefix_cons, prefix_nil, andb_true_r.
  rewrite (Ascii.eqb_sym "/" c). by destruct (Ascii.eqb c "/").
Qed.

Lemma replace_slash_nil : PyStr.replace "/" "__" "" = "".
Proof. reflexivity. Qed.

(** The result of replacing the slashes holds no slash. *)
Lemma replace_slash_no_slash s :
  PyStr.occurs "/" (PyStr.replace "/" "__" s) = false.
Proof.
  induction s as [|c s IH]; [done|].
  rewrite replace_slash_cons. destruct (Ascii.eqb c "/") eqn:Hc.
  - by rewrite !occurs_char_cons, IH.
  - by rewrite occurs_char_cons, IH, (Ascii.eqb_sym "/" c), Hc.
Qed.

(** Replacing ["/"] by ["__"] is one-to-one on strings that hold neither
    ["__"] nor ["_/"]. *)
Lemma replace_slash_inj s t :
  PyStr.occurs "__" s = false -> PyStr.occurs "_/" s = false ->
  PyStr.occurs "__" t = false -> PyStr.occurs "_/" t = false ->
  PyStr.replace "/" "__" s = PyStr.replace "/" "__" t -> s = t.
Proof.
  revert t. induction s as [|c s IH]; intros [|d t] Hs1 Hs2 Ht1 Ht2 Heq.
  - done.
  - rewrite replace_slash_cons in Heq. by destruct (Ascii.eqb d "/").
  - rewrite replace_slash_cons in Heq. by destruct (Ascii.eqb c "/").
  - apply occurs_cons in Hs1 as [Hs1 Hs1'], Hs2 as [Hs2 Hs2'].
    apply occurs_cons in Ht1 as [Ht1 Ht1'], Ht2 as [Ht2 Ht2'].
    rewrite !replace_slash_cons in Heq.
    destruct (Ascii.eqb c "/") eqn:Hc, (Ascii.eqb d "/") eqn:Hd.
    + apply Ascii.eqb_eq in Hc as ->, Hd as ->.
      injection Heq as Heq. f_equal. by apply IH.
    + injection Heq as <- Heq. exfalso. clear IH.
      destruct t as [|e t]; [done|].
      change (PyStr.replace_go "/" "__" 0) with (PyStr.replace "/" "__") in Heq.
      rewrite replace_slash_cons in Heq.
      rewrite !prefix_cons, prefix_nil in Ht1, Ht2. simpl in Ht1, Ht2.
      destruct (Ascii.eqb e "/") eqn:He.
      * apply Ascii.eqb_eq in He as ->. done.
      * injection Heq as <- _. done.
    + injection Heq as -> Heq. exfalso. clear IH.
      destruct s as [|e s]; [done|].
      change (PyStr.replace_go "/" "__" 0) with (PyStr.replace "/" "__") in Heq.
      rewrite replace_slash_cons in Heq.
      rewrite !prefix_cons, prefix_nil in Hs1, Hs2. simpl in Hs1, Hs2.
      destruct (Ascii.eqb e "/") eqn:He.
      * apply Ascii.eqb_eq in He as ->. done.
      * injection Heq as -> _. done.
    + injection Heq as -> Heq. f_equal. by apply IH.
Qed.

(** Deleting [.py] from [stem.py] gives the stem when the stem holds no
    [.py] itself. *)
Lemma replace_py_stem s :
  PyStr.occurs ".py" s = false -> PyStr.replace ".py" "" (s ++ ".py") = s.
Proof.
  unfold PyStr.replace. induction s as [|c s IH]; intros Hocc; [done|].
  apply occurs_cons in Hocc as [Hpre Hocc].
  rewrite append_cons. cbn [PyStr.replace_go].
  assert (Hno : String.prefix ".py" (String c (s ++ ".py")) = false).
  { rewrite prefix_cons in Hpre |- *.
    destruct (Ascii.eqb "." c); [|done]. simpl in Hpre |- *.
    destruct s as [|d s]; [done|]. rewrite append_cons.
    rewrite prefix_cons in Hpre |- *.
    destruct (Ascii.eqb "p" d); [|done]. simpl in Hpre |- *.
    destruct s as [|e s]; [done|]. rewrite append_cons.
    rewrite prefix_cons, prefix_nil in Hpre. rewrite prefix_cons, prefix_nil.
    done. }
  rewrite Hno. by rewrite IH.
Qed.

Lemma log_name_stem s :
  PyStr.occurs ".py" s = false ->
  log_name (s ++ ".py") = PyStr.replace "/" "__" s.
Proof. intros H. unfold log_name. by rewrite replace_py_stem. Qed.

Lemma clean_stem_spec s :
  clean_stem s = true ->
  PyStr.occurs ".py" s = false /\ PyStr.occurs "__" s = false
  /\ PyStr.occurs "_/" s = false /\ s <> "" /\ s <> ".".
Proof.
  unfold clean_stem. rewrite !andb_true_iff, !negb_true_iff.
  intros [[[[Ha Hb] Hc] Hd] He].
  apply String.eqb_neq in Hd, He. by intuition.
Qed.

(** A segment without a slash is parsed as itself. *)
Lemma split_no_sep sep s :
  PyStr.occurs (String sep "") s = false -> PyStr.split sep s = [s].
Proof.
  destruct (split_last_cases sep s)
    as [[Hs _]|(pre & w & ws & _ & _ & -> & _)]; [done|].
  intros Hocc. exfalso. revert Hocc. clear.
  induction pre as [|c pre IH].
  - change ("" ++ ?x) with x. rewrite occurs_char_cons.
    by rewrite Ascii.eqb_refl.
  - rewrite append_cons, occurs_char_cons. intros H.
    apply orb_false_elim in H as [_ H]. by apply IH.
Qed.

Lemma path_div_plain p seg :
  PyStr.occurs "/" seg = false -> seg <> "" -> seg <> "." ->
  p // seg = mkPath (root p) (parts p ++ [seg]).
Proof.
  intros Hocc H1 H2. unfold path_div, parse_parts.
  rewrite (split_no_sep "/" seg Hocc).
  assert (Hroot : splitroot seg = "").
  { destruct seg as [|c seg]; [done|].
    rewrite occurs_char_cons in Hocc. apply orb_false_elim in Hocc as [Hc _].
    apply Ascii.eqb_neq in Hc.
    unfold splitroot. destruct c as [[] [] [] [] [] [] [] []]; try done. }
  rewrite Hroot. simpl. unfold keep_part.
  apply String.eqb_neq in H1, H2. by rewrite H1, H2.
Qed.

Lemma log_name_clean s :
  clean_stem s = true ->
  log_name (s ++ ".py") = PyStr.replace "/" "__" s
  /\ PyStr.occurs "/" (log_name (s ++ ".py")) = false
  /\ log_name (s ++ ".py") <> "" /\ log_name (s ++ ".py") <> ".".
Proof.
  intros (Hpy & Huu & Hus & Hne & Hnd)%clean_stem_spec.
  rewrite (log_name_stem s Hpy).
  split; [done|]. split; [apply replace_slash_no_slash|].
  split; intros Heq.
  - apply Hne. by apply replace_slash_inj.
  - apply Hnd. by apply replace_slash_inj.
Qed.

Lemma log_dir_inj (p : Path) s t :
  clean_stem s = true -> clean_stem t = true ->
  p // log_name (s ++ ".py") = p // log_name (t ++ ".py") -> s = t.
Proof.
  intros Hs Ht Heq.
  destruct (log_name_clean s Hs) as (Es & Hs1 & Hs2 & Hs3).
  destruct (log_name_clean t Ht) as (Et & Ht1 & Ht2 & Ht3).
  rewrite !path_div_plain in Heq by done.
  injection Heq as Heq. apply app_inv_head in Heq. injection Heq as Heq.
  rewrite Es, Et in Heq.
  apply clean_stem_spec in Hs as (_ & ? & ? & _), Ht as (_ & ? & ? & _).
  by apply replace_slash_inj.
Qed.

(** C5, as amended: the log directories of two file names [stem.py] with
    clean stems (no [.py], no ["__"], no ["_/"] in the stem, the stem
    neither empty nor ["."]) are distinct paths when the names are
    distinct, in test-feedback mode and in no-test mode alike. *)
Theorem log_dir_distinct (E : Collaborators) (cfg : AgentConfig)
  (local_repo repo_path run_id message : string) (target_edit_files : list string)
  (stem1 stem2 : string) :
  clean_stem stem1 = true -> clean_stem stem2 = true ->
  stem1 ++ ".py" <> stem2 ++ ".py" ->
  inv_log_dir (test_invocation E cfg local_repo repo_path run_id
                 target_edit_files (stem1 ++ ".py"))
    <> inv_log_dir (test_invocation E cfg local_repo repo_path run_id
                      target_edit_files (stem2 ++ ".py"))
  /\ inv_log_dir (file_invocation E cfg local_repo message (stem1 ++ ".py"))
    <> inv_log_dir (file_invocation E cfg local_repo message (stem2 ++ ".py")).
Proof.
  intros H1 H2 Hne. unfold test_invocation, file_invocation.
  cbn [inv_log_dir]. split; intros Heq; apply Hne; f_equal;
    by eapply log_dir_inj.
Qed.

End LogNames.

(** The amended C5 at two test files of one directory. *)
Lemma log_dir_distinct_witness :
  inv_log_dir (test_invocation (demo_env coder_ok) demo_config "/work/repos/demo"
                 "/work/repos/demo" "aider_gpt-4o" [] ("tests/test_a" ++ ".py"))
    <> inv_log_dir (test_invocation (demo_env coder_ok) demo_config "/work/repos/demo"
                      "/work/repos/demo" "aider_gpt-4o" [] ("tests/test_b" ++ ".py"))
  /\ inv_log_dir (file_invocation (demo_env coder_ok) demo_config "/work/repos/demo"
                    "msg" ("tests/test_a" ++ ".py"))
    <> inv_log_dir (file_invocation (demo_env coder_ok) demo_config "/work/repos/demo"
                      "msg" ("tests/test_b" ++ ".py")).
Proof.
  apply (log_dir_distinct (demo_env coder_ok) demo_config "/work/repos/demo"
           "/work/repos/demo" "aider_gpt-4o" "msg" [] "tests/test_a" "tests/test_b").
  - reflexivity.
  - reflexivity.
  - vm_compute. discriminate.
Defined.

(** C5 as stated fails: the names [tests/test_a.py] and
    [tests__test_a.py] are distinct and get the same log directory, in
    both modes. *)
Lemma log_dir_collision :
  "tests/test_a.py" <> "tests__test_a.py"
  /\ inv_log_dir (test_invocation (demo_env coder_ok) demo_config "/work/repos/demo"
                    "/work/repos/demo" "aider_gpt-4o" [] "tests/test_a.py")
     = inv_log_dir (test_invocation (demo_env coder_ok) demo_config "/work/repos/demo"
                      "/work/repos/demo" "aider_gpt-4o" [] "tests__test_a.py")
  /\ inv_log_dir (file_invocation (demo_env coder_ok) demo_config "/work/repos/demo"
                    "msg" "tests/test_a.py")
     = inv_log_dir (file_invocation (demo_env coder_ok) demo_config "/work/repos/demo"
                      "msg" "tests__test_a.py").
Proof. split; [discriminate|]. split; vm_compute; reflexivity. Qed.

(** ** The monad: what a piece of code leaves untouched *)

Section Frame.

Context {X : Type} (f : World -> X).

Lemma preserves_ret {A} (a : A) : preserves f (ret a).
Proof. by intros w. Qed.

Lemma preserves_raise {A} e : preserves f (raise (A := A) e).
Proof. by intros w. Qed.

Lemma preserves_gets {A} (g : World -> A) : preserves f (gets g).
Proof. by intros w. Qed.

Lemma preserves_lift {A} (r : Exc + A) : preserves f (lift r).
Proof. by destruct r; intros w. Qed.

Lemma preserves_modify (g : World -> World) :
  (forall w, f (g w) = f w) -> preserves f (modify g).
Proof. intros H w. apply H. Qed.

Lemma preserves_bind {A B} (m : M World A) (k : A -> M World B) :
  preserves f m -> (forall a, preserves f (k a)) -> preserves f (bind m k).
Proof.
  intros Hm Hk w. unfold bind. specialize (Hm w).
  destruct (m w) as [[a| |] w1]; simpl in *; [|done..].
  by rewrite Hk.
Qed.

Lemma preserves_if {A} (b : bool) (m1 m2 : M World A) :
  preserves f m1 -> preserves f m2 -> preserves f (if b then m1 else m2).
Proof. by destruct b. Qed.

Lemma preserves_for_each {A} (xs : list A) (body : A -> M World unit) :
  (forall x, preserves f (body x)) -> preserves f (for_each xs body).
Proof.
  intros Hb. induction xs as [|x xs IH]; [apply preserves_ret|].
  apply preserves_bind; [apply Hb|done].
Qed.

Lemma preserves_retrying {A} wait fuel n (fn : M World A) :
  (forall d w, f (sleep d w) = f w) -> preserves f fn ->
  preserves f (retrying wait fuel n fn).
Proof.
  intros Hs Hf. revert n. induction fuel as [|fuel IH]; intros n w; [done|].
  cbn [retrying]. specialize (Hf w).
  destruct (fn w) as [[a|e|] w1]; simpl in *; [done| |done].
  destruct (is_Exception e); [|done]. by rewrite IH, Hs.
Qed.

Lemma preserves_on_repo {A} path (op : Git -> Exc + (A * Git)) :
  (forall r w, f (set_repos r w) = f w) -> preserves f (on_repo path op).
Proof.
  intros H w. unfold on_repo. destruct (repos w !! path); [|done].
  destruct (op _) as [|[]]; [done|]. apply H.
Qed.

Lemma preserves_open_repo path : preserves f (open_repo path).
Proof. intros w. unfold open_repo. by destruct (repos w !! path). Qed.

Lemma preserves_unpack2 xs : preserves f (unpack2 xs).
Proof. intros w. by destruct xs as [|? [|? [|? ?]]]. Qed.

Lemma preserves_deref c : preserves f (deref c).
Proof. intros w. by destruct c. Qed.

Lemma preserves_with_DirContext {A} d (body : M World A) :
  (forall d w, f (set_cwd d w) = f w) -> preserves f body ->
  preserves f (with_DirContext d body).
Proof.
  intros Hc Hb w. unfold with_DirContext. specialize (Hb (set_cwd d w)).
  destruct (body _) as [r w1]. simpl in *. by rewrite Hc, Hb, Hc.
Qed.

End Frame.

Create HintDb frame discriminated.

#[local] Hint Resolve preserves_ret preserves_raise preserves_gets
  preserves_lift preserves_bind preserves_if preserves_for_each
  preserves_retrying preserves_on_repo preserves_open_repo preserves_unpack2
  preserves_deref preserves_with_DirContext : frame.
#[local] Hint Extern 2 (preserves _ (modify _)) =>
  apply preserves_modify; intros; reflexivity : frame.
#[local] Hint Extern 1 (_ = _) => reflexivity : frame.

Ltac frame := unfold branch_setup; eauto 20 with frame.

Section Agents.

Variable E : Collaborators.

Lemma coder_run_agent_runs c : preserves agent_runs (coder_run E c).
Proof. intros w. unfold coder_run. by destruct (coder E _ _ _) as [[] ?]. Qed.

Lemma coder_run_sleeps c : preserves sleeps (coder_run E c).
Proof. intros w. unfold coder_run. by destruct (coder E _ _ _) as [[] ?]. Qed.

Lemma coder_run_cwd c : preserves cwd (coder_run E c).
Proof. intros w. unfold coder_run. by destruct (coder E _ _ _) as [[] ?]. Qed.

Lemma coder_run_submitted c : preserves submitted (coder_run E c).
Proof. intros w. unfold coder_run. by destruct (coder E _ _ _) as [[] ?]. Qed.

Lemma branch_setup_agent_runs lr rid base :
  preserves agent_runs (branch_setup lr rid base).
Proof. frame. Qed.

Lemma branch_setup_coder_runs lr rid base :
  preserves coder_runs (branch_setup lr rid base).
Proof. frame. Qed.

End Agents.

(** ** [AiderAgents.run]: one attempt, then the retry loop *)

Section Retry.

Variable E : Collaborators.
Variable self : AiderAgents.
Variables (message test_cmd lint_cmd : string) (fnames : list string).
Variable log_dir : Path.

Let body := AiderAgents_run_body E self message test_cmd lint_cmd fnames log_dir.
Let call here := coder_call_of E self message test_cmd lint_cmd fnames here log_dir.

(** What one attempt does: the coder is called once, with both streams
    bound to the log file; when it finishes the streams are bound to the
    interpreter's original ones, when it raises they stay on the log
    file. *)
Lemma run_body_spec w :
  let lf := log_file_of E (cwd w) log_dir in
  let cr := coder E (length (coder_runs w)) (call (cwd w)) (repos w) in
  agent_runs (body w).2 = agent_runs w
  /\ sleeps (body w).2 = sleeps w
  /\ cwd (body w).2 = cwd w
  /\ repos (body w).2 = cr.2
  /\ coder_runs (body w).2 =
       (coder_runs w
          ++ [mkCoderRun (call (cwd w)) (log_stream lf) (log_stream lf)])%list
  /\ match cr.1 with
     | CoderDone => (body w).1 = Ret tt
                    /\ sys_stdout (body w).2 = std_stdout
                    /\ sys_stderr (body w).2 = std_stderr
     | CoderFails e => (body w).1 = Raise e
                       /\ sys_stdout (body w).2 = log_stream lf
                       /\ sys_stderr (body w).2 = log_stream lf
     end.
Proof.
  subst body call. unfold AiderAgents_run_body, coder_call_of, log_file_of.
  unfold bind, gets, modify, coder_run. cbn.
  destruct (coder E _ _ _) as [[|e] g]; cbn; by repeat split.
Qed.

Lemma body_agent_runs : preserves agent_runs body.
Proof. intros w. apply run_body_spec. Qed.

Lemma body_sleeps : preserves sleeps body.
Proof. intros w. apply run_body_spec. Qed.

Lemma body_cwd : preserves cwd body.
Proof. intros w. apply run_body_spec. Qed.

(** An attempt never runs out of fuel: it has no loop. *)
Lemma body_total w : (body w).1 <> OutOfFuel.
Proof.
  destruct (run_body_spec w) as (_ & _ & _ & _ & _ & H).
  destruct (coder E _ _ _).1; destruct H as [-> _]; done.
Qed.

(** The retry loop never lets an [Exception] out: whatever it raises is
    a [BaseException] that is not an [Exception]. *)
Lemma retrying_raises wait fuel n w e :
  (retrying wait fuel n body w).1 = Raise e -> is_Exception e = false.
Proof.
  revert n w. induction fuel as [|fuel IH]; intros n w; [done|].
  cbn [retrying]. destruct (body w) as [[[]|e'|] w1] eqn:Hb; cbn; try done.
  destruct (is_Exception e') eqn:He.
  - apply IH.
  - cbn. by intros [= <-].
Qed.

(** [n] failed attempts and then a successful one: the call returns
    after [n + 1] attempts, having slept after each failed one. *)
Lemma retrying_fail_then_done wait n :
  forall fuel a w,
    n < fuel ->
    (forall i, i < n -> fails_at E (length (coder_runs w) + i)) ->
    done_at E (length (coder_runs w) + n) ->
    let r := retrying wait fuel a body w in
    r.1 = Ret tt
    /\ length (coder_runs r.2) = length (coder_runs w) + (n + 1)
    /\ sleeps r.2 = (sleeps w ++ List.map wait (seq a n))%list
    /\ sys_stdout r.2 = std_stdout /\ sys_stderr r.2 = std_stderr.
Proof.
  induction n as [|n IH]; intros [|fuel] a w Hfuel Hfail Hdone; try lia.
  - cbn [retrying]. destruct (run_body_spec w) as (_ & Hs & _ & _ & Hc & Hr).
    rewrite Nat.add_0_r in Hdone. rewrite Hdone in Hr.
    destruct Hr as (Hr & Ho & He).
    destruct (body w) as [r w1]. cbn in *. subst r. cbn.
    rewrite Hc, Hs, length_app, app_nil_r. cbn. by repeat split.
  - cbn [retrying]. destruct (run_body_spec w) as (_ & Hs & _ & _ & Hc & Hr).
    destruct (Hfail 0) as (e & He & Hf); [lia|].
    rewrite Nat.add_0_r in Hf. rewrite Hf in Hr. destruct Hr as (Hr & _).
    destruct (body w) as [r w1]. cbn in *. subst r. rewrite He.
    assert (Hlen : length (coder_runs (sleep (wait a) w1))
                   = S (length (coder_runs w))).
    { cbn. rewrite Hc, length_app. cbn. lia. }
    destruct (IH fuel (S a) (sleep (wait a) w1)) as (H1 & H2 & H3 & H4).
    + lia.
    + intros i Hi. rewrite Hlen.
      replace (S (length (coder_runs w)) + i)
        with (length (coder_runs w) + S i) by lia.
      apply Hfail. lia.
    + rewrite Hlen.
      by replace (S (length (coder_runs w)) + n)
        with (length (coder_runs w) + S n) by lia.
    + split; [done|]. split; [rewrite H2, Hlen; lia|]. split; [|done].
      rewrite H3. cbn. rewrite Hs. by rewrite <-app_assoc.
Qed.

(** While every attempt fails with an [Exception], the loop goes on: no
    budget of attempts is enough for it to end, and it never raises. *)
Lemma retrying_never_gives_up wait fuel :
  forall a w,
    (forall i, fails_at E (length (coder_runs w) + i)) ->
    (retrying wait fuel a body w).1 = OutOfFuel.
Proof.
  induction fuel as [|fuel IH]; intros a w Hfail; [done|].
  cbn [retrying]. destruct (run_body_spec w) as (_ & _ & _ & _ & Hc & Hr).
  destruct (Hfail 0) as (e & He & Hf).
  rewrite Nat.add_0_r in Hf. rewrite Hf in Hr. destruct Hr as (Hr & _).
  destruct (body w) as [r w1]. cbn in *. subst r. rewrite He.
  apply IH. intros i. cbn. rewrite Hc, length_app. cbn.
  replace (length (coder_runs w) + 1 + i)
    with (length (coder_runs w) + S i) by lia.
  apply Hfail.
Qed.

End Retry.

(** ** The waits of [wait_exponential(multiplier=1, min=4, max=10)] *)

Lemma wait_bounds n : (4 <= wait_exponential 1 4 10 n <= 10)%Z.
Proof. unfold wait_exponential. lia. Qed.

Lemma wait_mono n m :
  n <= m -> (wait_exponential 1 4 10 n <= wait_exponential 1 4 10 m)%Z.
Proof.
  intros Hnm. unfold wait_exponential.
  assert (2 ^ (Z.of_nat n - 1) <= 2 ^ (Z.of_nat m - 1))%Z; [|lia].
  destruct (Z.le_gt_cases 0 (Z.of_nat n - 1)).
  - apply Z.pow_le_mono_r; lia.
  - rewrite (Z.pow_neg_r 2 (Z.of_nat n - 1)) by lia. apply Z.pow_nonneg. lia.
Qed.

Lemma wait_first_five :
  List.map (wait_exponential 1 4 10) [1; 2; 3; 4; 5] = [4; 4; 4; 8; 10]%Z.
Proof. reflexivity. Qed.

Lemma wait_capped n : 5 <= n -> wait_exponential 1 4 10 n = 10%Z.
Proof.
  intros Hn. unfold wait_exponential.
  assert (2 ^ 4 <= 2 ^ (Z.of_nat n - 1))%Z by (apply Z.pow_le_mono_r; lia).
  change (2 ^ 4)%Z with 16%Z in *. lia.
Qed.

Lemma waits_sorted a n :
  StronglySorted Z.le (List.map (wait_exponential 1 4 10) (seq a n)).
Proof.
  revert a. induction n as [|n IH]; intros a; cbn; constructor; [apply IH|].
  apply Forall_forall. intros d Hd. apply list_elem_of_In in Hd.
  apply in_map_iff in Hd as (m & <- & Hm). apply in_seq in Hm.
  apply wait_mono. lia.
Qed.

(** C4, as amended: when the first [n] attempts of an invocation fail
    with an [Exception] and the next one succeeds, [AiderAgents.run]
    returns after exactly [n + 1] attempts, for every [n] (there is no
    bound on the number of attempts); it has waited after each failed
    attempt, the waits are those of the exponential policy, each between
    4 and 10, and they never decrease; after two failures they are 4
    and 4. *)
Theorem retry_backoff (E : Collaborators) (self : AiderAgents)
  (message test_cmd lint_cmd : string) (fnames : list string) (log_dir : Path)
  (fuel n : nat) (w : World) :
  n < fuel ->
  (forall i, i < n -> fails_at E (length (coder_runs w) + i)) ->
  done_at E (length (coder_runs w) + n) ->
  let r := AiderAgents_run E fuel self message test_cmd lint_cmd fnames log_dir w in
  let waits := List.map (wait_exponential 1 4 10) (seq 1 n) in
  r.1 = Ret tt
  /\ length (coder_runs r.2) = length (coder_runs w) + (n + 1)
  /\ sleeps r.2 = (sleeps w ++ waits)%list
  /\ Forall (fun d => 4 <= d <= 10)%Z waits
  /\ StronglySorted Z.le waits
  /\ (n = 2 -> waits = [4; 4]%Z).
Proof.
  intros Hfuel Hfail Hdone r waits.
  pose proof (retrying_fail_then_done E self message test_cmd lint_cmd fnames
                log_dir (wait_exponential 1 4 10) n fuel 1
                (log_agent_run (mkInvocation message test_cmd lint_cmd fnames log_dir) w)
                Hfuel Hfail Hdone) as (H1 & H2 & H3 & _).
  split; [exact H1|]. split; [exact H2|]. split; [exact H3|].
  split; [|split; [apply waits_sorted|by intros ->]].
  apply Forall_forall. intros d Hd. apply list_elem_of_In in Hd.
  apply in_map_iff in Hd as (m & <- & _). apply wait_bounds.
Qed.

(** The amended C4 at two failures followed by a success. *)
Lemma retry_backoff_witness :
  let r := AiderAgents_run flaky_env 5 (mkAiderAgents 3 "gpt-4o") "msg" "" ""
             ["src/a.py"] (path_of "logs/aider/no_tests/src__a")
             (demo_world fresh_git) in
  let waits := List.map (wait_exponential 1 4 10) (seq 1 2) in
  r.1 = Ret tt
  /\ length (coder_runs r.2) = length (coder_runs (demo_world fresh_git)) + (2 + 1)
  /\ sleeps r.2 = (sleeps (demo_world fresh_git) ++ waits)%list
  /\ Forall (fun d => 4 <= d <= 10)%Z waits
  /\ StronglySorted Z.le waits
  /\ (2 = 2 -> waits = [4; 4]%Z).
Proof.
  apply (retry_backoff flaky_env (mkAiderAgents 3 "gpt-4o") "msg" "" ""
           ["src/a.py"] (path_of "logs/aider/no_tests/src__a") 5 2
           (demo_world fresh_git)).
  - lia.
  - intros i Hi. exists (ExternalError "APIConnectionError").
    split; [reflexivity|]. intros c g.
    destruct i as [|[|i]]; [reflexivity|reflexivity|lia].
  - intros c g. reflexivity.
Defined.

(** C4 as stated fails: after two failures and a success the call has
    made three attempts and waited 4 and then 4 seconds; the waits are
    not strictly increasing. *)
Lemma retry_waits_not_increasing :
  let r := AiderAgents_run flaky_env 5 (mkAiderAgents 3 "gpt-4o") "msg" "" ""
             ["src/a.py"] (path_of "logs/aider/no_tests/src__a")
             (demo_world fresh_git) in
  r.1 = Ret tt
  /\ length (coder_runs r.2) = 3
  /\ sleeps r.2 = [4; 4]%Z
  /\ ~ StronglySorted Z.lt (sleeps r.2).
Proof.
  vm_compute. split; [done|]. split; [done|]. split; [done|].
  intros H. apply StronglySorted_inv in H as [_ H].
  apply Forall_cons in H as [H _]. by vm_compute in H.
Qed.

(** ** Where the output goes during and after an invocation *)

Section Streams.

Variable E : Collaborators.
Variable self : AiderAgents.
Variables (message test_cmd lint_cmd : string) (fnames : list string).
Variable log_dir : Path.

Let body := AiderAgents_run_body E self message test_cmd lint_cmd fnames log_dir.

Lemma retrying_streams wait fuel :
  forall a w,
    let r := retrying wait fuel a body w in
    let lf := log_file_of E (cwd w) log_dir in
    (exists new, coder_runs r.2 = (coder_runs w ++ new)%list
       /\ Forall (fun cr => run_stdout cr = log_stream lf
                            /\ run_stderr cr = log_stream lf) new)
    /\ cwd r.2 = cwd w
    /\ (r.1 = Ret tt -> sys_stdout r.2 = std_stdout /\ sys_stderr r.2 = std_stderr).
Proof.
  induction fuel as [|fuel IH]; intros a w.
  { cbn. split; [exists []; by rewrite app_nil_r|done]. }
  cbn [retrying].
  destruct (run_body_spec E self message test_cmd lint_cmd fnames log_dir w)
    as (_ & _ & Hcwd & _ & Hc & Hr).
  fold body in Hcwd, Hc, Hr.
  destruct (body w) as [[[]|e|] w1] eqn:Hb; cbn in *.
  - split; [eexists; split; [exact Hc|by repeat constructor]|].
    split; [done|]. intros _.
    destruct (coder E _ _ _).1; by destruct Hr as (? & ? & ?).
  - destruct (is_Exception e).
    + specialize (IH (S a) (sleep (wait a) w1)). cbn in IH.
      rewrite Hcwd in IH. destruct IH as ((new & Hnew & Hall) & Hcwd' & Hret).
      split; [|done]. eexists. rewrite Hnew, Hc, <-app_assoc. split; [done|].
      constructor; [done|exact Hall].
    + cbn. split; [eexists; split; [exact Hc|by repeat constructor]|done].
  - split; [eexists; split; [exact Hc|by repeat constructor]|done].
Qed.

End Streams.

(** C7, as amended: while the coder runs, in every attempt of an
    invocation, [sys.stdout] and [sys.stderr] are bound to the log file
    of the work unit; when [AiderAgents.run] returns they are bound to
    the interpreter's original streams [sys.__stdout__] and
    [sys.__stderr__], whatever they were bound to before the call. *)
Theorem streams_during_and_after (E : Collaborators) (fuel : nat)
  (self : AiderAgents) (message test_cmd lint_cmd : string)
  (fnames : list string) (log_dir : Path) (w : World) :
  let r := AiderAgents_run E fuel self message test_cmd lint_cmd fnames log_dir w in
  let lf := log_file_of E (cwd w) log_dir in
  Forall (fun cr => run_stdout cr = log_stream lf /\ run_stderr cr = log_stream lf)
         (new_coder_runs w r.2)
  /\ (r.1 = Ret tt -> sys_stdout r.2 = std_stdout /\ sys_stderr r.2 = std_stderr).
Proof.
  intros r lf.
  pose proof (retrying_streams E self message test_cmd lint_cmd fnames log_dir
                (wait_exponential 1 4 10) fuel 1
                (log_agent_run (mkInvocation message test_cmd lint_cmd fnames log_dir) w))
    as ((new & Hnew & Hall) & _ & Hret).
  split; [|exact Hret].
  unfold new_coder_runs. subst r. unfold AiderAgents_run, bind, modify.
  cbn in Hnew |- *. rewrite Hnew. by rewrite drop_app_length.
Qed.

(** The amended C7 on a run that returns: a coder that succeeds, called
    in a process whose standard output was sent to the null device. *)
Lemma streams_during_and_after_witness :
  let w := set_stdout devnull (demo_world fresh_git) in
  let r := AiderAgents_run (demo_env coder_ok) 1 (mkAiderAgents 3 "gpt-4o")
             "msg" "" "" ["src/a.py"] (path_of "logs/aider/no_tests/src__a") w in
  let lf := log_file_of (demo_env coder_ok) (cwd w)
              (path_of "logs/aider/no_tests/src__a") in
  Forall (fun cr => run_stdout cr = log_stream lf /\ run_stderr cr = log_stream lf)
         (new_coder_runs w r.2)
  /\ (r.1 = Ret tt -> sys_stdout r.2 = std_stdout /\ sys_stderr r.2 = std_stderr).
Proof.
  apply (streams_during_and_after (demo_env coder_ok) 1 (mkAiderAgents 3 "gpt-4o")
           "msg" "" "" ["src/a.py"] (path_of "logs/aider/no_tests/src__a")
           (set_stdout devnull (demo_world fresh_git))).
Defined.

(** C7 as stated fails on both ways out.  In a worker of a fleet of
    several repositories [sys.stdout] is the null device before the
    invocation ([run_agent.py:162]); after an invocation that succeeds it
    is [sys.__stdout__], not the null device.  And when the coder raises,
    the body of [AiderAgents.run] is left with both streams still bound
    to the log file (lines 100-104 are skipped); so is the retried call
    when the exception is one that is not retried. *)
Lemma streams_not_restored_to_prior :
  (let w := set_stdout devnull (demo_world fresh_git) in
   let r := AiderAgents_run (demo_env coder_ok) 1 (mkAiderAgents 3 "gpt-4o")
              "msg" "" "" ["src/a.py"] (path_of "logs/aider/no_tests/src__a") w in
   r.1 = Ret tt /\ sys_stdout w = devnull /\ sys_stdout r.2 = std_stdout
   /\ sys_stdout r.2 <> sys_stdout w)
  /\ (let w := demo_world fresh_git in
      let r := AiderAgents_run_body
                 (demo_env (coder_failing (ExternalError "APIConnectionError")))
                 (mkAiderAgents 3 "gpt-4o") "msg" "" "" ["src/a.py"]
                 (path_of "logs/aider/no_tests/src__a") w in
      r.1 = Raise (ExternalError "APIConnectionError")
      /\ sys_stdout r.2 <> sys_stdout w /\ sys_stderr r.2 <> sys_stderr w)
  /\ (let w := demo_world fresh_git in
      let r := AiderAgents_run (demo_env (coder_failing KeyboardInterrupt)) 1
                 (mkAiderAgents 3 "gpt-4o") "msg" "" "" ["src/a.py"]
                 (path_of "logs/aider/no_tests/src__a") w in
      r.1 = Raise KeyboardInterrupt
      /\ sys_stdout r.2 <> sys_stdout w /\ sys_stderr r.2 <> sys_stderr w).
Proof. vm_compute. by repeat split. Qed.

(** ** Branch setup *)

Section Branch.

Implicit Types (w : World) (g : Git).

Lemma on_repo_ret {A} path (op : Git -> Exc + (A * Git)) w a w' :
  on_repo path op w = (Ret a, w') ->
  exists g g', repos w !! path = Some g /\ op g = inr (a, g')
    /\ w' = set_repos (<[path := g']> (repos w)) w.
Proof.
  unfold on_repo. destruct (repos w !! path) as [g|]; [|done].
  destruct (op g) as [e|[a' g']] eqn:Hop; [done|].
  intros [= -> <-]. by exists g, g'.
Qed.

Lemma on_repo_run {A} path (op : Git -> Exc + (A * Git)) w g a g' :
  repos w !! path = Some g -> op g = inr (a, g') ->
  on_repo path op w = (Ret a, set_repos (<[path := g']> (repos w)) w).
Proof. intros Hg Hop. unfold on_repo. by rewrite Hg, Hop. Qed.

Lemma create_branch_ret branch c g u g' :
  create_branch branch c g = inr (u, g') ->
  HEAD g' = OnBranch branch /\ objects g' = objects g
  /\ exists t, heads g' !! branch = Some t.
Proof.
  unfold create_branch. destruct (heads g !! branch) as [t|] eqn:Ht.
  - intros [= _ <-]. cbn. eauto.
  - case_bool_decide; [|done]. intros [= _ <-]. cbn.
    rewrite lookup_insert_eq. eauto.
Qed.

Lemma create_branch_run branch c g :
  c ∈ objects g -> exists g', create_branch branch c g = inr (tt, g').
Proof.
  intros Hc. unfold create_branch. destruct (heads g !! branch); [eauto|].
  rewrite bool_decide_true by done. eauto.
Qed.

Lemma repo_commit_ret name g c g' :
  repo_commit name g = inr (c, g') -> g' = g /\ heads g !! name = Some c.
Proof.
  unfold repo_commit. destruct (heads g !! name); [|done]. by intros [= -> ->].
Qed.

Lemma git_reset_hard_ret c g u g' b :
  git_reset_hard c g = inr (u, g') -> HEAD g = OnBranch b ->
  heads g' !! b = Some c /\ HEAD g' = OnBranch b /\ objects g' = objects g.
Proof.
  unfold git_reset_hard. case_bool_decide; [|done]. intros Hr Hb.
  rewrite Hb in Hr. injection Hr as _ <-. cbn. by rewrite lookup_insert_eq.
Qed.

Lemma git_reset_hard_run c g :
  c ∈ objects g -> exists g', git_reset_hard c g = inr (tt, g').
Proof.
  intros Hc. unfold git_reset_hard. rewrite bool_decide_true by done.
  destruct (HEAD g); eauto.
Qed.

(** When the setup of lines 84-90 returns, the branch of the run is
    checked out and its tip is the base commit. *)
Lemma branch_setup_spec local_repo run_id base w w1 :
  branch_setup local_repo run_id base w = (Ret tt, w1) ->
  exists g1, repos w1 !! local_repo = Some g1
    /\ heads g1 !! run_id = Some base
    /\ HEAD g1 = OnBranch run_id.
Proof.
  unfold branch_setup, bind.
  destruct (on_repo _ (create_branch _ _) w) as [[[]|e|] w2] eqn:H1; try done.
  apply on_repo_ret in H1 as (g & g2 & Hg & Hop1 & ->).
  apply create_branch_ret in Hop1 as (Hhead & _ & t & Ht).
  destruct (on_repo _ (repo_commit _) _) as [[c|e|] w3] eqn:H2; try done.
  apply on_repo_ret in H2 as (g3 & g4 & Hg3 & Hop2 & ->).
  cbn in Hg3. rewrite lookup_insert_eq in Hg3. injection Hg3 as <-.
  apply repo_commit_ret in Hop2 as [-> Hc]. cbn.
  case_bool_decide as Hne.
  - intros H3. apply on_repo_ret in H3 as (g5 & g6 & Hg5 & Hop3 & ->).
    cbn in Hg5. rewrite lookup_insert_eq in Hg5. injection Hg5 as <-.
    eapply git_reset_hard_ret in Hop3 as (? & ? & _); [|done].
    exists g6. cbn. by rewrite lookup_insert_eq.
  - subst c. intros [= <-].
    exists g2. cbn. by rewrite lookup_insert_eq.
Qed.

(** The setup does return when the repository exists and holds the base
    commit; the commits of the repository stay. *)
Lemma branch_setup_total local_repo run_id base w g :
  repos w !! local_repo = Some g -> base ∈ objects g ->
  exists w1 g1, branch_setup local_repo run_id base w = (Ret tt, w1)
    /\ repos w1 !! local_repo = Some g1 /\ objects g1 = objects g.
Proof.
  intros Hg Hbase. unfold branch_setup, bind.
  destruct (create_branch_run run_id base g Hbase) as [g2 Hop1].
  rewrite (on_repo_run _ _ _ _ _ _ Hg Hop1).
  apply create_branch_ret in Hop1 as (Hhead & Hobj & t & Ht).
  erewrite on_repo_run; [|cbn; apply lookup_insert_eq|unfold repo_commit; by rewrite Ht].
  cbn. case_bool_decide.
  - destruct (git_reset_hard_run base g2) as [g3 Hop3]; [by rewrite Hobj|].
    erewrite on_repo_run; [|cbn; apply lookup_insert_eq|exact Hop3].
    eapply git_reset_hard_ret in Hop3 as (_ & _ & Hobj3); [|done].
    eexists _, g3. split; [done|]. cbn. rewrite lookup_insert_eq.
    split; [done|]. by rewrite Hobj3.
  - eexists _, g2. split; [done|]. cbn. by rewrite lookup_insert_eq.
Qed.

End Branch.

(** ** Code without a retry loop comes to an end *)

Section Terminates.

Context {W : Type}.

Lemma terminates_ret {A} (a : A) : terminates (W := W) (ret a).
Proof. by intros w. Qed.

Lemma terminates_raise {A} e : terminates (W := W) (raise (A := A) e).
Proof. by intros w. Qed.

Lemma terminates_gets {A} (g : W -> A) : terminates (gets g).
Proof. by intros w. Qed.

Lemma terminates_modify (g : W -> W) : terminates (modify g).
Proof. by intros w. Qed.

Lemma terminates_lift {A} (r : Exc + A) : terminates (W := W) (lift r).
Proof. by destruct r; intros w. Qed.

Lemma terminates_bind {A B} (m : M W A) (k : A -> M W B) :
  terminates m -> (forall a, terminates (k a)) -> terminates (bind m k).
Proof.
  intros Hm Hk w. unfold bind. specialize (Hm w).
  destruct (m w) as [[a| |] w1]; cbn in *; [apply Hk|done..].
Qed.

Lemma terminates_if {A} (b : bool) (m1 m2 : M W A) :
  terminates m1 -> terminates m2 -> terminates (if b then m1 else m2).
Proof. by destruct b. Qed.

Lemma terminates_unpack2 xs : terminates (W := W) (unpack2 xs).
Proof. intros w. by destruct xs as [|? [|? [|? ?]]]. Qed.

Lemma terminates_deref c : terminates (W := W) (deref c).
Proof. intros w. by destruct c. Qed.

Lemma terminates_for_each {A} (xs : list A) (body : A -> M W unit) :
  (forall x, terminates (body x)) -> terminates (for_each xs body).
Proof.
  intros Hb. induction xs as [|x xs IH]; [apply terminates_ret|].
  apply terminates_bind; [apply Hb|done].
Qed.

End Terminates.

Lemma terminates_on_repo {A} path (op : Git -> Exc + (A * Git)) :
  terminates (on_repo path op).
Proof.
  intros w. unfold on_repo. destruct (repos w !! path); [|done].
  by destruct (op _) as [|[]].
Qed.

Lemma terminates_open_repo path : terminates (open_repo path).
Proof. intros w. unfold open_repo. by destruct (repos w !! path). Qed.

#[local] Hint Resolve terminates_ret terminates_raise terminates_gets
  terminates_modify terminates_lift terminates_bind terminates_if
  terminates_unpack2 terminates_deref terminates_for_each terminates_on_repo
  terminates_open_repo : frame.

(** ** The run of one repository *)

Ltac mstep := cbn [unpack2 ret lift raise gets modify deref fst snd].

Section Run.

Variable E : Collaborators.
Variable fuel : nat.
Variable repo_base_dir : string.
Variable example : RepoInstance.

Implicit Types (w : World) (ctx : RunContext) (agent_config : option AgentConfig).

(** What the setup of lines 57-91 has computed and done when it
    returns. *)
Lemma repo_setup_ret agent_config w ctx w1 :
  repo_setup E repo_base_dir agent_config example w = (Ret ctx, w1) ->
  exists org name ids cfg,
    PyStr.split "/" (repo example) = [org; name]
    /\ get_tests E (normalize_repo_name name) = inr ids
    /\ agent_config = Some cfg /\ agent_name cfg = "aider"
    /\ let repo_path :=
         abspath E (cwd w) (os_path_join repo_base_dir (normalize_repo_name name)) in
       ctx = mkRunContext cfg (mkAiderAgents (max_iteration cfg) (model_name cfg))
               repo_path repo_path (args2string E cfg)
               (sorted_set (List.map test_path ids))
               (get_target_edit_files E repo_path)
       /\ branch_tip w1 repo_path (args2string E cfg) = Some (base_commit example).
Proof.
  unfold repo_setup, bind.
  destruct (PyStr.split "/" (repo example)) as [|org [|name [|? ?]]] eqn:Hsplit;
    try done. mstep.
  destruct (get_tests E (normalize_repo_name name)) as [e|ids] eqn:Hids; [done|].
  mstep. unfold open_repo at 1.
  destruct (repos w !! _) as [g|] eqn:Hg; [|done].
  destruct agent_config as [cfg|]; [|done]. mstep.
  destruct (String.eqb (agent_name cfg) "aider") eqn:Hname; [|done]. mstep.
  destruct (branch_setup _ _ _ _) as [[[]|e|] w2] eqn:Hb; try done.
  intros [= <- <-]. apply branch_setup_spec in Hb as (g1 & Hg1 & Htip & _).
  exists org, name, ids, cfg. apply String.eqb_eq in Hname.
  repeat split; try done. unfold branch_tip. by rewrite Hg1.
Qed.

Lemma repo_setup_agent_runs agent_config :
  preserves agent_runs (repo_setup E repo_base_dir agent_config example).
Proof. unfold repo_setup. frame. Qed.

Lemma repo_setup_coder_runs agent_config :
  preserves coder_runs (repo_setup E repo_base_dir agent_config example).
Proof. unfold repo_setup. frame. Qed.


(** The setup has no loop: it returns or it raises. *)
Lemma repo_setup_terminates agent_config :
  terminates (repo_setup E repo_base_dir agent_config example).
Proof. unfold repo_setup. frame. Qed.

Lemma inv_eta (i : Invocation) :
  mkInvocation (inv_message i) (inv_test_cmd i) (inv_lint_cmd i) (inv_fnames i)
    (inv_log_dir i) = i.
Proof. by destruct i. Qed.

(** An invocation adds itself to the invocations made, however it ends,
    and leaves the working directory where it was. *)
Lemma agent_run_trace agent (i : Invocation) w :
  agent_runs (agent_run E fuel agent i w).2 = (agent_runs w ++ [i])%list
  /\ cwd (agent_run E fuel agent i w).2 = cwd w.
Proof.
  unfold agent_run, AiderAgents_run, bind, modify. cbn [fst snd].
  split.
  - rewrite preserves_retrying; [cbn; by rewrite inv_eta|done|].
    apply body_agent_runs.
  - rewrite preserves_retrying; [done|done|]. apply body_cwd.
Qed.

(** The loop over the work units: the invocations made are a prefix of
    those planned, in their order; all of them when the loop returns, and
    at least one when it does not. *)
Lemma for_each_trace {A} agent (mk : A -> Invocation) (xs : list A) :
  forall w,
    let r := for_each xs (fun x => agent_run E fuel agent (mk x)) w in
    cwd r.2 = cwd w
    /\ exists k, k <= length xs
         /\ agent_runs r.2 = (agent_runs w ++ List.map mk (take k xs))%list
         /\ (r.1 = Ret tt -> k = length xs)
         /\ (r.1 <> Ret tt -> 0 < k).
Proof.
  induction xs as [|x xs IH]; intros w.
  - cbn. split; [done|]. exists 0. rewrite app_nil_r. by repeat split.
  - cbn [for_each]. unfold bind.
    destruct (agent_run_trace agent (mk x) w) as [Htr Hcwd].
    destruct (agent_run E fuel agent (mk x) w) as [[[]|e|] w1] eqn:Hrun;
      cbn [fst snd] in *.
    + destruct (IH w1) as (Hcwd' & k & Hk & Hruns & Hret & Hfail).
      split; [by rewrite Hcwd'|]. exists (S k). cbn [length take List.map].
      split; [lia|]. split; [by rewrite Hruns, Htr, <-app_assoc|].
      split; [intros H; by rewrite Hret|intros _; lia].
    + split; [done|]. exists 1. cbn [length take]. rewrite take_0.
      split; [lia|]. split; [by rewrite Htr|]. split; [done|intros _; lia].
    + split; [done|]. exists 1. cbn [length take]. rewrite take_0.
      split; [lia|]. split; [by rewrite Htr|]. split; [done|intros _; lia].
Qed.

(** A loop whose body fails on an element stops there: what follows the
    element is not run. *)
Lemma for_each_stops {W A} (body : A -> M W unit) pre x post
  (st st1 st2 : W) r :
  for_each pre body st = (Ret tt, st1) ->
  body x st1 = (r, st2) -> r <> Ret tt ->
  for_each (pre ++ x :: post) body st = (r, st2).
Proof.
  revert st. induction pre as [|y pre IH]; intros st.
  - cbn. intros [= <-] Hx Hr. unfold bind. rewrite Hx.
    destruct r as [[]| |]; done.
  - cbn [for_each app]. unfold bind.
    destruct (body y st) as [[[]|e|] st'] eqn:Hy; try done. apply IH.
Qed.

(** The work of lines 92-130 follows the plan. *)
Lemma run_work_trace cfg0 ctx w :
  let r := run_work E fuel (Some cfg0) example ctx w in
  cwd r.2 = cwd w
  /\ exists k, k <= length (plan E example ctx)
       /\ agent_runs r.2 = (agent_runs w ++ take k (plan E example ctx))%list
       /\ (r.1 = Ret tt -> k = length (plan E example ctx)).
Proof.
  unfold run_work, with_DirContext, plan.
  destruct (run_tests (ctx_cfg ctx)).
  - match goal with |- context [for_each ?xs (fun x => agent_run _ _ ?a (@?mk x)) ?w0] =>
      destruct (for_each_trace a mk xs w0) as (Hcwd & k & Hk & Hruns & Hret & _);
      destruct (for_each xs (fun x => agent_run E fuel a (mk x)) w0) as [r w1]
    end.
    cbn [fst snd] in *. split; [done|]. exists k.
    rewrite List.length_map, List.firstn_map. by repeat split.
  - unfold bind, gets, modify. cbn [fst snd].
    match goal with |- context [for_each ?xs (fun x => agent_run _ _ ?a (@?mk x)) ?w0] =>
      destruct (for_each_trace a mk xs w0) as (Hcwd & k & Hk & Hruns & Hret & _);
      destruct (for_each xs (fun x => agent_run E fuel a (mk x)) w0) as [r w1]
    end.
    cbn [fst snd] in *. split; [done|]. exists k.
    rewrite List.length_map, List.firstn_map. by repeat split.
Qed.

Lemma run_agent_for_repo_unfold agent_config w :
  run_agent_for_repo E fuel repo_base_dir agent_config example w =
  match repo_setup E repo_base_dir agent_config example w with
  | (Ret ctx, w1) => run_work E fuel agent_config example ctx w1
  | (Raise e, w1) => (Raise e, w1)
  | (OutOfFuel, w1) => (OutOfFuel, w1)
  end.
Proof. unfold run_agent_for_repo, bind. by destruct (repo_setup _ _ _ _ _) as [[] ?]. Qed.

(** The invocations of a run are a prefix of the planned ones, and all
    of them when the run returns. *)
Lemma run_trace org name ids cfg w :
  PyStr.split "/" (repo example) = [org; name] ->
  get_tests E (normalize_repo_name name) = inr ids ->
  let r := run_agent_for_repo E fuel repo_base_dir (Some cfg) example w in
  let planned :=
    planned_invocations E repo_base_dir cfg example (cwd w) name ids in
  exists k, k <= length planned
    /\ agent_runs r.2 = (agent_runs w ++ take k planned)%list
    /\ (r.1 = Ret tt -> k = length planned).
Proof.
  intros Hsplit Hids r planned. subst r. rewrite run_agent_for_repo_unfold.
  pose proof (repo_setup_agent_runs (Some cfg) w) as Hruns.
  destruct (repo_setup _ _ _ _ _) as [[ctx|e|] w1] eqn:Hsetup; cbn [snd] in Hruns.
  - apply repo_setup_ret in Hsetup
      as (org' & name' & ids' & cfg' & Hsplit' & Hids' & [= <-] & _ & Hctx & _).
    rewrite Hsplit in Hsplit'. injection Hsplit' as <- <-.
    rewrite Hids in Hids'. injection Hids' as <-.
    destruct (run_work_trace cfg ctx w1) as (_ & k & Hk & Htr & Hret).
    assert (Hplan : plan E example ctx = planned) by (by rewrite Hctx).
    rewrite Hplan in *. exists k. by rewrite Htr, Hruns.
  - exists 0. cbn. rewrite take_0, app_nil_r. split; [lia|]. by split.
  - exists 0. cbn. rewrite take_0, app_nil_r. split; [lia|]. by split.
Qed.

(** With a coder that never fails, every invocation returns at its
    first attempt. *)
Lemma agent_run_ok agent (i : Invocation) w :
  (forall j, done_at E j) -> 1 <= fuel ->
  (agent_run E fuel agent i w).1 = Ret tt.
Proof.
  intros Hdone Hfuel. unfold agent_run, AiderAgents_run, bind, modify.
  cbn [fst snd].
  apply (retrying_fail_then_done E agent (inv_message i) (inv_test_cmd i)
           (inv_lint_cmd i) (inv_fnames i) (inv_log_dir i)
           (wait_exponential 1 4 10) 0 fuel 1); [lia|intros; lia|apply Hdone].
Qed.

Lemma for_each_ok {W A} (body : A -> M W unit) (xs : list A) :
  (forall x st, (body x st).1 = Ret tt) ->
  forall st, (for_each xs body st).1 = Ret tt.
Proof.
  intros Hb. induction xs as [|x xs IH]; intros st; [done|].
  cbn [for_each]. unfold bind. specialize (Hb x st).
  destruct (body x st) as [[[]|e|] st']; cbn in *; first [done|apply IH].
Qed.

Lemma run_work_ok cfg0 ctx w :
  (forall j, done_at E j) -> 1 <= fuel ->
  (run_work E fuel (Some cfg0) example ctx w).1 = Ret tt.
Proof.
  intros Hdone Hfuel. unfold run_work, with_DirContext.
  destruct (run_tests (ctx_cfg ctx)).
  - match goal with |- context [for_each ?xs ?b ?w0] =>
      pose proof (for_each_ok b xs (fun x st => agent_run_ok _ _ st Hdone Hfuel) w0) as H;
      destruct (for_each xs b w0) end.
    done.
  - unfold bind, gets, modify. cbn [fst snd].
    match goal with |- context [for_each ?xs ?b ?w0] =>
      pose proof (for_each_ok b xs (fun x st => agent_run_ok _ _ st Hdone Hfuel) w0) as H;
      destruct (for_each xs b w0) end.
    done.
Qed.

(** The setup returns when the repository name has one slash, the tests
    are found, the repository exists and holds the base commit, and the
    agent is aider. *)
Lemma repo_setup_ok org name ids cfg w g :
  PyStr.split "/" (repo example) = [org; name] ->
  get_tests E (normalize_repo_name name) = inr ids ->
  repos w !! abspath E (cwd w)
               (os_path_join repo_base_dir (normalize_repo_name name)) = Some g ->
  base_commit example ∈ objects g ->
  agent_name cfg = "aider" ->
  exists ctx w1,
    repo_setup E repo_base_dir (Some cfg) example w = (Ret ctx, w1).
Proof.
  intros Hsplit Hids Hg Hbase Hname. unfold repo_setup, bind.
  rewrite Hsplit. mstep. rewrite Hids. mstep. unfold open_repo at 1.
  rewrite Hg. mstep. rewrite Hname. cbn [String.eqb Ascii.eqb Bool.eqb]. mstep.
  match goal with |- context [branch_setup ?lr ?rid ?b ?w0] =>
    destruct (branch_setup_total lr rid b w0 g) as (w1 & g1 & Hb & _); [done..|];
    rewrite Hb end.
  eauto.
Qed.

Lemma run_returns org name ids cfg w g :
  PyStr.split "/" (repo example) = [org; name] ->
  get_tests E (normalize_repo_name name) = inr ids ->
  repos w !! abspath E (cwd w)
               (os_path_join repo_base_dir (normalize_repo_name name)) = Some g ->
  base_commit example ∈ objects g ->
  agent_name cfg = "aider" ->
  (forall j, done_at E j) -> 1 <= fuel ->
  (run_agent_for_repo E fuel repo_base_dir (Some cfg) example w).1 = Ret tt.
Proof.
  intros Hsplit Hids Hg Hbase Hname Hdone Hfuel.
  rewrite run_agent_for_repo_unfold.
  destruct (repo_setup_ok org name ids cfg w g) as (ctx & w1 & ->); try done.
  by apply run_work_ok.
Qed.

End Run.

(** ** The claims about the run of one repository *)

Lemma test_files_spec (ids : list string) :
  StronglySorted (strict String.le) (sorted_set (List.map test_path ids))
  /\ forall p, p ∈ sorted_set (List.map test_path ids)
               <-> exists i, i ∈ ids /\ p = before_first ":" i.
Proof.
  split; [apply sorted_set_strict|]. intros p.
  rewrite sorted_set_elem, list_elem_of_In, in_map_iff.
  split; intros (i & H1 & H2).
  - exists i. rewrite list_elem_of_In. split; [done|].
    by rewrite <-H1; unfold test_path; rewrite hd_split.
  - exists i. rewrite <-list_elem_of_In. split; [|done].
    by rewrite H2; unfold test_path; rewrite hd_split.
Qed.

(** C1.  Let the repository name have one slash and the tests be found.
    In test-feedback mode the planned invocations are one per test-file
    path, the paths being the parts of the test identifiers before the
    first [:], in strictly increasing order (sorted, no duplicates); in
    no-test mode they are one per target-edit file, in the order of the
    list.  The invocations a run makes are a prefix of the planned ones,
    and all of them, once each and in order, when the run returns; and
    the run returns when the repository exists with its base commit, the
    agent is aider and the coder does not fail. *)
Theorem one_invocation_per_file (E : Collaborators) (fuel : nat)
  (repo_base_dir : string) (example : RepoInstance) (cfg : AgentConfig)
  (org name : string) (ids : list string) (w : World) :
  PyStr.split "/" (repo example) = [org; name] ->
  get_tests E (normalize_repo_name name) = inr ids ->
  let r := run_agent_for_repo E fuel repo_base_dir (Some cfg) example w in
  let repo_path :=
    abspath E (cwd w) (os_path_join repo_base_dir (normalize_repo_name name)) in
  let target_edit_files := get_target_edit_files E repo_path in
  let planned := planned_invocations E repo_base_dir cfg example (cwd w) name ids in
  (if run_tests cfg then
     exists test_files,
       planned = List.map (test_invocation E cfg repo_path repo_path
                             (args2string E cfg) target_edit_files) test_files
       /\ StronglySorted (strict String.le) test_files
       /\ forall p, p ∈ test_files <-> exists i, i ∈ ids /\ p = before_first ":" i
   else
     planned = List.map (file_invocation E cfg repo_path
                           (get_message E cfg repo_path (TestDir (test_dir example))))
                        target_edit_files)
  /\ (exists k, k <= length planned /\ new_agent_runs w r.2 = take k planned)
  /\ (r.1 = Ret tt -> new_agent_runs w r.2 = planned)
  /\ (forall g, repos w !! repo_path = Some g -> base_commit example ∈ objects g ->
        agent_name cfg = "aider" -> (forall j, done_at E j) -> 1 <= fuel ->
        r.1 = Ret tt).
Proof.
  intros Hsplit Hids r repo_path target_edit_files planned.
  destruct (run_trace E fuel repo_base_dir example org name ids cfg w Hsplit Hids)
    as (k & Hk & Htr & Hret).
  fold r planned in Hk, Htr, Hret.
  assert (Hnew : new_agent_runs w r.2 = take k planned).
  { unfold new_agent_runs. by rewrite Htr, drop_app_length. }
  split; [|split; [by exists k|split]].
  - subst planned. unfold planned_invocations. destruct (run_tests cfg); [|done].
    eexists. split; [done|]. apply test_files_spec.
  - intros Hr. rewrite Hnew, (Hret Hr). apply firstn_all.
  - intros g Hg Hbase Hname Hdone Hfuel.
    by eapply run_returns.
Qed.

(** C1 on a run in test-feedback mode: three test identifiers in two
    files give two invocations, for [tests/test_a.py] and then
    [tests/test_b.py]. *)
Lemma one_invocation_per_file_witness :
  let r := run_agent_for_repo (demo_env coder_ok) 1 "repos" (Some demo_config)
             demo_instance (demo_world fresh_git) in
  r.1 = Ret tt
  /\ List.map inv_test_cmd (new_agent_runs (demo_world fresh_git) r.2) =
     ["python -m commit0 test /work/repos/demo tests/test_a.py --branch aider_gpt-4o";
      "python -m commit0 test /work/repos/demo tests/test_b.py --branch aider_gpt-4o"].
Proof.
  destruct (one_invocation_per_file (demo_env coder_ok) 1 "repos" demo_instance
              demo_config "org" "Demo"
              ["tests/test_b.py::test_one"; "tests/test_a.py::test_one";
               "tests/test_b.py::test_two"]
              (demo_world fresh_git) eq_refl eq_refl) as (_ & _ & Hall & Hret).
  assert (Hr : (run_agent_for_repo (demo_env coder_ok) 1 "repos" (Some demo_config)
                  demo_instance (demo_world fresh_git)).1 = Ret tt).
  { apply (Hret fresh_git); [reflexivity|by vm_compute|reflexivity| |lia].
    intros j c g. reflexivity. }
  split; [exact Hr|]. cbv zeta. rewrite (Hall Hr). vm_compute. reflexivity.
Defined.

(** C9.  In test-feedback mode every invocation of a run is given the
    whole list of target-edit files of the repository; in no-test mode
    the invocations are those made for the target-edit files, one after
    the other, and each is given the one-element list of its own file. *)
Theorem files_given_to_the_agent (E : Collaborators) (fuel : nat)
  (repo_base_dir : string) (example : RepoInstance) (cfg : AgentConfig)
  (org name : string) (ids : list string) (w : World) :
  PyStr.split "/" (repo example) = [org; name] ->
  get_tests E (normalize_repo_name name) = inr ids ->
  let r := run_agent_for_repo E fuel repo_base_dir (Some cfg) example w in
  let repo_path :=
    abspath E (cwd w) (os_path_join repo_base_dir (normalize_repo_name name)) in
  let target_edit_files := get_target_edit_files E repo_path in
  let message := get_message E cfg repo_path (TestDir (test_dir example)) in
  (run_tests cfg = true ->
     Forall (fun inv => inv_fnames inv = target_edit_files) (new_agent_runs w r.2))
  /\ (run_tests cfg = false ->
        exists k,
          new_agent_runs w r.2 =
            List.map (file_invocation E cfg repo_path message) (take k target_edit_files)
          /\ List.map inv_fnames (new_agent_runs w r.2) =
               List.map (fun f => [f]) (take k target_edit_files)
          /\ (r.1 = Ret tt -> k = length target_edit_files)).
Proof.
  intros Hsplit Hids r repo_path target_edit_files message.
  destruct (run_trace E fuel repo_base_dir example org name ids cfg w Hsplit Hids)
    as (k & Hk & Htr & Hret).
  fold r in Htr, Hret.
  assert (Hnew : new_agent_runs w r.2 =
                 take k (planned_invocations E repo_base_dir cfg example (cwd w) name ids)).
  { unfold new_agent_runs. by rewrite Htr, drop_app_length. }
  unfold planned_invocations in Hnew, Hret, Hk.
  fold repo_path target_edit_files message in Hnew, Hret, Hk.
  split; intros Hmode; rewrite Hmode in Hnew, Hret, Hk.
  - rewrite Hnew, List.firstn_map. apply Forall_forall. intros inv Hin.
    apply list_elem_of_In, in_map_iff in Hin as (f & <- & _). done.
  - exists k. rewrite List.length_map in Hret.
    rewrite Hnew, List.firstn_map. split; [done|]. split; [|done].
    by rewrite List.map_map.
Qed.

(** C9 on a run in no-test mode with the target files [src/a.py] and
    [src/b.py]. *)
Lemma files_given_to_the_agent_witness :
  let r := run_agent_for_repo (demo_env coder_ok) 1 "repos"
             (Some demo_config_no_tests) demo_instance (demo_world fresh_git) in
  List.map inv_fnames (new_agent_runs (demo_world fresh_git) r.2) =
  [["src/a.py"]; ["src/b.py"]].
Proof.
  destruct (files_given_to_the_agent (demo_env coder_ok) 1 "repos" demo_instance
              demo_config_no_tests "org" "Demo"
              ["tests/test_b.py::test_one"; "tests/test_a.py::test_one";
               "tests/test_b.py::test_two"]
              (demo_world fresh_git) eq_refl eq_refl) as (_ & Hno).
  destruct (Hno eq_refl) as (k & _ & Hfn & Hk).
  cbv zeta. rewrite Hfn, Hk; [reflexivity|]. vm_compute. reflexivity.
Defined.

(** ** Branch setup within the run *)

Lemma git_commit_objects c0 c g : c0 ∈ objects g -> c0 ∈ objects (git_commit c g).
Proof. intros H. unfold git_commit. destruct (HEAD g); cbn; set_solver. Qed.

Lemma commits_objects c0 cs g :
  c0 ∈ objects g ->
  c0 ∈ objects (List.fold_left (fun g c => git_commit c g) cs g).
Proof.
  revert g. induction cs as [|c cs IH]; intros g H; [done|].
  cbn. apply IH. by apply git_commit_objects.
Qed.

Lemma branch_tip_after_setup local_repo run_id base w w1 :
  branch_setup local_repo run_id base w = (Ret tt, w1) ->
  branch_tip w1 local_repo run_id = Some base.
Proof.
  intros (g1 & Hg1 & Htip & _)%branch_setup_spec.
  unfold branch_tip. by rewrite Hg1.
Qed.

(** C2.  Branch setup (lines 84-90) returns whenever the repository
    exists and holds the base commit, and leaves the tip of the branch of
    the run at the base commit, whatever the branch was before; set up
    again after any commits made on the branch, it returns again and the
    tip is the base commit again.  In a run, either the setup has been
    completed, with the tip at the base commit, before the first
    invocation and before the first call of the coder, or no invocation
    and no call of the coder is made at all. *)
Theorem branch_reset_before_work (E : Collaborators) (fuel : nat)
  (repo_base_dir : string) (agent_config : option AgentConfig)
  (example : RepoInstance) (w : World) :
  (forall local_repo run_id base g,
     repos w !! local_repo = Some g -> base ∈ objects g ->
     exists w1,
       branch_setup local_repo run_id base w = (Ret tt, w1)
       /\ branch_tip w1 local_repo run_id = Some base
       /\ forall commits, exists w3,
            branch_setup local_repo run_id base (commit_all local_repo commits w1)
              = (Ret tt, w3)
            /\ branch_tip w3 local_repo run_id = Some base)
  /\ (let r := run_agent_for_repo E fuel repo_base_dir agent_config example w in
      (exists ctx w1,
         repo_setup E repo_base_dir agent_config example w = (Ret ctx, w1)
         /\ branch_tip w1 (ctx_repo_path ctx) (ctx_run_id ctx)
            = Some (base_commit example)
         /\ agent_runs w1 = agent_runs w /\ coder_runs w1 = coder_runs w
         /\ r = run_work E fuel agent_config example ctx w1)
      \/ (new_agent_runs w r.2 = [] /\ new_coder_runs w r.2 = [])).
Proof.
  split.
  - intros local_repo run_id base g Hg Hbase.
    destruct (branch_setup_total local_repo run_id base w g Hg Hbase)
      as (w1 & g1 & Hrun & Hg1 & Hobj).
    exists w1. split; [done|]. split; [by eapply branch_tip_after_setup|].
    intros commits.
    destruct (branch_setup_total local_repo run_id base
                (commit_all local_repo commits w1)
                (List.fold_left (fun g c => git_commit c g) commits g1))
      as (w3 & g3 & Hrun3 & _).
    + unfold commit_all. cbn. rewrite lookup_alter, decide_True by done.
      by rewrite Hg1.
    + apply commits_objects. by rewrite Hobj.
    + exists w3. split; [done|]. by eapply branch_tip_after_setup.
  - cbv zeta. rewrite run_agent_for_repo_unfold.
    pose proof (repo_setup_agent_runs E repo_base_dir example agent_config w) as Ha.
    pose proof (repo_setup_coder_runs E repo_base_dir example agent_config w) as Hc.
    destruct (repo_setup _ _ _ _ _) as [[ctx|e|] w1] eqn:Hsetup; cbn [snd] in Ha, Hc.
    + left. exists ctx, w1. split; [done|].
      apply repo_setup_ret in Hsetup
        as (org & name & ids & cfg & _ & _ & _ & _ & -> & Htip).
      cbn. by repeat split.
    + right. unfold new_agent_runs, new_coder_runs. cbn.
      by rewrite Ha, Hc, !drop_all.
    + right. unfold new_agent_runs, new_coder_runs. cbn.
      by rewrite Ha, Hc, !drop_all.
Qed.

(** C2 on a repository whose branch of the run exists with a tip that
    is not the base commit: the setup moves it back to the base commit,
    and does so again after two more commits. *)
Lemma branch_reset_before_work_witness :
  exists w1,
    branch_setup "/work/repos/demo" "aider_gpt-4o" "c0" (demo_world stale_git)
      = (Ret tt, w1)
    /\ branch_tip (demo_world stale_git) "/work/repos/demo" "aider_gpt-4o" = Some "c7"
    /\ branch_tip w1 "/work/repos/demo" "aider_gpt-4o" = Some "c0"
    /\ exists w3,
         branch_setup "/work/repos/demo" "aider_gpt-4o" "c0"
           (commit_all "/work/repos/demo" ["c8"; "c9"] w1) = (Ret tt, w3)
         /\ branch_tip (commit_all "/work/repos/demo" ["c8"; "c9"] w1)
              "/work/repos/demo" "aider_gpt-4o" = Some "c9"
         /\ branch_tip w3 "/work/repos/demo" "aider_gpt-4o" = Some "c0".
Proof.
  destruct (branch_reset_before_work (demo_env coder_ok) 1 "repos"
              (Some demo_config) demo_instance (demo_world stale_git))
    as [Hsetup _].
  destruct (Hsetup "/work/repos/demo" "aider_gpt-4o" "c0" stale_git)
    as (w1 & Hrun & Htip & Hagain); [reflexivity|by vm_compute|].
  exists w1. split; [exact Hrun|]. split; [reflexivity|]. split; [exact Htip|].
  destruct (Hagain ["c8"; "c9"]) as (w3 & Hrun3 & Htip3).
  exists w3. split; [exact Hrun3|]. split; [|exact Htip3].
  vm_compute in Hrun. injection Hrun as <-. vm_compute. reflexivity.
Defined.

(** ** Failures *)

Section Failures.

Variable E : Collaborators.
Variable fuel : nat.
Variable example : RepoInstance.

(** No-test mode: when the invocations for the files [pre] return and
    the one for the next file [f] does not, the work ends as that
    invocation ended, and no invocation is made for the files after
    [f]. *)
Lemma run_work_stops (ctx : RunContext) (cfg0 : AgentConfig)
  (pre post : list string) (f : string) (w0 w1 w2 : World) (res : Res unit) :
  run_tests (ctx_cfg ctx) = false ->
  ctx_target_edit_files ctx = (pre ++ f :: post)%list ->
  let inv := file_invocation E (ctx_cfg ctx) (ctx_local_repo ctx)
               (get_message E (ctx_cfg ctx) (ctx_repo_path ctx)
                  (TestDir (test_dir example))) in
  for_each pre (fun f => agent_run E fuel (ctx_agent ctx) (inv f))
    (no_tests_loop_start E ctx w0) = (Ret tt, w1) ->
  agent_run E fuel (ctx_agent ctx) (inv f) w1 = (res, w2) ->
  res <> Ret tt ->
  let r := run_work E fuel (Some cfg0) example ctx w0 in
  r.1 = res /\ new_agent_runs w0 r.2 = List.map inv (pre ++ [f]).
Proof.
  intros Hmode Hfiles inv Hpre Hf Hres r.
  assert (Hrun : r = (res, set_cwd (cwd w0) w2)).
  { subst r. unfold run_work, with_DirContext. rewrite Hmode, Hfiles.
    unfold bind, gets, modify. cbn [fst snd].
    change (fs_op _ (fs_op _ (set_cwd (ctx_repo_path ctx) w0)))
      with (no_tests_loop_start E ctx w0).
    fold inv.
    by rewrite (for_each_stops (fun f => agent_run E fuel (ctx_agent ctx) (inv f))
                  pre f post _ w1 w2 res Hpre Hf Hres). }
  rewrite Hrun. cbn [fst snd]. split; [done|].
  destruct (for_each_trace E fuel (ctx_agent ctx) inv pre (no_tests_loop_start E ctx w0))
    as (_ & k & _ & Hruns & Hk & _).
  rewrite Hpre in Hruns, Hk. cbn [fst snd] in Hruns, Hk.
  rewrite (Hk eq_refl), firstn_all in Hruns.
  destruct (agent_run_trace E fuel (ctx_agent ctx) (inv f) w1) as [Htr _].
  rewrite Hf in Htr. cbn [snd] in Htr.
  unfold new_agent_runs.
  change (agent_runs (set_cwd (cwd w0) w2)) with (agent_runs w2).
  rewrite Htr, Hruns.
  change (agent_runs (no_tests_loop_start E ctx w0)) with (agent_runs w0).
  rewrite <-app_assoc, drop_app_length. by rewrite List.map_app.
Qed.

(** What an invocation raises is never an [Exception]: those are
    retried. *)
Lemma agent_run_raises agent (i : Invocation) (w : World) e :
  (agent_run E fuel agent i w).1 = Raise e -> is_Exception e = false.
Proof.
  unfold agent_run, AiderAgents_run, bind, modify. cbn [fst snd].
  apply retrying_raises.
Qed.

(** While the coder fails with an [Exception] at every call, an
    invocation does not come to an end, whatever the budget. *)
Lemma agent_run_never_ends agent (i : Invocation) (w : World) :
  (forall j, fails_at E j) -> (agent_run E fuel agent i w).1 = OutOfFuel.
Proof.
  intros Hfail. unfold agent_run, AiderAgents_run, bind, modify. cbn [fst snd].
  by apply retrying_never_gives_up.
Qed.

End Failures.

(** C3, as amended.  A failure of the setup (the repository name, test
    discovery, opening the repository, the agent, branch setup) ends the
    run with no invocation and no call of the coder made.  In no-test
    mode, when the invocations for the first target-edit files return and
    the invocation for the next file does not return, the run ends as
    that invocation ended and no invocation is made for the files after
    it.  An invocation never raises an [Exception]: those are retried
    inside it, without bound. *)
Theorem failure_ends_the_run (E : Collaborators) (fuel : nat)
  (repo_base_dir : string) (agent_config : option AgentConfig)
  (example : RepoInstance) (w : World) :
  ((forall ctx, (repo_setup E repo_base_dir agent_config example w).1 <> Ret ctx) ->
   let r := run_agent_for_repo E fuel repo_base_dir agent_config example w in
   r.1 <> Ret tt /\ new_agent_runs w r.2 = [] /\ new_coder_runs w r.2 = [])
  /\ (forall ctx w0 pre f post,
        repo_setup E repo_base_dir agent_config example w = (Ret ctx, w0) ->
        run_tests (ctx_cfg ctx) = false ->
        ctx_target_edit_files ctx = (pre ++ f :: post)%list ->
        let inv := file_invocation E (ctx_cfg ctx) (ctx_local_repo ctx)
                     (get_message E (ctx_cfg ctx) (ctx_repo_path ctx)
                        (TestDir (test_dir example))) in
        let before := for_each pre (fun f => agent_run E fuel (ctx_agent ctx) (inv f))
                        (no_tests_loop_start E ctx w0) in
        before.1 = Ret tt ->
        let failed := agent_run E fuel (ctx_agent ctx) (inv f) before.2 in
        failed.1 <> Ret tt ->
        let r := run_agent_for_repo E fuel repo_base_dir agent_config example w in
        r.1 = failed.1 /\ new_agent_runs w r.2 = List.map inv (pre ++ [f]))
  /\ (forall agent i w' e,
        (agent_run E fuel agent i w').1 = Raise e -> is_Exception e = false).
Proof.
  split; [|split].
  - intros Hfail. cbv zeta. rewrite run_agent_for_repo_unfold.
    pose proof (repo_setup_agent_runs E repo_base_dir example agent_config w) as Ha.
    pose proof (repo_setup_coder_runs E repo_base_dir example agent_config w) as Hc.
    destruct (repo_setup _ _ _ _ _) as [[ctx|e|] w1] eqn:Hsetup; cbn [snd] in Ha, Hc.
    + by destruct (Hfail ctx).
    + unfold new_agent_runs, new_coder_runs. cbn. by rewrite Ha, Hc, !drop_all.
    + unfold new_agent_runs, new_coder_runs. cbn. by rewrite Ha, Hc, !drop_all.
  - intros ctx w0 pre f post Hsetup Hmode Hfiles inv before Hpre failed Hres.
    destruct before as [? w1] eqn:Hbefore. cbn [fst snd] in *. subst.
    destruct failed as [res w2] eqn:Hfailed. cbn [fst snd] in *.
    cbv zeta. rewrite run_agent_for_repo_unfold, Hsetup.
    pose proof (repo_setup_agent_runs E repo_base_dir example agent_config w) as Ha.
    rewrite Hsetup in Ha. cbn [snd] in Ha.
    apply repo_setup_ret in Hsetup as (_ & _ & _ & cfg & _ & _ & -> & _).
    destruct (run_work_stops E fuel example ctx cfg pre post f w0 w1 w2 res
                Hmode Hfiles Hbefore Hfailed Hres) as [Hr Hnew].
    split; [done|]. unfold new_agent_runs in *. by rewrite <-Ha.
  - intros agent i w' e. apply agent_run_raises.
Qed.

(** The amended C3 on a run in no-test mode over [src/a.py] and
    [src/b.py] whose coder leaves by [SystemExit] at its first call: the
    run ends by [SystemExit], and its only invocation is the one for
    [src/a.py]. *)
Lemma failure_ends_the_run_witness :
  let r := run_agent_for_repo (demo_env (coder_failing SystemExit)) 3 "repos"
             (Some demo_config_no_tests) demo_instance (demo_world fresh_git) in
  r.1 = Raise SystemExit
  /\ List.map inv_fnames (new_agent_runs (demo_world fresh_git) r.2) = [["src/a.py"]].
Proof.
  destruct (failure_ends_the_run (demo_env (coder_failing SystemExit)) 3 "repos"
              (Some demo_config_no_tests) demo_instance (demo_world fresh_git))
    as (_ & Hstop & _).
  destruct (repo_setup (demo_env (coder_failing SystemExit)) "repos"
              (Some demo_config_no_tests) demo_instance (demo_world fresh_git))
    as [[ctx|e|] w0] eqn:Hs; [|by vm_compute in Hs..].
  pose proof Hs as Hs'. vm_compute in Hs'. injection Hs' as <- <-.
  destruct (Hstop _ _ [] "src/a.py" ["src/b.py"] eq_refl eq_refl eq_refl eq_refl)
    as [Hr Hnew]; [vm_compute; discriminate|].
  cbv zeta. rewrite Hr, Hnew. vm_compute. by split.
Defined.

(** C3 as stated fails.  In no-test mode over [src/a.py] and
    [src/b.py], when the invocation for [src/a.py] raises (the coder
    leaves by [SystemExit]) the run ends there, and when it fails for
    good with an [Exception] it is retried for ever, whatever the budget
    of attempts; in both cases no invocation is made for [src/b.py]. *)
Lemma failure_stops_later_files :
  (let r := run_agent_for_repo (demo_env (coder_failing SystemExit)) 3 "repos"
              (Some demo_config_no_tests) demo_instance (demo_world fresh_git) in
   r.1 = Raise SystemExit
   /\ List.map inv_fnames (new_agent_runs (demo_world fresh_git) r.2) = [["src/a.py"]])
  /\ (forall fuel,
        let r := run_agent_for_repo
                   (demo_env (coder_failing (ExternalError "APIConnectionError")))
                   fuel "repos" (Some demo_config_no_tests) demo_instance
                   (demo_world fresh_git) in
        r.1 = OutOfFuel
        /\ List.map inv_fnames (new_agent_runs (demo_world fresh_git) r.2)
           = [["src/a.py"]]).
Proof.
  split; [vm_compute; by split|].
  intros fuel. cbv zeta. rewrite run_agent_for_repo_unfold.
  set (E := demo_env (coder_failing (ExternalError "APIConnectionError"))).
  destruct (repo_setup_ok E "repos" demo_instance "org" "Demo"
              ["tests/test_b.py::test_one"; "tests/test_a.py::test_one";
               "tests/test_b.py::test_two"] demo_config_no_tests
              (demo_world fresh_git) fresh_git)
    as (ctx & w0 & Hsetup); [reflexivity|reflexivity|reflexivity|by vm_compute|reflexivity|].
  rewrite Hsetup.
  pose proof (repo_setup_agent_runs E "repos" demo_instance
                (Some demo_config_no_tests) (demo_world fresh_git)) as Ha.
  rewrite Hsetup in Ha. cbn [snd] in Ha.
  apply repo_setup_ret in Hsetup as (org & name & ids & cfg & Hs & _ & [= <-] & _ & Hctx & _).
  vm_compute in Hs. injection Hs as <- <-.
  assert (Hfiles : ctx_target_edit_files ctx = ([] ++ "src/a.py" :: ["src/b.py"])%list)
    by (by rewrite Hctx).
  assert (Hmode : run_tests (ctx_cfg ctx) = false) by (by rewrite Hctx).
  set (inv := file_invocation E (ctx_cfg ctx) (ctx_local_repo ctx)
                (get_message E (ctx_cfg ctx) (ctx_repo_path ctx)
                   (TestDir (test_dir demo_instance)))).
  destruct (agent_run E fuel (ctx_agent ctx) (inv "src/a.py")
              (no_tests_loop_start E ctx w0)) as [res w2] eqn:Hrun.
  assert (Hres : res = OutOfFuel).
  { change res with (res, w2).1. rewrite <-Hrun. apply agent_run_never_ends.
    intros j. exists (ExternalError "APIConnectionError"). by split. }
  subst res.
  destruct (run_work_stops E fuel demo_instance ctx demo_config_no_tests
              [] ["src/b.py"] "src/a.py" w0 _ w2 OutOfFuel Hmode Hfiles eq_refl Hrun)
    as [Hr Hnew]; [done|].
  split; [exact Hr|].
  unfold new_agent_runs in *. rewrite <-Ha, Hnew. by rewrite Hctx.
Qed.

(** ** The check of line 93 *)

Lemma for_each_raises {W A} (body : A -> M W unit) (xs : list A) (st : W) e :
  (for_each xs body st).1 = Raise e ->
  exists x st', (body x st').1 = Raise e.
Proof.
  revert st. induction xs as [|x xs IH]; intros st; [done|].
  cbn [for_each]. unfold bind.
  destruct (body x st) as [[[]|e'|] st'] eqn:Hb; cbn [fst]; [apply IH| |done].
  intros [= ->]. exists x, st. by rewrite Hb.
Qed.

Lemma run_work_raises (E : Collaborators) fuel cfg0 example ctx (w : World) e :
  (run_work E fuel (Some cfg0) example ctx w).1 = Raise e ->
  is_Exception e = false.
Proof.
  unfold run_work, with_DirContext.
  destruct (run_tests (ctx_cfg ctx)).
  - match goal with |- context [for_each ?xs ?b ?w0] =>
      pose proof (for_each_raises b xs w0 e) as H;
      destruct (for_each xs b w0) end.
    cbn [fst] in *. intros (x & st' & Hx)%H. by eapply agent_run_raises.
  - unfold bind, gets, modify. cbn [fst snd].
    match goal with |- context [for_each ?xs ?b ?w0] =>
      pose proof (for_each_raises b xs w0 e) as H;
      destruct (for_each xs b w0) end.
    cbn [fst] in *. intros (x & st' & Hx)%H. by eapply agent_run_raises.
Qed.

(** C10.  The check of line 93 is kept in the model (given no
    configuration, lines 92-130 raise [ValueError("Invalid input")]), and
    it is never reached without a configuration: when the setup of lines
    57-91 returns, there is a configuration; with none, the run ends in
    the setup with the exception the setup raises, which is the
    [AttributeError] of line 75 whenever the steps before that line
    pass; and with a configuration lines 92-130 never raise that
    [ValueError]. *)
Theorem invalid_input_unreachable (E : Collaborators) (fuel : nat)
  (repo_base_dir : string) (agent_config : option AgentConfig)
  (example : RepoInstance) (w : World) :
  (forall ctx w1, run_work E fuel None example ctx w1
                  = (Raise (ValueError "Invalid input"), w1))
  /\ (forall ctx w1,
        repo_setup E repo_base_dir agent_config example w = (Ret ctx, w1) ->
        exists cfg, agent_config = Some cfg)
  /\ (agent_config = None ->
      let r := run_agent_for_repo E fuel repo_base_dir agent_config example w in
      (exists e, (repo_setup E repo_base_dir agent_config example w).1 = Raise e
                 /\ r.1 = Raise e)
      /\ (forall org name ids g,
            PyStr.split "/" (repo example) = [org; name] ->
            get_tests E (normalize_repo_name name) = inr ids ->
            repos w !! abspath E (cwd w)
                         (os_path_join repo_base_dir (normalize_repo_name name))
              = Some g ->
            r = (Raise (AttributeError "'NoneType' object has no attribute"), w)))
  /\ (forall cfg ctx w1,
        (run_work E fuel (Some cfg) example ctx w1).1
        <> Raise (ValueError "Invalid input")).
Proof.
  split; [|split; [|split]].
  - intros ctx w1. unfold run_work, with_DirContext. cbn. by destruct w1.
  - intros ctx w1 (_ & _ & _ & cfg & _ & _ & -> & _)%repo_setup_ret. by exists cfg.
  - intros ->. cbv zeta. rewrite run_agent_for_repo_unfold. split.
    + pose proof (repo_setup_terminates E repo_base_dir example None w) as Hterm.
      destruct (repo_setup _ _ _ _ _) as [[ctx|e|] w1] eqn:Hsetup.
      * by apply repo_setup_ret in Hsetup as (_ & _ & _ & cfg & _ & _ & ? & _).
      * by exists e.
      * done.
    + intros org name ids g Hsplit Hids Hg. unfold repo_setup, bind.
      rewrite Hsplit. mstep. rewrite Hids. mstep. unfold open_repo.
      by rewrite Hg.
  - intros cfg ctx w1 Hraise. by apply run_work_raises in Hraise.
Qed.

(** C10 on a run without a configuration: it ends with the
    [AttributeError], before the check. *)
Lemma invalid_input_unreachable_witness :
  run_agent_for_repo (demo_env coder_ok) 1 "repos" None demo_instance
    (demo_world fresh_git)
  = (Raise (AttributeError "'NoneType' object has no attribute"),
     demo_world fresh_git).
Proof.
  destruct (invalid_input_unreachable (demo_env coder_ok) 1 "repos" None
              demo_instance (demo_world fresh_git)) as (_ & _ & Hnone & _).
  destruct (Hnone eq_refl) as [_ Hattr].
  apply (Hattr "org" "Demo"
           ["tests/test_b.py::test_one"; "tests/test_a.py::test_one";
            "tests/test_b.py::test_two"] fresh_git); reflexivity.
Defined.

(** ** The fleet *)

Section Fleet.

Implicit Types (s : string) (c sep : ascii).

Lemma occurs_sep_app sep pre s :
  PyStr.occurs (String sep "") (pre ++ String sep s) = true.
Proof.
  induction pre as [|c pre IH].
  - change ("" ++ ?x) with x. by rewrite occurs_char_cons, Ascii.eqb_refl.
  - by rewrite append_cons, occurs_char_cons, IH, orb_true_r.
Qed.

Lemma after_last_no_sep sep s :
  PyStr.occurs (String sep "") s = false -> after_last sep s = s.
Proof.
  destruct s as [|c s]; [done|]. rewrite occurs_char_cons.
  intros [Hc Hs]%orb_false_elim. cbn [after_last].
  by rewrite Hs, (Ascii.eqb_sym c sep), Hc.
Qed.

(** [s.split(sep)[-1]] is the part of [s] after its last separator. *)
Lemma last_split_after_last sep s :
  List.last (PyStr.split sep s) "" = after_last sep s.
Proof.
  induction s as [|c s IH]; [done|].
  cbn [PyStr.split after_last].
  destruct (split_last_cases sep s)
    as [[Hs Hocc]|(pre & v & vs & Hs & Hne & Heq & Hocc)].
  - rewrite Hocc, Hs. by destruct (Ascii.eqb c sep).
  - assert (Hin : PyStr.occurs (String sep "") s = true)
      by (rewrite Heq; apply occurs_sep_app).
    rewrite Hin, <-IH, Hs.
    destruct (Ascii.eqb c sep); by destruct vs.
Qed.

End Fleet.

Lemma for_each_submit {A} (mk : A -> Task) (xs : list A) (w : World) :
  exists w', for_each xs (fun x => modify (submit (mk x))) w = (Ret tt, w')
    /\ submitted w' = (submitted w ++ List.map mk xs)%list.
Proof.
  revert w. induction xs as [|x xs IH]; intros w.
  - exists w. by rewrite app_nil_r.
  - cbn [for_each]. unfold bind, modify at 1.
    destruct (IH (submit (mk x) w)) as (w' & Hrun & Hsub).
    exists w'. split; [done|]. rewrite Hsub. cbn. by rewrite <-app_assoc.
Qed.

(** C6.  [run_agent] selects a record of the dataset when the selector
    of the split is ["all"], or when the record is a dict whose ["repo"]
    is a string, the part of it after its last slash being a member of
    the split; it submits one task for each selected record, in the order
    of the dataset, and no other; and when no record is selected it
    raises the assertion error of line 159 with the world untouched, no
    task submitted. *)
Theorem fleet_dispatch (E : Collaborators) (agent_config_file : string)
  (cfg : AgentConfig) (commit0_config : Commit0Config)
  (dataset : list DatasetRecord) (w : World) :
  let r := run_agent E agent_config_file (Some cfg) commit0_config dataset w in
  let chosen := List.filter (selected E (repo_split commit0_config)) dataset in
  (forall example,
     selected E (repo_split commit0_config) example = true <->
     repo_split commit0_config = "all"
     \/ exists d name, example = EDict d /\ d !! "repo" = Some (FStr name)
          /\ after_last "/" name ∈ default [] (SPLIT E !! repo_split commit0_config))
  /\ (chosen <> [] ->
      r.1 = Ret tt
      /\ submitted r.2 =
         (submitted w ++ List.map (mkTask (base_dir commit0_config) cfg) chosen)%list)
  /\ (chosen = [] -> r = (Raise (AssertionError "No examples available"), w)).
Proof.
  intros r chosen. split; [|split].
  - intros example. unfold selected. rewrite orb_true_iff, String.eqb_eq.
    split; (intros [Hall|Hsel]; [by left|right]).
    + destruct example as [|d]; [done|].
      destruct (d !! "repo") as [[name|]|] eqn:Hrepo; try done.
      apply bool_decide_eq_true in Hsel. rewrite last_split_after_last in Hsel.
      by exists d, name.
    + destruct Hsel as (d & name & -> & -> & Hin).
      apply bool_decide_eq_true. by rewrite last_split_after_last.
  - intros Hne. subst r. unfold run_agent, bind. cbn [read_yaml_config ret].
    fold chosen.
    assert (Hpos : (0 <? length chosen)%nat = true) by (by destruct chosen).
    rewrite Hpos. cbn [py_assert ret].
    destruct (1 <? length chosen)%nat.
    + change (modify (set_stdout devnull) w) with (Ret tt, set_stdout devnull w).
      destruct (for_each_submit (mkTask (base_dir commit0_config) cfg) chosen
                  (set_stdout devnull w)) as (w' & Hrun & Hsub).
      cbv iota beta. by rewrite Hrun.
    + change (ret tt w) with (Ret tt, w).
      destruct (for_each_submit (mkTask (base_dir commit0_config) cfg) chosen w)
        as (w' & Hrun & Hsub).
      cbv iota beta. by rewrite Hrun.
  - intros Hnil. subst r. unfold run_agent, bind. cbn [read_yaml_config ret].
    fold chosen. by rewrite Hnil.
Qed.

(** C6 on a dataset of three records of which the split holds one, and
    on the same dataset with a split that holds none. *)
Lemma fleet_dispatch_witness :
  (let r := run_agent (demo_env coder_ok) "agent.yaml" (Some demo_config)
              (demo_commit0 "lite") demo_dataset (demo_world fresh_git) in
   r.1 = Ret tt
   /\ List.map task_example (submitted r.2)
      = [EDict {[ "repo" := FStr "org/demo"; "base_commit" := FStr "c0" ]}])
  /\ run_agent (demo_env coder_ok) "agent.yaml" (Some demo_config)
       (demo_commit0 "nothing") demo_dataset (demo_world fresh_git)
     = (Raise (AssertionError "No examples available"), demo_world fresh_git).
Proof.
  split.
  - destruct (fleet_dispatch (demo_env coder_ok) "agent.yaml" demo_config
                (demo_commit0 "lite") demo_dataset (demo_world fresh_git))
      as (_ & Hsome & _).
    destruct Hsome as [Hr Hsub]; [by vm_compute|].
    cbv zeta. split; [exact Hr|]. rewrite Hsub. vm_compute. reflexivity.
  - destruct (fleet_dispatch (demo_env coder_ok) "agent.yaml" demo_config
                (demo_commit0 "nothing") demo_dataset (demo_world fresh_git))
      as (_ & _ & Hnone).
    apply Hnone. vm_compute. reflexivity.
Defined.

(** ** The baseline: [run_aider_for_repo] *)

Section BaselineRun.

Import Baseline.

Variable E : BCollaborators.

Lemma sorted_set_nonempty (xs : list string) : xs <> [] -> sorted_set xs <> [].
Proof.
  destruct xs as [|x xs]; [done|]. intros _ Hnil.
  assert (Hx : x ∈ sorted_set (x :: xs)) by (apply sorted_set_elem; left).
  rewrite Hnil in Hx. by apply elem_of_nil in Hx.
Qed.

(** One iteration launches one command and ends with an exception: the
    one that escapes the [try] statement, and the [NameError] of line 113
    when none does. *)
Lemma loop_body_spec aider_config repo_name files message lint_cmd test_file w :
  let cmd := aider_cmd_of aider_config repo_name files message lint_cmd test_file in
  let r := loop_body E aider_config repo_name files message lint_cmd test_file w in
  launched r.2 = (launched w ++ [cmd])%list
  /\ r.1 = Raise (match escaping (popen E (length (launched w)) cmd) with
                  | Some e => e
                  | None => NameError "asdf"
                  end).
Proof.
  unfold loop_body, bind, try_popen, aider_cmd_of, escaping.
  destruct (popen E _ _) as [out err|e]; [done|].
  destruct (is_CalledProcessError e); [done|].
  destruct (os_errno e) as [errno|]; [|done].
  by destruct (errno =? 63)%Z.
Qed.

Lemma loop_spec aider_config repo_name files message lint_cmd test_file rest w :
  for_each (test_file :: rest)
    (loop_body E aider_config repo_name files message lint_cmd) w
  = loop_body E aider_config repo_name files message lint_cmd test_file w.
Proof.
  cbn [for_each]. unfold bind.
  destruct (loop_body_spec aider_config repo_name files message lint_cmd test_file w)
    as [_ Hr].
  destruct (loop_body _ _ _ _ _ _ _ w) as [r w1]. cbn in Hr. by subst r.
Qed.

End BaselineRun.

(** C8, as amended.  Over a non-empty list of test files the loop of
    lines 80-113 launches the command of the first test file and no
    other, and ends in its first iteration with an exception: the
    [NameError] of the name [asdf] at the end of the iteration, unless
    launching the command raises an exception that is neither a
    [CalledProcessError] nor an [OSError], which escapes the [try]
    statement and is the exception raised.  The function, whatever it
    is given, never returns normally and launches at most one command. *)
Theorem first_iteration_ends_the_run (E : Baseline.BCollaborators)
  (aider_config : Baseline.AiderConfig)
  (repo_name files message lint_cmd test_file : string) (rest : list string)
  (commit0_config : option Commit0Config)
  (aider_config' : option Baseline.AiderConfig) (ds : RepoInstance)
  (w : Baseline.BWorld) :
  (let cmd := Baseline.aider_cmd_of aider_config repo_name files message lint_cmd
                test_file in
   let r := for_each (test_file :: rest)
              (Baseline.loop_body E aider_config repo_name files message lint_cmd) w in
   Baseline.launched r.2 = (Baseline.launched w ++ [cmd])%list
   /\ r.1 = Raise (match Baseline.escaping
                           (Baseline.popen E (length (Baseline.launched w)) cmd) with
                   | Some e => e
                   | None => NameError "asdf"
                   end))
  /\ (let r := Baseline.run_aider_for_repo E commit0_config aider_config' ds w in
      (exists e, r.1 = Raise e)
      /\ (Baseline.launched r.2 = Baseline.launched w
          \/ exists cmd, Baseline.launched r.2 = (Baseline.launched w ++ [cmd])%list)).
Proof.
  split.
  - cbv zeta. rewrite loop_spec. apply loop_body_spec.
  - cbv zeta. unfold Baseline.run_aider_for_repo.
    destruct commit0_config as [c0|], aider_config' as [ac|];
      try (split; [by eexists|by left]).
    unfold bind.
    destruct (PyStr.split "/" (repo ds)) as [|org [|name [|? ?]]];
      try (split; [by eexists|by left]).
    mstep.
    destruct (Baseline.tar_open E _) as [e|members];
      [split; [by eexists|by left]|].
    mstep.
    destruct (Baseline.read_members members None) as [text|];
      [|split; [by eexists|by left]].
    mstep.
    destruct (Baseline.dir_exists E _); [|split; [by eexists|by left]].
    mstep.
    destruct (sorted_set (List.map test_path (PyStr.split "010" text)))
      as [|test_file' rest'] eqn:Hfiles.
    { exfalso. eapply sorted_set_nonempty; [|exact Hfiles].
      destruct (PyStr.split "010" text) eqn:Hs; [|done].
      by destruct (split_nonempty "010" text). }
    rewrite loop_spec.
    match goal with |- context [Baseline.loop_body E ?a ?b ?c ?d ?e ?f ?w0] =>
      destruct (loop_body_spec E a b c d e f w0) as [Hl Hr];
      destruct (Baseline.loop_body E a b c d e f w0) as [r w1] end.
    cbn [fst snd] in *. split; [by eexists|]. right. by eexists.
Qed.

(** The baseline on a repository with two test files: one command is
    launched, for the first test file, and the function ends with the
    [NameError]. *)
Lemma asdf_after_first_launch :
  let r := Baseline.run_aider_for_repo (demo_baseline two_test_files)
             (Some (demo_commit0 "all")) (Some (Baseline.mkAiderConfig "gpt-4o" false))
             demo_instance demo_bworld in
  r.1 = Raise (NameError "asdf") /\ length (Baseline.launched r.2) = 1.
Proof. vm_compute. by split. Qed.

(** C8 as stated fails: on the same system, with two test files of which
    the first has a null byte in its path, launching the command raises
    [ValueError]; the [try] statement does not handle it, the function
    ends with that [ValueError], line 113 is not reached and no
    [NameError] is raised. *)
Lemma first_iteration_other_exception :
  let r := Baseline.run_aider_for_repo (demo_baseline two_test_files_nul)
             (Some (demo_commit0 "all")) (Some (Baseline.mkAiderConfig "gpt-4o" false))
             demo_instance demo_bworld in
  r.1 = Raise (ValueError "embedded null byte")
  /\ r.1 <> Raise (NameError "asdf")
  /\ length (Baseline.launched r.2) = 1.
Proof. vm_compute. by repeat split. Qed.

(** * Further properties of the code *)

(** ** The working directory ([DirContext]) *)


(** ** The calls the coder receives *)

Section Calls.

Variable E : Collaborators.
Variable fuel : nat.

Implicit Types (w : World) (agent : AiderAgents) (i : Invocation).

(** Every attempt of an invocation makes the same call of the coder. *)
Lemma retrying_calls agent message test_cmd lint_cmd fnames log_dir wait n :
  forall a w,
    let r := retrying wait n a
               (AiderAgents_run_body E agent message test_cmd lint_cmd fnames log_dir) w in
    exists new, coder_runs r.2 = (coder_runs w ++ new)%list
      /\ Forall (eq (coder_run_of E agent (cwd w)
                       (mkInvocation message test_cmd lint_cmd fnames log_dir))) new.
Proof.
  induction n as [|n IH]; intros a w.
  { exists []. cbn. by rewrite app_nil_r. }
  cbn [retrying].
  destruct (run_body_spec E agent message test_cmd lint_cmd fnames log_dir w)
    as (_ & _ & Hcwd & _ & Hc & _).
  destruct (AiderAgents_run_body _ _ _ _ _ _ _ w) as [[[]|e|] w1];
    cbn [fst snd] in *.
  - eexists. split; [exact Hc|]. by repeat constructor.
  - destruct (is_Exception e).
    + destruct (IH (S a) (sleep (wait a) w1)) as (new & Hnew & Hall).
      change (cwd (sleep (wait a) w1)) with (cwd w1) in Hall.
      change (coder_runs (sleep (wait a) w1)) with (coder_runs w1) in Hnew.
      rewrite Hcwd in Hall. eexists. rewrite Hnew, Hc, <-app_assoc.
      split; [done|]. by constructor.
    + eexists. split; [exact Hc|]. by repeat constructor.
  - eexists. split; [exact Hc|]. by repeat constructor.
Qed.

Lemma agent_run_calls agent i w :
  exists new,
    coder_runs (agent_run E fuel agent i w).2 = (coder_runs w ++ new)%list
    /\ Forall (eq (coder_run_of E agent (cwd w) i)) new.
Proof.
  unfold agent_run, AiderAgents_run, bind, modify. cbn [fst snd].
  match goal with |- context [retrying ?wt ?n ?a ?b ?w0] =>
    destruct (retrying_calls agent (inv_message i) (inv_test_cmd i)
                (inv_lint_cmd i) (inv_fnames i) (inv_log_dir i) wt n a w0)
      as (new & Hnew & Hall)
  end.
  exists new. rewrite inv_eta in Hall. by split.
Qed.

Lemma for_each_calls {A} agent (mk : A -> Invocation) (xs : list A) :
  forall w,
    let r := for_each xs (fun x => agent_run E fuel agent (mk x)) w in
    exists new, coder_runs r.2 = (coder_runs w ++ new)%list
      /\ Forall (fun cr => exists x, x ∈ xs
                           /\ cr = coder_run_of E agent (cwd w) (mk x)) new.
Proof.
  induction xs as [|x xs IH]; intros w.
  { exists []. cbn. by rewrite app_nil_r. }
  cbn [for_each]. unfold bind.
  destruct (agent_run_calls agent (mk x) w) as (new1 & Hnew1 & Hall1).
  destruct (agent_run_trace E fuel agent (mk x) w) as [_ Hcwd].
  assert (Hall1' : Forall (fun cr => exists y, y ∈ x :: xs
                             /\ cr = coder_run_of E agent (cwd w) (mk y)) new1).
  { eapply Forall_impl; [exact Hall1|]. intros cr <-. exists x. split; [left|done]. }
  destruct (agent_run E fuel agent (mk x) w) as [[[]|e|] w1]; cbn [fst snd] in *;
    [|by exists new1..].
  destruct (IH w1) as (new2 & Hnew2 & Hall2). rewrite Hcwd in Hall2.
  exists (new1 ++ new2)%list. rewrite Hnew2, Hnew1, <-app_assoc. split; [done|].
  apply Forall_app. split; [done|].
  eapply Forall_impl; [exact Hall2|]. intros cr (y & Hy & ->).
  exists y. split; [by right|done].
Qed.

(** The calls made by the work of lines 92-130 are calls of planned
    invocations, made in the directory of the repository. *)
Lemma run_work_calls example cfg0 (ctx : RunContext) w :
  let r := run_work E fuel (Some cfg0) example ctx w in
  exists new, coder_runs r.2 = (coder_runs w ++ new)%list
    /\ Forall (fun cr => exists i, i ∈ plan E example ctx
                         /\ cr = coder_run_of E (ctx_agent ctx) (ctx_repo_path ctx) i)
         new.
Proof.
  unfold run_work, with_DirContext, plan.
  destruct (run_tests (ctx_cfg ctx)).
  - match goal with |- context [for_each ?xs (fun x => agent_run _ _ ?a (@?mk x)) ?w0] =>
      destruct (for_each_calls a mk xs w0) as (new & Hnew & Hall);
      destruct (for_each xs (fun x => agent_run E fuel a (mk x)) w0) as [r w1]
    end.
    cbn [fst snd] in *. exists new. split; [done|].
    eapply Forall_impl; [exact Hall|]. intros cr (x & Hx & ->).
    eexists. split; [|done]. apply list_elem_of_fmap. by exists x.
  - unfold bind, gets, modify. cbn [fst snd].
    match goal with |- context [for_each ?xs (fun x => agent_run _ _ ?a (@?mk x)) ?w0] =>
      destruct (for_each_calls a mk xs w0) as (new & Hnew & Hall);
      destruct (for_each xs (fun x => agent_run E fuel a (mk x)) w0) as [r w1]
    end.
    cbn [fst snd] in *. exists new. split; [done|].
    eapply Forall_impl; [exact Hall|]. intros cr (x & Hx & ->).
    eexists. split; [|done]. apply list_elem_of_fmap. by exists x.
Qed.

End Calls.

(** X2.  Let the repository name have one slash and the tests be found.
    Every call of the coder made during a run, in every attempt, is the
    call of a planned invocation made with the repository as working
    directory: its history files and its log file are those of the log
    directory of the invocation resolved against the repository path;
    the model and the bound on reflections are those of the
    configuration; automatic testing is on exactly in test-feedback
    mode; and automatic linting is off exactly when the lint command is
    empty. *)
Theorem coder_calls_of_a_run (E : Collaborators) (fuel : nat)
  (repo_base_dir : string) (example : RepoInstance) (cfg : AgentConfig)
  (org name : string) (ids : list string) (w : World) :
  PyStr.split "/" (repo example) = [org; name] ->
  get_tests E (normalize_repo_name name) = inr ids ->
  let r := run_agent_for_repo E fuel repo_base_dir (Some cfg) example w in
  let repo_path :=
    abspath E (cwd w) (os_path_join repo_base_dir (normalize_repo_name name)) in
  let agent := mkAiderAgents (max_iteration cfg) (model_name cfg) in
  let planned := planned_invocations E repo_base_dir cfg example (cwd w) name ids in
  Forall (fun cr =>
            (exists i, i ∈ planned
               /\ run_call cr =
                    coder_call_of E agent (inv_message i) (inv_test_cmd i)
                      (inv_lint_cmd i) (inv_fnames i) repo_path (inv_log_dir i)
               /\ run_stdout cr = log_stream (resolve E repo_path (inv_log_dir i)
                                                // "aider.log")
               /\ run_stderr cr = run_stdout cr
               /\ input_history_file (run_call cr) =
                    resolve E repo_path (inv_log_dir i) // ".aider.input.history"
               /\ chat_history_file (run_call cr) =
                    resolve E repo_path (inv_log_dir i) // ".aider.chat.history.md")
            /\ main_model (run_call cr) = model_name cfg
            /\ max_reflection (run_call cr) = max_iteration cfg
            /\ auto_test (run_call cr) = run_tests cfg
            /\ (auto_lint (run_call cr) = false <-> lint_cmds (run_call cr) = ""))
         (new_coder_runs w r.2).
Proof.
  intros Hsplit Hids r repo_path agent planned. subst r.
  rewrite run_agent_for_repo_unfold.
  pose proof (repo_setup_coder_runs E repo_base_dir example (Some cfg) w) as Hruns.
  destruct (repo_setup _ _ _ _ _) as [[ctx|e|] w1] eqn:Hsetup; cbn [snd] in Hruns;
    [|unfold new_coder_runs; cbn [snd]; rewrite Hruns, drop_all; constructor..].
  apply repo_setup_ret in Hsetup
    as (org' & name' & ids' & cfg' & Hsplit' & Hids' & [= <-] & _ & Hctx & _).
  rewrite Hsplit in Hsplit'. injection Hsplit' as <- <-.
  rewrite Hids in Hids'. injection Hids' as <-.
  destruct (run_work_calls E fuel example cfg ctx w1) as (new & Hnew & Hall).
  unfold new_coder_runs. rewrite Hnew, <-Hruns, drop_app_length.
  assert (Hplan : plan E example ctx = planned) by (by rewrite Hctx).
  rewrite Hplan in Hall.
  assert (Hagent : ctx_agent ctx = agent) by (by rewrite Hctx).
  assert (Hpath : ctx_repo_path ctx = repo_path) by (by rewrite Hctx).
  rewrite Hagent, Hpath in Hall.
  eapply Forall_impl; [exact Hall|]. intros cr (i & Hi & ->).
  split; [exists i; by repeat split|].
  split; [done|]. split; [done|]. split.
  - subst planned. unfold planned_invocations in Hi.
    destruct (run_tests cfg);
      apply list_elem_of_fmap in Hi as (f & -> & _); reflexivity.
  - cbn. rewrite negb_false_iff. apply String.eqb_eq.
Qed.

(** X2 on a run in test-feedback mode over two test files: the history
    files of the two calls lie below the repository. *)
Lemma coder_calls_of_a_run_witness :
  let w := demo_world fresh_git in
  let r := run_agent_for_repo (demo_env coder_ok) 1 "repos" (Some demo_config)
             demo_instance w in
  List.map (fun cr => path_str (input_history_file (run_call cr)))
           (new_coder_runs w r.2) =
    ["/work/repos/demo/logs/aider/with_tests/tests__test_a/.aider.input.history";
     "/work/repos/demo/logs/aider/with_tests/tests__test_b/.aider.input.history"]
  /\ Forall (fun cr => auto_test (run_call cr) = true
                       /\ max_reflection (run_call cr) = 3%Z)
       (new_coder_runs w r.2).
Proof.
  split; [vm_compute; reflexivity|].
  pose proof (coder_calls_of_a_run (demo_env coder_ok) 1 "repos" demo_instance
                demo_config "org" "Demo"
                ["tests/test_b.py::test_one"; "tests/test_a.py::test_one";
                 "tests/test_b.py::test_two"]
                (demo_world fresh_git) eq_refl eq_refl) as Hall.
  cbv zeta in *. eapply Forall_impl; [exact Hall|].
  intros cr (_ & _ & Hmax & Htest & _). by split.
Defined.

(** ** The logging set-up of [AiderAgents.run] *)

Section Logging.

Variable E : Collaborators.
Variable fuel : nat.

Implicit Types (w : World) (agent : AiderAgents) (i : Invocation).

Lemma logging_follows_refl w w' : logs w' = logs w -> logging_follows w w' [].
Proof.
  unfold logs. intros [= Hc Hh Hl]. unfold logging_follows.
  rewrite Hc, Hh, Hl, !app_nil_r. by repeat split.
Qed.

Lemma logging_follows_trans w w1 w2 n1 n2 :
  logging_follows w w1 n1 -> logging_follows w1 w2 n2 ->
  logging_follows w w2 (n1 ++ n2).
Proof.
  intros (Hc1 & Hh1 & Hl1) (Hc2 & Hh2 & Hl2). split; [|split].
  - by rewrite Hc2, Hc1, <-app_assoc.
  - by rewrite Hh2, Hh1, List.map_app, <-app_assoc.
  - rewrite Hl2. destruct (logging_root w) as [g|].
    + destruct (logging_root w1) as [g1|]; [|done]. done.
    + destruct (logging_root w1) as [g1|]; cbn in Hl1.
      * by destruct n1.
      * by destruct n1.
Qed.

Lemma logging_kept_preserves {A} (m : M World A) : preserves logs m -> logging_kept m.
Proof. intros H w. exists []. by apply logging_follows_refl. Qed.

Lemma logging_kept_bind {A B} (m : M World A) (k : A -> M World B) :
  logging_kept m -> (forall a, logging_kept (k a)) -> logging_kept (bind m k).
Proof.
  intros Hm Hk w. unfold bind. destruct (Hm w) as (n1 & H1).
  destruct (m w) as [[a|e|] w1]; cbn [snd] in *; [|by exists n1..].
  destruct (Hk a w1) as (n2 & H2). exists (n1 ++ n2)%list.
  by eapply logging_follows_trans.
Qed.

Lemma logging_kept_for_each {A} (xs : list A) (body : A -> M World unit) :
  (forall x, logging_kept (body x)) -> logging_kept (for_each xs body).
Proof.
  intros Hb. induction xs as [|x xs IH].
  - apply logging_kept_preserves. apply preserves_ret.
  - cbn [for_each]. apply logging_kept_bind; [apply Hb|done].
Qed.

Lemma logging_kept_retrying {A} wait n (fn : M World A) :
  logging_kept fn -> forall a, logging_kept (retrying wait n a fn).
Proof.
  intros Hf. induction n as [|n IH]; intros a w.
  { exists []. by apply logging_follows_refl. }
  cbn [retrying]. destruct (Hf w) as (n1 & H1).
  destruct (fn w) as [[x|e|] w1]; cbn [snd] in *; [by exists n1| |by exists n1].
  destruct (is_Exception e); [|by exists n1].
  destruct (IH (S a) (sleep (wait a) w1)) as (n2 & H2).
  exists (n1 ++ n2)%list. eapply logging_follows_trans; [exact H1|].
  destruct H2 as (Hc & Hh & Hl). by repeat split.
Qed.

Lemma logging_kept_with_DirContext {A} d (body : M World A) :
  logging_kept body -> logging_kept (with_DirContext d body).
Proof.
  intros Hb w. unfold with_DirContext. destruct (Hb (set_cwd d w)) as (new & H).
  destruct (body _) as [r w1]. cbn [snd] in *. exists new.
  destruct H as (Hc & Hh & Hl). by repeat split.
Qed.

(** One attempt: the root logger is configured unless it is already,
    and the [httpx] logger gets one more handler. *)
Lemma body_logging agent message test_cmd lint_cmd fnames log_dir :
  logging_kept (AiderAgents_run_body E agent message test_cmd lint_cmd fnames log_dir).
Proof.
  intros w.
  exists [coder_run_of E agent (cwd w)
            (mkInvocation message test_cmd lint_cmd fnames log_dir)].
  unfold AiderAgents_run_body, logging_follows, bind, gets, modify, coder_run.
  cbn. destruct (coder E _ _ _) as [[|e] g]; cbn;
    rewrite List.map_app; (repeat split; [by destruct (logging_root w)]).
Qed.

Lemma agent_run_logging agent i : logging_kept (agent_run E fuel agent i).
Proof.
  unfold agent_run, AiderAgents_run. apply logging_kept_bind.
  - apply logging_kept_preserves. frame.
  - intros _. apply logging_kept_retrying, body_logging.
Qed.

Lemma run_logging repo_base_dir agent_config example :
  logging_kept (run_agent_for_repo E fuel repo_base_dir agent_config example).
Proof.
  unfold run_agent_for_repo. apply logging_kept_bind.
  - apply logging_kept_preserves. unfold repo_setup. frame.
  - intros ctx. unfold run_work. apply logging_kept_with_DirContext.
    destruct agent_config as [cfg|].
    + destruct (run_tests (ctx_cfg ctx)).
      * apply logging_kept_for_each. intros x. apply agent_run_logging.
      * apply logging_kept_bind; [apply logging_kept_preserves; frame|].
        intros here.
        apply logging_kept_bind; [apply logging_kept_preserves; frame|].
        intros _.
        apply logging_kept_bind; [apply logging_kept_preserves; frame|].
        intros _. apply logging_kept_for_each. intros x. apply agent_run_logging.
    + apply logging_kept_preserves. frame.
Qed.

End Logging.

(** X3.  Every call of the coder made in a run, in every attempt, has
    put one more handler on the [httpx] logger, for the log file the
    streams were bound to during that call; no handler is ever removed,
    so the logger ends a run with as many more handlers as the coder was
    called. *)
Theorem httpx_handlers_accumulate (E : Collaborators) (fuel : nat)
  (repo_base_dir : string) (agent_config : option AgentConfig)
  (example : RepoInstance) (w : World) :
  let r := run_agent_for_repo E fuel repo_base_dir agent_config example w in
  List.map log_stream (httpx_handlers r.2) =
    (List.map log_stream (httpx_handlers w)
       ++ List.map run_stdout (new_coder_runs w r.2))%list
  /\ length (httpx_handlers r.2) =
       length (httpx_handlers w) + length (new_coder_runs w r.2).
Proof.
  intros r. subst r.
  destruct (run_logging E fuel repo_base_dir agent_config example w)
    as (new & Hc & Hh & _).
  assert (Hnew : new_coder_runs w
                   (run_agent_for_repo E fuel repo_base_dir agent_config example w).2
                 = new).
  { unfold new_coder_runs. by rewrite Hc, drop_app_length. }
  rewrite Hnew. split; [exact Hh|].
  apply (f_equal length) in Hh.
  by rewrite length_app, !List.length_map in Hh.
Qed.

(** X4.  The root logger is configured once in the life of the process:
    a run leaves it on the file it was configured with before, if any;
    otherwise a run that calls the coder leaves it on the log file of its
    first call, whatever the log files of the later calls, and a run
    that does not call the coder leaves it unconfigured. *)
Theorem root_logger_configured_once (E : Collaborators) (fuel : nat)
  (repo_base_dir : string) (agent_config : option AgentConfig)
  (example : RepoInstance) (w : World) :
  let r := run_agent_for_repo E fuel repo_base_dir agent_config example w in
  (forall f, logging_root w = Some f -> logging_root r.2 = Some f)
  /\ (logging_root w = None ->
      option_map log_stream (logging_root r.2) =
        List.head (List.map run_stdout (new_coder_runs w r.2))).
Proof.
  intros r. subst r.
  destruct (run_logging E fuel repo_base_dir agent_config example w)
    as (new & Hc & _ & Hl).
  assert (Hnew : new_coder_runs w
                   (run_agent_for_repo E fuel repo_base_dir agent_config example w).2
                 = new).
  { unfold new_coder_runs. by rewrite Hc, drop_app_length. }
  rewrite Hnew. split.
  - intros f Hf. rewrite Hf in Hl.
    destruct (logging_root _) as [g|]; [|done]. cbn in Hl. by injection Hl as ->.
  - intros Hnone. by rewrite Hnone in Hl.
Qed.

(** X4 on a run over two test files: the coder is called with the
    streams on the log file of the first and then on that of the second,
    and the root logger stays on the log file of the first. *)
Lemma root_logger_configured_once_witness :
  let w := demo_world fresh_git in
  let r := run_agent_for_repo (demo_env coder_ok) 1 "repos" (Some demo_config)
             demo_instance w in
  option_map log_stream (logging_root r.2) =
    List.head (List.map run_stdout (new_coder_runs w r.2))
  /\ option_map path_str (logging_root r.2) =
       Some "/work/repos/demo/logs/aider/with_tests/tests__test_a/aider.log"
  /\ List.map run_stdout (new_coder_runs w r.2) =
       [log_stream (path_of "/work/repos/demo/logs/aider/with_tests/tests__test_a/aider.log");
        log_stream (path_of "/work/repos/demo/logs/aider/with_tests/tests__test_b/aider.log")].
Proof.
  split; [|split; vm_compute; reflexivity].
  apply (root_logger_configured_once (demo_env coder_ok) 1 "repos"
           (Some demo_config) demo_instance (demo_world fresh_git)).
  reflexivity.
Defined.

(** ** An attempt that ends by something else than an [Exception] *)

Section Interrupt.

Variable E : Collaborators.
Variable self : AiderAgents.
Variables (message test_cmd lint_cmd : string) (fnames : list string).
Variable log_dir : Path.

Let body := AiderAgents_run_body E self message test_cmd lint_cmd fnames log_dir.

(** [n] attempts that fail with an [Exception] and then one that raises
    something else: the loop raises it after [n + 1] attempts, without
    another wait, and the streams stay on the log file. *)
Lemma retrying_fail_then_raise wait e n :
  is_Exception e = false ->
  forall fuel a w,
    n < fuel ->
    (forall i, i < n -> fails_at E (length (coder_runs w) + i)) ->
    raises_at E (length (coder_runs w) + n) e ->
    let r := retrying wait fuel a body w in
    let lf := log_file_of E (cwd w) log_dir in
    r.1 = Raise e
    /\ length (coder_runs r.2) = length (coder_runs w) + (n + 1)
    /\ sleeps r.2 = (sleeps w ++ List.map wait (seq a n))%list
    /\ sys_stdout r.2 = log_stream lf /\ sys_stderr r.2 = log_stream lf.
Proof.
  intros He.
  induction n as [|n IH]; intros [|fuel] a w Hfuel Hfail Hraise; try lia.
  - cbn [retrying].
    destruct (run_body_spec E self message test_cmd lint_cmd fnames log_dir w)
      as (_ & Hs & _ & _ & Hc & Hr).
    rewrite Nat.add_0_r in Hraise. rewrite Hraise in Hr.
    destruct Hr as (Hr & Ho & Herr). fold body in Hs, Hc, Hr, Ho, Herr.
    destruct (body w) as [r w1]. cbn in *. subst r. rewrite He. cbn.
    rewrite Hc, Hs, length_app, app_nil_r. cbn. by repeat split.
  - cbn [retrying].
    destruct (run_body_spec E self message test_cmd lint_cmd fnames log_dir w)
      as (_ & Hs & Hcwd & _ & Hc & Hr).
    destruct (Hfail 0) as (e' & He' & Hf); [lia|].
    rewrite Nat.add_0_r in Hf. rewrite Hf in Hr. destruct Hr as (Hr & _).
    fold body in Hs, Hcwd, Hc, Hr.
    destruct (body w) as [r w1]. cbn in *. subst r. rewrite He'.
    assert (Hlen : length (coder_runs (sleep (wait a) w1))
                   = S (length (coder_runs w))).
    { cbn. rewrite Hc, length_app. cbn. lia. }
    destruct (IH fuel (S a) (sleep (wait a) w1)) as (H1 & H2 & H3 & H4).
    + lia.
    + intros i Hi. rewrite Hlen.
      replace (S (length (coder_runs w)) + i)
        with (length (coder_runs w) + S i) by lia.
      apply Hfail. lia.
    + rewrite Hlen.
      by replace (S (length (coder_runs w)) + n)
        with (length (coder_runs w) + S n) by lia.
    + change (cwd (sleep (wait a) w1)) with (cwd w1) in H4. rewrite Hcwd in H4.
      split; [done|]. split; [rewrite H2, Hlen; lia|]. split; [|done].
      rewrite H3. cbn. rewrite Hs. by rewrite <-app_assoc.
Qed.

End Interrupt.

(** X5.  An attempt that ends by an exception that is not an
    [Exception] (a [KeyboardInterrupt], a [SystemExit]) is not retried:
    when the first [n] attempts of an invocation fail with an
    [Exception] and the next one raises such an exception,
    [AiderAgents.run] raises it after exactly [n + 1] attempts, having
    waited only after the [n] retried ones, and both streams are left
    bound to the log file of the invocation. *)
Theorem interruption_is_not_retried (E : Collaborators) (self : AiderAgents)
  (message test_cmd lint_cmd : string) (fnames : list string) (log_dir : Path)
  (fuel n : nat) (e : Exc) (w : World) :
  is_Exception e = false ->
  n < fuel ->
  (forall i, i < n -> fails_at E (length (coder_runs w) + i)) ->
  raises_at E (length (coder_runs w) + n) e ->
  let r := AiderAgents_run E fuel self message test_cmd lint_cmd fnames log_dir w in
  let lf := log_file_of E (cwd w) log_dir in
  r.1 = Raise e
  /\ length (coder_runs r.2) = length (coder_runs w) + (n + 1)
  /\ sleeps r.2 = (sleeps w ++ List.map (wait_exponential 1 4 10) (seq 1 n))%list
  /\ sys_stdout r.2 = log_stream lf /\ sys_stderr r.2 = log_stream lf.
Proof.
  intros He Hfuel Hfail Hraise.
  exact (retrying_fail_then_raise E self message test_cmd lint_cmd fnames log_dir
           (wait_exponential 1 4 10) e n He fuel 1
           (log_agent_run (mkInvocation message test_cmd lint_cmd fnames log_dir) w)
           Hfuel Hfail Hraise).
Qed.

(** X5 on an invocation whose first attempt fails with an error of the
    service and whose second is interrupted from the keyboard. *)
Lemma interruption_is_not_retried_witness :
  let w := demo_world fresh_git in
  let r := AiderAgents_run interrupted_env 5 (mkAiderAgents 3 "gpt-4o") "msg" "" ""
             ["src/a.py"] (path_of "logs/aider/no_tests/src__a") w in
  let lf := log_file_of interrupted_env (cwd w) (path_of "logs/aider/no_tests/src__a") in
  r.1 = Raise KeyboardInterrupt
  /\ length (coder_runs r.2) = length (coder_runs w) + (1 + 1)
  /\ sleeps r.2 = (sleeps w ++ List.map (wait_exponential 1 4 10) (seq 1 1))%list
  /\ sys_stdout r.2 = log_stream lf /\ sys_stderr r.2 = log_stream lf.
Proof.
  apply (interruption_is_not_retried interrupted_env (mkAiderAgents 3 "gpt-4o")
           "msg" "" "" ["src/a.py"] (path_of "logs/aider/no_tests/src__a") 5 1
           KeyboardInterrupt (demo_world fresh_git)).
  - reflexivity.
  - lia.
  - intros i Hi. exists (ExternalError "APIConnectionError").
    split; [reflexivity|]. intros c g.
    destruct i as [|i]; [reflexivity|lia].
  - intros c g. reflexivity.
Defined.

(** ** The configuration file of the no-test mode *)

Section Yaml.

Variable E : Collaborators.
Variable fuel : nat.

Lemma yaml_written_fs_op op (w : World) :
  yaml_written (fs_op op w) =
  (yaml_written w ++ match op with
                     | WriteYaml file cfg => [(file, cfg)]
                     | _ => []
                     end)%list.
Proof.
  unfold yaml_written. change (fs (fs_op op w)) with (fs w ++ [op])%list.
  rewrite omap_app. by destruct op.
Qed.

Lemma coder_run_yaml c : preserves yaml_written (coder_run E c).
Proof. intros w. unfold coder_run. by destruct (coder E _ _ _) as [[] ?]. Qed.

Lemma body_yaml agent message test_cmd lint_cmd fnames log_dir :
  preserves yaml_written
    (AiderAgents_run_body E agent message test_cmd lint_cmd fnames log_dir).
Proof.
  unfold AiderAgents_run_body.
  apply preserves_bind; [apply preserves_gets|intros here].
  apply preserves_bind.
  { apply preserves_modify. intros w. rewrite yaml_written_fs_op. apply app_nil_r. }
  intros _.
  do 5 (apply preserves_bind; [by apply preserves_modify|intros _]).
  apply preserves_bind; [apply coder_run_yaml|intros _].
  apply preserves_bind; [by apply preserves_modify|intros _].
  by apply preserves_modify.
Qed.

Lemma agent_run_yaml agent i : preserves yaml_written (agent_run E fuel agent i).
Proof.
  unfold agent_run, AiderAgents_run.
  apply preserves_bind; [by apply preserves_modify|intros _].
  apply preserves_retrying; [done|apply body_yaml].
Qed.

(** Lines 92-130 write the configuration once in no-test mode, before
    the first invocation, and never in test-feedback mode. *)
Lemma run_work_yaml example cfg0 (ctx : RunContext) (w : World) :
  yaml_written (run_work E fuel (Some cfg0) example ctx w).2 =
  (yaml_written w ++
     if run_tests (ctx_cfg ctx) then []
     else [(abspath E (ctx_repo_path ctx)
              (path_str (RUN_AIDER_LOG_DIR E // "no_tests" // ".agent.yaml")),
            ctx_cfg ctx)])%list.
Proof.
  unfold run_work, with_DirContext.
  destruct (run_tests (ctx_cfg ctx)).
  - match goal with |- context [for_each ?xs ?b ?w0] =>
      pose proof (preserves_for_each yaml_written xs b
                    (fun x => agent_run_yaml _ _) w0) as H;
      destruct (for_each xs b w0) as [r w1]
    end.
    cbn [snd] in *. rewrite app_nil_r.
    change (yaml_written (set_cwd (cwd w) w1)) with (yaml_written w1).
    by rewrite H.
  - unfold bind, gets, modify. cbn [fst snd].
    match goal with |- context [for_each ?xs ?b ?w0] =>
      pose proof (preserves_for_each yaml_written xs b
                    (fun x => agent_run_yaml _ _) w0) as H;
      destruct (for_each xs b w0) as [r w1]
    end.
    cbn [snd] in *.
    change (yaml_written (set_cwd (cwd w) w1)) with (yaml_written w1).
    rewrite H, !yaml_written_fs_op, app_nil_r. done.
Qed.

End Yaml.

(** X6.  Let the repository name have one slash and the tests be found.
    In test-feedback mode a run writes no configuration file.  In
    no-test mode, once the repository is found with its base commit and
    the agent is aider, a run writes the configuration exactly once, to
    [.agent.yaml] in the no-test log directory taken from the repository
    path, whatever the number of target-edit files (none included) and
    however the invocations end; a run that fails in its setup writes
    none. *)
Theorem configuration_written_once (E : Collaborators) (fuel : nat)
  (repo_base_dir : string) (example : RepoInstance) (cfg : AgentConfig)
  (org name : string) (ids : list string) (w : World) :
  PyStr.split "/" (repo example) = [org; name] ->
  get_tests E (normalize_repo_name name) = inr ids ->
  let r := run_agent_for_repo E fuel repo_base_dir (Some cfg) example w in
  let repo_path :=
    abspath E (cwd w) (os_path_join repo_base_dir (normalize_repo_name name)) in
  let file :=
    abspath E repo_path
      (path_str (RUN_AIDER_LOG_DIR E // "no_tests" // ".agent.yaml")) in
  (run_tests cfg = true -> yaml_written r.2 = yaml_written w)
  /\ (run_tests cfg = false ->
      forall g, repos w !! repo_path = Some g -> base_commit example ∈ objects g ->
        agent_name cfg = "aider" ->
        yaml_written r.2 = (yaml_written w ++ [(file, cfg)])%list)
  /\ ((forall ctx, (repo_setup E repo_base_dir (Some cfg) example w).1 <> Ret ctx) ->
      yaml_written r.2 = yaml_written w).
Proof.
  intros Hsplit Hids r repo_path file. subst r.
  rewrite run_agent_for_repo_unfold.
  assert (Hsetup_yaml :
            preserves yaml_written (repo_setup E repo_base_dir (Some cfg) example))
    by (unfold repo_setup; frame).
  specialize (Hsetup_yaml w).
  split; [|split].
  - intros Hmode.
    destruct (repo_setup _ _ _ _ _) as [[ctx|e|] w1] eqn:Hsetup;
      cbn [snd] in Hsetup_yaml; [|done..].
    apply repo_setup_ret in Hsetup
      as (org' & name' & ids' & cfg' & _ & _ & [= <-] & _ & Hctx & _).
    rewrite run_work_yaml, Hsetup_yaml.
    assert (Hm : run_tests (ctx_cfg ctx) = true) by (by rewrite Hctx).
    rewrite Hm. apply app_nil_r.
  - intros Hmode g Hg Hbase Hname.
    destruct (repo_setup_ok E repo_base_dir example org name ids cfg w g)
      as (ctx & w1 & Hsetup); try done.
    rewrite Hsetup in Hsetup_yaml |- *. cbn [snd] in Hsetup_yaml.
    apply repo_setup_ret in Hsetup
      as (org' & name' & ids' & cfg' & Hsplit' & _ & [= <-] & _ & Hctx & _).
    rewrite Hsplit in Hsplit'. injection Hsplit' as <- <-.
    rewrite run_work_yaml, Hsetup_yaml.
    assert (Hm : run_tests (ctx_cfg ctx) = false) by (by rewrite Hctx).
    rewrite Hm. by rewrite Hctx.
  - intros Hfail.
    destruct (repo_setup _ _ _ _ _) as [[ctx|e|] w1] eqn:Hsetup;
      cbn [snd] in Hsetup_yaml; [|done..].
    by destruct (Hfail ctx).
Qed.

(** X6 on a run in no-test mode over two target-edit files of which the
    coder is interrupted at the first: the configuration has been
    written, once. *)
Lemma configuration_written_once_witness :
  let w := demo_world fresh_git in
  let r := run_agent_for_repo (demo_env (coder_failing SystemExit)) 3 "repos"
             (Some demo_config_no_tests) demo_instance w in
  yaml_written r.2 =
    [("/work/repos/demo/logs/aider/no_tests/.agent.yaml", demo_config_no_tests)].
Proof.
  destruct (configuration_written_once (demo_env (coder_failing SystemExit)) 3
              "repos" demo_instance demo_config_no_tests "org" "Demo"
              ["tests/test_b.py::test_one"; "tests/test_a.py::test_one";
               "tests/test_b.py::test_two"]
              (demo_world fresh_git) eq_refl eq_refl) as (_ & Hno & _).
  cbv zeta. rewrite (Hno eq_refl fresh_git); [reflexivity|reflexivity| |reflexivity].
  by vm_compute.
Defined.

(** ** A repository with nothing to do *)

Lemma sorted_set_nil_iff (xs : list string) : sorted_set xs = [] <-> xs = [].
Proof.
  split.
  - intros Hnil. destruct xs as [|x xs]; [done|].
    by destruct (sorted_set_nonempty (x :: xs)).
  - intros ->. destruct (sorted_set []) as [|x l] eqn:Hs; [done|].
    assert (Hx : x ∈ sorted_set []) by (rewrite Hs; left).
    apply sorted_set_elem in Hx. by apply elem_of_nil in Hx.
Qed.

Lemma run_work_empty (E : Collaborators) fuel example cfg0 (ctx : RunContext)
  (w : World) :
  plan E example ctx = [] ->
  let r := run_work E fuel (Some cfg0) example ctx w in
  r.1 = Ret tt /\ agent_runs r.2 = agent_runs w /\ coder_runs r.2 = coder_runs w.
Proof.
  unfold plan, run_work, with_DirContext.
  destruct (run_tests (ctx_cfg ctx)); intros Hnil%List.map_eq_nil; rewrite Hnil; done.
Qed.

(** X7.  Let the repository name have one slash, the tests be found,
    the repository exist with its base commit and the agent be aider.
    The plan of a run is empty exactly when, in test-feedback mode, no
    test identifier is found and, in no-test mode, there is no
    target-edit file; a run with an empty plan returns, with no
    invocation and no call of the coder, whatever the budget of attempts
    and whatever the coder would do. *)
Theorem nothing_to_do_returns (E : Collaborators) (fuel : nat)
  (repo_base_dir : string) (example : RepoInstance) (cfg : AgentConfig)
  (org name : string) (ids : list string) (w : World) (g : Git) :
  PyStr.split "/" (repo example) = [org; name] ->
  get_tests E (normalize_repo_name name) = inr ids ->
  let repo_path :=
    abspath E (cwd w) (os_path_join repo_base_dir (normalize_repo_name name)) in
  repos w !! repo_path = Some g -> base_commit example ∈ objects g ->
  agent_name cfg = "aider" ->
  let planned := planned_invocations E repo_base_dir cfg example (cwd w) name ids in
  let r := run_agent_for_repo E fuel repo_base_dir (Some cfg) example w in
  (planned = [] <->
     if run_tests cfg then ids = [] else get_target_edit_files E repo_path = [])
  /\ (planned = [] ->
      r.1 = Ret tt /\ new_agent_runs w r.2 = [] /\ new_coder_runs w r.2 = []).
Proof.
  intros Hsplit Hids repo_path Hg Hbase Hname planned r. split.
  - subst planned. unfold planned_invocations. fold repo_path.
    destruct (run_tests cfg).
    + split.
      * intros H%List.map_eq_nil. apply (proj1 (sorted_set_nil_iff _)) in H.
        by apply List.map_eq_nil in H.
      * intros ->. cbn [List.map]. by rewrite (proj2 (sorted_set_nil_iff [])).
    + split; [by intros H%List.map_eq_nil|by intros ->].
  - intros Hnil. subst r. rewrite run_agent_for_repo_unfold.
    pose proof (repo_setup_agent_runs E repo_base_dir example (Some cfg) w) as Ha.
    pose proof (repo_setup_coder_runs E repo_base_dir example (Some cfg) w) as Hc.
    destruct (repo_setup_ok E repo_base_dir example org name ids cfg w g)
      as (ctx & w1 & Hsetup); try done.
    rewrite Hsetup in Ha, Hc |- *. cbn [snd] in Ha, Hc.
    apply repo_setup_ret in Hsetup
      as (org' & name' & ids' & cfg' & Hsplit' & Hids' & [= <-] & _ & Hctx & _).
    rewrite Hsplit in Hsplit'. injection Hsplit' as <- <-.
    rewrite Hids in Hids'. injection Hids' as <-.
    assert (Hplan : plan E example ctx = []) by (by rewrite Hctx).
    destruct (run_work_empty E fuel example cfg ctx w1 Hplan) as (Hr & Hra & Hrc).
    split; [exact Hr|]. unfold new_agent_runs, new_coder_runs.
    by rewrite Hra, Hrc, Ha, Hc, !drop_all.
Qed.

(** X7 on a repository for which no test identifier is found, with a
    coder that would fail at every call and no budget of attempts at
    all. *)
Lemma nothing_to_do_returns_witness :
  let E := mkCollaborators (fun _ => inr []) (args2string (demo_env coder_ok))
             (get_message (demo_env coder_ok))
             (get_target_edit_files (demo_env coder_ok))
             (get_lint_cmd (demo_env coder_ok)) (RUN_AIDER_LOG_DIR (demo_env coder_ok))
             (SPLIT (demo_env coder_ok)) demo_abspath demo_resolve
             (coder_failing (ExternalError "APIConnectionError")) in
  let w := demo_world fresh_git in
  let r := run_agent_for_repo E 0 "repos" (Some demo_config) demo_instance w in
  r.1 = Ret tt /\ new_agent_runs w r.2 = [] /\ new_coder_runs w r.2 = [].
Proof.
  cbv zeta.
  match goal with |- context [run_agent_for_repo ?E0 _ _ _ _ _] =>
    destruct (nothing_to_do_returns E0 0 "repos" demo_instance demo_config
                "org" "Demo" [] (demo_world fresh_git) fresh_git)
      as [Hiff Hrun]
  end; [reflexivity|reflexivity|reflexivity|by vm_compute|reflexivity|].
  apply Hrun. apply Hiff. reflexivity.
Defined.

(** ** The errors of the setup *)

(** X8.  Let the repository name have one slash and the tests be found.
    When there is no git repository at the repository path the run
    raises the [Exception] of lines 71-73 whatever the configuration is
    (none, or one for another agent, included); when there is one and
    the agent of the configuration is not aider it raises the
    [NotImplementedError] of lines 78-80.  In both cases the world is as
    it was: nothing is printed, no branch is created or moved, no
    invocation is made. *)
Theorem setup_errors_leave_no_trace (E : Collaborators) (fuel : nat)
  (repo_base_dir : string) (agent_config : option AgentConfig)
  (example : RepoInstance) (org name : string) (ids : list string) (w : World) :
  PyStr.split "/" (repo example) = [org; name] ->
  get_tests E (normalize_repo_name name) = inr ids ->
  let repo_path :=
    abspath E (cwd w) (os_path_join repo_base_dir (normalize_repo_name name)) in
  let r := run_agent_for_repo E fuel repo_base_dir agent_config example w in
  (repos w !! repo_path = None ->
   r = (Raise (Exception (repo_path ++
          " is not a git repo. Check if base_dir is correctly specified.")), w))
  /\ (forall g cfg,
        repos w !! repo_path = Some g -> agent_config = Some cfg ->
        agent_name cfg <> "aider" ->
        r = (Raise (NotImplementedError
                      (agent_name cfg ++ " is not implemented; please add your implementations in baselines/agents.py.")), w)).
Proof.
  intros Hsplit Hids repo_path r. subst r repo_path.
  split; [intros Hnone|intros g cfg Hg -> Hname];
    unfold run_agent_for_repo, repo_setup, bind;
    rewrite Hsplit; mstep; rewrite Hids; mstep; unfold open_repo at 1.
  - by rewrite Hnone.
  - rewrite Hg. mstep. apply String.eqb_neq in Hname. by rewrite Hname.
Qed.

(** X8 on a base directory that holds no repository, with no
    configuration, and on a configuration for an agent that is not
    implemented. *)
Lemma setup_errors_leave_no_trace_witness :
  run_agent_for_repo (demo_env coder_ok) 1 "elsewhere" None demo_instance
    (demo_world fresh_git)
  = (Raise (Exception "/work/elsewhere/demo is not a git repo. Check if base_dir is correctly specified."),
     demo_world fresh_git)
  /\ run_agent_for_repo (demo_env coder_ok) 1 "repos"
       (Some (mkAgentConfig "openhands" "gpt-4o" 3 true false)) demo_instance
       (demo_world fresh_git)
     = (Raise (NotImplementedError "openhands is not implemented; please add your implementations in baselines/agents.py."),
        demo_world fresh_git).
Proof.
  split.
  - destruct (setup_errors_leave_no_trace (demo_env coder_ok) 1 "elsewhere" None
                demo_instance "org" "Demo"
                ["tests/test_b.py::test_one"; "tests/test_a.py::test_one";
                 "tests/test_b.py::test_two"]
                (demo_world fresh_git) eq_refl eq_refl) as [Hnone _].
    apply Hnone. reflexivity.
  - destruct (setup_errors_leave_no_trace (demo_env coder_ok) 1 "repos"
                (Some (mkAgentConfig "openhands" "gpt-4o" 3 true false))
                demo_instance "org" "Demo"
                ["tests/test_b.py::test_one"; "tests/test_a.py::test_one";
                 "tests/test_b.py::test_two"]
                (demo_world fresh_git) eq_refl eq_refl) as [_ Hagent].
    apply (Hagent fresh_git (mkAgentConfig "openhands" "gpt-4o" 3 true false));
      [reflexivity|reflexivity|discriminate].
Defined.

(** ** The name of the repository *)

Section RepoName.

Implicit Types (s : string) (c sep : ascii).

(** A split has one field more than the string has separators. *)
Lemma split_length sep s :
  length (PyStr.split sep s) = S (count_char sep s).
Proof.
  induction s as [|c s IH]; [done|].
  cbn [PyStr.split count_char]. destruct (Ascii.eqb c sep).
  - cbn. by rewrite IH.
  - destruct (PyStr.split sep s) as [|v vs] eqn:Hs; [by destruct (split_nonempty sep s)|].
    cbn in *. done.
Qed.

Lemma split_two sep s :
  count_char sep s = 1 ->
  PyStr.split sep s = [before_first sep s; after_last sep s].
Proof.
  intros Hn. pose proof (split_length sep s) as Hlen. rewrite Hn in Hlen.
  pose proof (hd_split sep s) as Hhd.
  pose proof (last_split_after_last sep s) as Hlast.
  destruct (PyStr.split sep s) as [|a [|b [|? ?]]]; try done.
  cbn in Hhd, Hlast. by subst.
Qed.






End RepoName.

(** X9.  [example["repo"]] is unpacked into two names, so it has to
    hold exactly one slash: then the two names are what stands before
    and what stands after the slash.  With no slash, and with two or
    more, [run_agent_for_repo] raises [ValueError] at its first line,
    the world untouched, and so does [run_aider_for_repo] of the
    baseline once it has its two configurations. *)
Theorem repo_name_needs_one_slash (E : Collaborators) (fuel : nat)
  (repo_base_dir : string) (agent_config : option AgentConfig)
  (example : RepoInstance) (w : World) :
  let n := count_char "/" (repo example) in
  let r := run_agent_for_repo E fuel repo_base_dir agent_config example w in
  (n = 1 <-> exists org name, PyStr.split "/" (repo example) = [org; name])
  /\ (n = 1 ->
      PyStr.split "/" (repo example) =
        [before_first "/" (repo example); after_last "/" (repo example)])
  /\ (n = 0 -> r = (Raise (ValueError "not enough values to unpack"), w))
  /\ (2 <= n -> r = (Raise (ValueError "too many values to unpack"), w))
  /\ (n <> 1 ->
      forall (B : Baseline.BCollaborators) c0 ac (bw : Baseline.BWorld),
        exists msg,
          Baseline.run_aider_for_repo B (Some c0) (Some ac) example bw
          = (Raise (ValueError msg), bw)).
Proof.
  intros n r. subst n r.
  pose proof (split_length "/" (repo example)) as Hlen.
  split; [|split; [|split; [|split]]].
  - split.
    + intros Hn. eexists _, _. by apply split_two.
    + intros (org & name & Hs). rewrite Hs in Hlen. cbn in Hlen. lia.
  - apply split_two.
  - intros Hn. rewrite Hn in Hlen.
    unfold run_agent_for_repo, repo_setup, bind.
    by destruct (PyStr.split "/" (repo example)) as [|a [|b l]].
  - intros Hn. unfold run_agent_for_repo, repo_setup, bind.
    destruct (PyStr.split "/" (repo example)) as [|a [|b [|c l]]];
      cbn in Hlen; first [lia|done].
  - intros Hn B c0 ac bw. unfold Baseline.run_aider_for_repo, bind.
    destruct (PyStr.split "/" (repo example)) as [|a [|b [|c l]]];
      cbn in Hlen; first [lia|by eexists].
Qed.

(** X9 on a repository name with an organisation, a group and a name,
    and on one without a slash. *)
Lemma repo_name_needs_one_slash_witness :
  run_agent_for_repo (demo_env coder_ok) 1 "repos" (Some demo_config)
    (mkRepoInstance "org/group/demo" "c0" "tests") (demo_world fresh_git)
  = (Raise (ValueError "too many values to unpack"), demo_world fresh_git)
  /\ run_agent_for_repo (demo_env coder_ok) 1 "repos" (Some demo_config)
       (mkRepoInstance "demo" "c0" "tests") (demo_world fresh_git)
     = (Raise (ValueError "not enough values to unpack"), demo_world fresh_git).
Proof.
  split.
  - destruct (repo_name_needs_one_slash (demo_env coder_ok) 1 "repos"
                (Some demo_config) (mkRepoInstance "org/group/demo" "c0" "tests")
                (demo_world fresh_git)) as (_ & _ & _ & Hmany & _).
    apply Hmany. vm_compute. lia.
  - destruct (repo_name_needs_one_slash (demo_env coder_ok) 1 "repos"
                (Some demo_config) (mkRepoInstance "demo" "c0" "tests")
                (demo_world fresh_git)) as (_ & _ & Hfew & _).
    apply Hfew. reflexivity.
Defined.



(** ** The work units of a run are distinct *)

Section Distinct.

Implicit Types (s t u : string).

Lemma append_inj_l s t u : s ++ t = s ++ u -> t = u.
Proof.
  induction s as [|c s IH]; [done|]. rewrite !append_cons. intros [= H]. by apply IH.
Qed.

Lemma append_length s t :
  String.length (s ++ t) = String.length s + String.length t.
Proof. induction s as [|c s IH]; [done|]. rewrite append_cons. cbn. by rewrite IH. Qed.

Lemma append_inj_r s t u : s ++ u = t ++ u -> s = t.
Proof.
  revert t. induction s as [|c s IH]; intros [|d t] H.
  - done.
  - apply (f_equal String.length) in H. rewrite !append_length in H.
    cbn in H. lia.
  - apply (f_equal String.length) in H. rewrite !append_length in H.
    cbn in H. lia.
  - rewrite !append_cons in H. injection H as -> H. f_equal. by apply IH.
Qed.

(** The test command names its test file: two files with the same
    command are the same file. *)
Lemma test_cmd_inj (E : Collaborators) cfg local_repo repo_path run_id tef :
  Inj (=) (=) (fun f => inv_test_cmd (test_invocation E cfg local_repo repo_path
                                        run_id tef f)).
Proof.
  intros f1 f2. unfold test_invocation. cbn [inv_test_cmd]. intros H.
  apply append_inj_l, append_inj_l, append_inj_l in H. by apply append_inj_r in H.
Qed.

Lemma file_invocation_inj (E : Collaborators) cfg local_repo message :
  Inj (=) (=) (file_invocation E cfg local_repo message).
Proof. intros f1 f2. unfold file_invocation. by intros [= ->]. Qed.

End Distinct.

(** X11.  In test-feedback mode no two invocations of the plan are the
    same: their test commands, which name the test file, are pairwise
    distinct, also for test files whose log directories coincide.  In
    no-test mode the invocations of the plan are pairwise distinct
    exactly when the list of target-edit files has no file twice. *)
Theorem work_units_are_distinct (E : Collaborators) (repo_base_dir : string)
  (cfg : AgentConfig) (example : RepoInstance) (here name : string)
  (ids : list string) :
  let planned := planned_invocations E repo_base_dir cfg example here name ids in
  let repo_path :=
    abspath E here (os_path_join repo_base_dir (normalize_repo_name name)) in
  (run_tests cfg = true ->
   NoDup (List.map inv_test_cmd planned) /\ NoDup planned)
  /\ (run_tests cfg = false ->
      (NoDup planned <-> NoDup (get_target_edit_files E repo_path))).
Proof.
  intros planned repo_path. subst planned. unfold planned_invocations.
  fold repo_path. split; intros ->.
  - assert (Hcmds : NoDup (List.map inv_test_cmd
                (List.map (test_invocation E cfg repo_path repo_path
                             (args2string E cfg) (get_target_edit_files E repo_path))
                          (sorted_set (List.map test_path ids))))).
    { rewrite List.map_map.
      pose proof (test_cmd_inj E cfg repo_path repo_path (args2string E cfg)
                    (get_target_edit_files E repo_path)) as Hinj.
      apply (NoDup_fmap_2 _). apply sorted_set_NoDup. }
    split; [exact Hcmds|]. by apply (NoDup_fmap_1 inv_test_cmd).
  - pose proof (file_invocation_inj E cfg repo_path
                  (get_message E cfg repo_path (TestDir (test_dir example))))
      as Hinj.
    apply (NoDup_fmap _).
Qed.

(** X11 on the test files [tests/test_a.py] and [tests__test_a.py],
    which share their log directory: the two invocations differ. *)
Lemma work_units_are_distinct_witness :
  let E := mkCollaborators (fun _ => inr ["tests/test_a.py::t"; "tests__test_a.py::t"])
             (args2string (demo_env coder_ok)) (get_message (demo_env coder_ok))
             (get_target_edit_files (demo_env coder_ok))
             (get_lint_cmd (demo_env coder_ok)) (RUN_AIDER_LOG_DIR (demo_env coder_ok))
             (SPLIT (demo_env coder_ok)) demo_abspath demo_resolve coder_ok in
  let planned := planned_invocations E "repos" demo_config demo_instance "/work"
                   "Demo" ["tests/test_a.py::t"; "tests__test_a.py::t"] in
  List.map (fun i => path_str (inv_log_dir i)) planned =
    ["logs/aider/with_tests/tests__test_a"; "logs/aider/with_tests/tests__test_a"]
  /\ NoDup (List.map inv_test_cmd planned) /\ NoDup planned.
Proof.
  cbv zeta. split; [vm_compute; reflexivity|].
  match goal with |- NoDup (List.map _ (planned_invocations ?E0 _ _ _ _ _ _)) /\ _ =>
    apply (work_units_are_distinct E0 "repos" demo_config demo_instance "/work"
             "Demo" ["tests/test_a.py::t"; "tests__test_a.py::t"])
  end.
  reflexivity.
Defined.

(** ** The log directories are flat *)



(** ** [run_agent]: what the dispatcher itself does *)

Section Dispatch.

Variable E : Collaborators.

Lemma submit_frame {X} (f : World -> X) {A} (mk : A -> Task) (xs : list A) :
  (forall t w, f (submit t w) = f w) ->
  preserves f (for_each xs (fun x => modify (submit (mk x)))).
Proof.
  intros H. apply preserves_for_each. intros x. by apply preserves_modify.
Qed.

(** With a configuration and at least one selected record, [run_agent]
    returns; what it has changed is the list of submitted tasks and, for
    more than one task, [sys.stdout]. *)
Lemma run_agent_run agent_config_file cfg (commit0_config : Commit0Config)
  (dataset : list DatasetRecord) (w : World) :
  let chosen := List.filter (selected E (repo_split commit0_config)) dataset in
  chosen <> [] ->
  exists w',
    run_agent E agent_config_file (Some cfg) commit0_config dataset w = (Ret tt, w')
    /\ submitted w' =
       (submitted w ++ List.map (mkTask (base_dir commit0_config) cfg) chosen)%list
    /\ sys_stdout w' = (if (1 <? length chosen)%nat then devnull else sys_stdout w)
    /\ sys_stderr w' = sys_stderr w
    /\ cwd w' = cwd w /\ repos w' = repos w
    /\ agent_runs w' = agent_runs w /\ coder_runs w' = coder_runs w.
Proof.
  intros chosen Hne. unfold run_agent, bind. cbn [read_yaml_config ret].
  fold chosen.
  assert (Hpos : (0 <? length chosen)%nat = true) by (by destruct chosen).
  rewrite Hpos. cbn [py_assert ret].
  set (mk := mkTask (base_dir commit0_config) cfg).
  destruct (1 <? length chosen)%nat.
  - change (modify (set_stdout devnull) w) with (Ret tt, set_stdout devnull w).
    cbv iota beta.
    destruct (for_each_submit mk chosen (set_stdout devnull w)) as (w' & Hrun & Hsub).
    pose proof (submit_frame sys_stdout mk chosen (fun _ _ => eq_refl)
                  (set_stdout devnull w)) as H1.
    pose proof (submit_frame sys_stderr mk chosen (fun _ _ => eq_refl)
                  (set_stdout devnull w)) as H2.
    pose proof (submit_frame cwd mk chosen (fun _ _ => eq_refl)
                  (set_stdout devnull w)) as H3.
    pose proof (submit_frame repos mk chosen (fun _ _ => eq_refl)
                  (set_stdout devnull w)) as H4.
    pose proof (submit_frame agent_runs mk chosen (fun _ _ => eq_refl)
                  (set_stdout devnull w)) as H5.
    pose proof (submit_frame coder_runs mk chosen (fun _ _ => eq_refl)
                  (set_stdout devnull w)) as H6.
    rewrite Hrun in H1, H2, H3, H4, H5, H6 |- *. exists w'. by repeat split.
  - change (ret tt w) with (Ret tt, w). cbv iota beta.
    destruct (for_each_submit mk chosen w) as (w' & Hrun & Hsub).
    pose proof (submit_frame sys_stdout mk chosen (fun _ _ => eq_refl) w) as H1.
    pose proof (submit_frame sys_stderr mk chosen (fun _ _ => eq_refl) w) as H2.
    pose proof (submit_frame cwd mk chosen (fun _ _ => eq_refl) w) as H3.
    pose proof (submit_frame repos mk chosen (fun _ _ => eq_refl) w) as H4.
    pose proof (submit_frame agent_runs mk chosen (fun _ _ => eq_refl) w) as H5.
    pose proof (submit_frame coder_runs mk chosen (fun _ _ => eq_refl) w) as H6.
    rewrite Hrun in H1, H2, H3, H4, H5, H6 |- *. exists w'. by repeat split.
Qed.

Lemma filter_all {A} (p : A -> bool) (xs : list A) :
  (forall x, p x = true) -> List.filter p xs = xs.
Proof.
  intros H. induction xs as [|x xs IH]; [done|]. cbn. by rewrite H, IH.
Qed.

Lemma filter_none {A} (p : A -> bool) (xs : list A) :
  (forall x, p x = false) -> List.filter p xs = [].
Proof.
  intros H. induction xs as [|x xs IH]; [done|]. cbn. by rewrite H, IH.
Qed.

End Dispatch.



(** X14.  A split name that is neither ["all"] nor a key of [SPLIT]
    selects no record, so [run_agent] ends with the assertion error of
    line 159 whatever the dataset holds.  The selector ["all"] selects
    every record as it is, also a record that is not a dict or has no
    repository name: over a non-empty dataset one task is submitted for
    each record, in the order of the dataset. *)
Theorem split_names (E : Collaborators) (agent_config_file : string)
  (cfg : AgentConfig) (commit0_config : Commit0Config)
  (dataset : list DatasetRecord) (w : World) :
  let r := run_agent E agent_config_file (Some cfg) commit0_config dataset w in
  (repo_split commit0_config <> "all" ->
   SPLIT E !! repo_split commit0_config = None ->
   r = (Raise (AssertionError "No examples available"), w))
  /\ (repo_split commit0_config = "all" -> dataset <> [] ->
      r.1 = Ret tt
      /\ submitted r.2 =
         (submitted w ++ List.map (mkTask (base_dir commit0_config) cfg) dataset)%list).
Proof.
  intros r. subst r. split.
  - intros Hall Hkey.
    assert (Hnone : List.filter (selected E (repo_split commit0_config)) dataset = []).
    { apply filter_none. intros x. unfold selected. rewrite Hkey.
      apply String.eqb_neq in Hall. rewrite Hall. cbn.
      destruct x as [|d]; [done|]. by destruct (d !! "repo") as [[]|]. }
    unfold run_agent, bind. cbn [read_yaml_config ret]. by rewrite Hnone.
  - intros Hall Hne.
    assert (Hsel : List.filter (selected E (repo_split commit0_config)) dataset
                   = dataset).
    { apply filter_all. intros x. unfold selected. by rewrite Hall. }
    destruct (run_agent_run E agent_config_file cfg commit0_config dataset w)
      as (w' & Hrun & Hsub & _); [by rewrite Hsel|].
    rewrite Hsel in Hsub. by rewrite Hrun.
Qed.

(** X14 on a split name that [SPLIT] does not hold, and on ["all"] over
    a dataset whose third record is not a dict. *)
Lemma split_names_witness :
  run_agent (demo_env coder_ok) "agent.yaml" (Some demo_config)
    (demo_commit0 "nothing") demo_dataset (demo_world fresh_git)
  = (Raise (AssertionError "No examples available"), demo_world fresh_git)
  /\ List.map task_example
       (submitted (run_agent (demo_env coder_ok) "agent.yaml" (Some demo_config)
                     (demo_commit0 "all") demo_dataset (demo_world fresh_git)).2)
     = demo_dataset.
Proof.
  split.
  - destruct (split_names (demo_env coder_ok) "agent.yaml" demo_config
                (demo_commit0 "nothing") demo_dataset (demo_world fresh_git))
      as [Hnone _].
    apply Hnone; [discriminate|reflexivity].
  - destruct (split_names (demo_env coder_ok) "agent.yaml" demo_config
                (demo_commit0 "all") demo_dataset (demo_world fresh_git))
      as [_ Hall].
    destruct Hall as [_ Hsub]; [reflexivity|discriminate|].
    rewrite Hsub. reflexivity.
Defined.

(** ** The baseline: the archive of test ids, the command, [main] *)

Section BaselineSetup.

Import Baseline.

Variable B : BCollaborators.





(** [run_aider_for_repo] with its two configurations and a repository
    name of two parts, step by step. *)
Lemma run_aider_unfold c0 ac ds org name bw :
  PyStr.split "/" (repo ds) = [org; name] ->
  run_aider_for_repo B (Some c0) (Some ac) ds bw =
  let repo_name := normalize_repo_name name in
  let repo_path := os_path_join (base_dir c0) repo_name in
  let files := get_target_edit_files_cmd_args B repo_path in
  let message := get_message_to_aider B ac files repo_path ds in
  let lint_cmd := if use_lint_info ac
                  then "pre-commit run --config ../../.pre-commit-config.yaml --files"
                  else "" in
  match tar_open B ("commit0/data/test_ids/" ++ repo_name ++ ".tar.bz2") with
  | inl e => (Raise e, bw)
  | inr members =>
      match read_members members None with
      | None => (Raise (UnboundLocalError "test_files_str"), bw)
      | Some text =>
          if dir_exists B repo_path
          then for_each (sorted_set (List.map test_path (PyStr.split "010" text)))
                 (loop_body B ac repo_name files message lint_cmd)
                 (b_chdir repo_path bw)
          else (Raise (FileNotFoundError repo_path), bw)
      end
  end.
Proof.
  intros Hsplit. unfold run_aider_for_repo, bind. rewrite Hsplit. mstep.
  unfold normalize_repo_name. cbv zeta.
  destruct (tar_open B _) as [e|members]; [done|]. mstep.
  destruct (read_members members None) as [text|]; [|done]. mstep.
  by destruct (dir_exists B _).
Qed.

Lemma loop_body_cwd ac repo_name files message lint_cmd test_file bw :
  b_cwd (loop_body B ac repo_name files message lint_cmd test_file bw).2 = b_cwd bw.
Proof.
  unfold loop_body, bind, try_popen.
  destruct (popen B _ _) as [out err|e]; [done|].
  destruct (is_CalledProcessError e); [done|].
  destruct (os_errno e) as [errno|]; [|done].
  by destruct (errno =? 63)%Z.
Qed.

(** Whatever it is given, [run_aider_for_repo] ends with an exception,
    having launched at most one command. *)
Lemma run_aider_raises c0' ac' ds bw :
  let r := run_aider_for_repo B c0' ac' ds bw in
  (exists e, r.1 = Raise e)
  /\ (launched r.2 = launched bw
      \/ exists cmd, launched r.2 = (launched bw ++ [cmd])%list).
Proof.
  cbv zeta. destruct c0' as [c0|], ac' as [ac|];
    try (split; [by eexists|by left]).
  destruct (PyStr.split "/" (repo ds)) as [|org [|name [|? ?]]] eqn:Hsplit;
    try (unfold run_aider_for_repo, bind; rewrite Hsplit;
         split; [by eexists|by left]).
  rewrite (run_aider_unfold c0 ac ds org name bw Hsplit). cbv zeta.
  destruct (tar_open B _) as [e|members]; [split; [by eexists|by left]|].
  destruct (read_members members None) as [text|]; [|split; [by eexists|by left]].
  destruct (dir_exists B _); [|split; [by eexists|by left]].
  destruct (sorted_set (List.map test_path (PyStr.split "010" text)))
    as [|test_file rest] eqn:Hfiles.
  { exfalso. eapply sorted_set_nonempty; [|exact Hfiles].
    destruct (PyStr.split "010" text) eqn:Hs; [|done].
    by destruct (split_nonempty "010" text). }
  rewrite loop_spec.
  match goal with |- context [loop_body B ?a ?b ?c ?d ?e ?f ?w0] =>
    destruct (loop_body_spec B a b c d e f w0) as [Hl Hr];
    destruct (loop_body B a b c d e f w0) as [r w1] end.
  cbn [fst snd] in *. split; [by eexists|]. right. by eexists.
Qed.

End BaselineSetup.

Section TrailingNewline.

Implicit Types (s t : string) (sep : ascii).

Lemma after_last_trailing sep t : after_last sep (t ++ String sep "") = "".
Proof.
  induction t as [|c t IH].
  - change ("" ++ ?x) with x. cbn [after_last PyStr.occurs String.prefix].
    by rewrite Ascii.eqb_refl.
  - rewrite append_cons. cbn [after_last]. by rewrite occurs_sep_app.
Qed.

Lemma last_in (l : list string) d : l <> [] -> List.last l d ∈ l.
Proof.
  induction l as [|x l IH]; [done|]. intros _.
  destruct l as [|y l]; [left|]. right. by apply IH.
Qed.

(** A text that ends with the separator has an empty last field. *)
Lemma split_trailing sep t : "" ∈ PyStr.split sep (t ++ String sep "").
Proof.
  pose proof (last_in (PyStr.split sep (t ++ String sep "")) ""
                (split_nonempty _ _)) as H.
  by rewrite last_split_after_last, after_last_trailing in H.
Qed.

Lemma le_empty s : String.le "" s.
Proof. by destruct s. Qed.

End TrailingNewline.



(** X16.  Let the repository name have one slash, the baseline have its
    two configurations and the archive give a text.  When the directory
    of the repository does not exist the function ends with
    [FileNotFoundError], nothing launched.  When it exists, the one
    command the function launches is the command of the least test path
    of the text (the paths being the parts of its lines before the first
    colon); the lint command in it is the fixed pre-commit command when
    lint information is asked for and empty otherwise; the working
    directory is left in the repository; and for a text that ends with a
    newline the least test path is the empty one. *)
Theorem baseline_launches_least_test_path (B : Baseline.BCollaborators)
  (c0 : Commit0Config) (ac : Baseline.AiderConfig) (ds : RepoInstance)
  (org name : string) (bw : Baseline.BWorld) (members : list Baseline.TarMember)
  (text : string) :
  PyStr.split "/" (repo ds) = [org; name] ->
  let repo_name := normalize_repo_name name in
  Baseline.tar_open B ("commit0/data/test_ids/" ++ repo_name ++ ".tar.bz2")
    = inr members ->
  Baseline.read_members members None = Some text ->
  let repo_path := os_path_join (base_dir c0) repo_name in
  let paths := List.map test_path (PyStr.split "010" text) in
  let files := Baseline.get_target_edit_files_cmd_args B repo_path in
  let message := Baseline.get_message_to_aider B ac files repo_path ds in
  let lint_cmd :=
    if Baseline.use_lint_info ac
    then "pre-commit run --config ../../.pre-commit-config.yaml --files"
    else "" in
  let r := Baseline.run_aider_for_repo B (Some c0) (Some ac) ds bw in
  (Baseline.dir_exists B repo_path = false ->
   r = (Raise (FileNotFoundError repo_path), bw))
  /\ (Baseline.dir_exists B repo_path = true ->
      exists tf,
        tf ∈ paths /\ (forall p, p ∈ paths -> String.le tf p)
        /\ Baseline.launched r.2 =
           (Baseline.launched bw
              ++ [Baseline.aider_cmd_of ac repo_name files message lint_cmd tf])%list
        /\ Baseline.b_cwd r.2 = repo_path
        /\ (forall t, text = t ++ newline -> tf = "")).
Proof.
  intros Hsplit repo_name Htar Hread repo_path paths files message lint_cmd r.
  subst r. rewrite (run_aider_unfold B c0 ac ds org name bw Hsplit). cbv zeta.
  fold repo_name. rewrite Htar, Hread. fold repo_path files message lint_cmd paths.
  split; [by intros ->|]. intros ->.
  pose proof (sorted_set_le paths) as Hsorted.
  pose proof (sorted_set_elem paths) as Helem.
  destruct (sorted_set paths) as [|tf rest] eqn:Hfiles.
  { exfalso. eapply sorted_set_nonempty; [|exact Hfiles].
    subst paths. destruct (PyStr.split "010" text) eqn:Hs; [|done].
    by destruct (split_nonempty "010" text). }
  assert (Hleast : forall p, p ∈ paths -> String.le tf p).
  { intros p Hp. apply Helem in Hp. apply StronglySorted_inv in Hsorted as [_ Hall].
    apply elem_of_cons in Hp as [->|Hp]; [done|].
    by eapply Forall_forall in Hall. }
  exists tf. split; [apply Helem; left|]. split; [exact Hleast|].
  rewrite loop_spec.
  pose proof (loop_body_cwd B ac repo_name files message lint_cmd tf
                (Baseline.b_chdir repo_path bw)) as Hcwd.
  destruct (loop_body_spec B ac repo_name files message lint_cmd tf
              (Baseline.b_chdir repo_path bw)) as [Hl _].
  split; [exact Hl|]. split; [exact Hcwd|].
  intros t ->. apply (anti_symm String.le); [|apply le_empty].
  apply Hleast. subst paths.
  apply (list_elem_of_fmap_2 test_path (PyStr.split "010" (t ++ newline)) "").
  apply split_trailing.
Qed.

(** X16 on an archive whose text ends with a newline: the command
    launched is the command of the empty test path. *)
Lemma baseline_launches_least_test_path_witness :
  let B := demo_baseline (two_test_files ++ newline) in
  let r := Baseline.run_aider_for_repo B (Some (demo_commit0 "all"))
             (Some (Baseline.mkAiderConfig "gpt-4o" false)) demo_instance
             demo_bworld in
  exists tf,
    tf = ""
    /\ Baseline.launched r.2 =
       [Baseline.aider_cmd_of (Baseline.mkAiderConfig "gpt-4o" false) "demo"
          "src/a.py src/b.py" "Here is your task" "" tf]
    /\ Baseline.b_cwd r.2 = "repos/demo".
Proof.
  cbv zeta.
  destruct (baseline_launches_least_test_path
              (demo_baseline (two_test_files ++ newline)) (demo_commit0 "all")
              (Baseline.mkAiderConfig "gpt-4o" false) demo_instance "org" "Demo"
              demo_bworld
              [Baseline.mkTarMember true (Some (two_test_files ++ newline))]
              (two_test_files ++ newline) eq_refl eq_refl eq_refl) as [_ Hrun].
  destruct (Hrun eq_refl) as (tf & _ & _ & Hl & Hcwd & Hnl).
  exists tf. split; [by apply (Hnl two_test_files)|]. split; [exact Hl|exact Hcwd].
Defined.

Lemma for_each_first_raises {W A} (body : A -> M W unit) x xs (st : W) e :
  (body x st).1 = Raise e -> for_each (x :: xs) body st = body x st.
Proof.
  intros H. cbn [for_each]. unfold bind.
  destruct (body x st) as [r st']. cbn in H. by subst r.
Qed.

(** X17.  [main] of the baseline raises [ValueError] when one of the
    two parts of the configuration is missing, before anything else, so
    the same check in [run_aider_for_repo] never fails under it.  With
    both parts, it selects the rows whose repository name ends, after
    its last slash, with a member of the split, or every row for the
    split ["all"]; when no row is selected it returns without doing
    anything and without an error; otherwise it is over with the first
    selected row: it ends as [run_aider_for_repo] ends on that row, with
    an exception and at most one command launched, and the rows after it
    are never processed. *)
Theorem baseline_main_stops_at_first_repository (B : Baseline.BCollaborators)
  (SPLIT : gmap string (list string)) (commit0_config : option Commit0Config)
  (aider_config : option Baseline.AiderConfig) (dataset : list RepoInstance)
  (bw : Baseline.BWorld) :
  let r := Baseline.main B SPLIT commit0_config aider_config dataset bw in
  (commit0_config = None \/ aider_config = None ->
   r = (Raise (ValueError "Invalid input"), bw))
  /\ (forall c0 ac, commit0_config = Some c0 -> aider_config = Some ac ->
      let chosen := List.filter (Baseline.selected SPLIT (repo_split c0)) dataset in
      (forall ex, ex ∈ chosen <->
         ex ∈ dataset
         /\ (repo_split c0 = "all"
             \/ after_last "/" (repo ex) ∈ default [] (SPLIT !! repo_split c0)))
      /\ (chosen = [] -> r = (Ret tt, bw))
      /\ (forall ex rest, chosen = ex :: rest ->
            r = Baseline.run_aider_for_repo B commit0_config aider_config ex bw
            /\ (exists e, r.1 = Raise e)
            /\ (Baseline.launched r.2 = Baseline.launched bw
                \/ exists cmd,
                     Baseline.launched r.2 = (Baseline.launched bw ++ [cmd])%list))).
Proof.
  intros r. subst r. split.
  - intros [->| ->]; [done|]. by destruct commit0_config.
  - intros c0 ac -> -> chosen. split; [|split].
    + intros ex. subst chosen. rewrite list_elem_of_In, filter_In, <-list_elem_of_In.
      unfold Baseline.selected.
      rewrite orb_true_iff, String.eqb_eq, bool_decide_eq_true,
        last_split_after_last.
      done.
    + intros Hnil. unfold Baseline.main. fold chosen. by rewrite Hnil.
    + intros ex rest Hchosen. unfold Baseline.main. fold chosen. rewrite Hchosen.
      destruct (run_aider_raises B (Some c0) (Some ac) ex bw) as [[e He] Hl].
      rewrite (for_each_first_raises
                 (fun example =>
                    Baseline.run_aider_for_repo B (Some c0) (Some ac) example)
                 ex rest bw e He).
      split; [done|]. split; [by exists e|exact Hl].
Qed.

(** X17 on a dataset of two repositories, both selected: one command is
    launched, for the first repository, and [main] ends with the
    [NameError] of that run. *)
Lemma baseline_main_stops_at_first_repository_witness :
  let r := Baseline.main (demo_baseline two_test_files) ∅
             (Some (demo_commit0 "all")) (Some (Baseline.mkAiderConfig "gpt-4o" false))
             [demo_instance; mkRepoInstance "org/other" "c0" "tests"] demo_bworld in
  r = Baseline.run_aider_for_repo (demo_baseline two_test_files)
        (Some (demo_commit0 "all")) (Some (Baseline.mkAiderConfig "gpt-4o" false))
        demo_instance demo_bworld
  /\ r.1 = Raise (NameError "asdf") /\ length (Baseline.launched r.2) = 1
  /\ Baseline.main (demo_baseline two_test_files) ∅ None
       (Some (Baseline.mkAiderConfig "gpt-4o" false))
       [demo_instance] demo_bworld
     = (Raise (ValueError "Invalid input"), demo_bworld).
Proof.
  cbv zeta.
  destruct (baseline_main_stops_at_first_repository (demo_baseline two_test_files) ∅
              (Some (demo_commit0 "all")) (Some (Baseline.mkAiderConfig "gpt-4o" false))
              [demo_instance; mkRepoInstance "org/other" "c0" "tests"] demo_bworld)
    as [_ Hboth].
  destruct (Hboth (demo_commit0 "all") (Baseline.mkAiderConfig "gpt-4o" false)
              eq_refl eq_refl) as (_ & _ & Hfirst).
  destruct (Hfirst demo_instance [mkRepoInstance "org/other" "c0" "tests"] eq_refl)
    as (Hrun & _ & _).
  split; [exact Hrun|]. rewrite Hrun. split; [by vm_compute|]. split; [by vm_compute|].
  destruct (baseline_main_stops_at_first_repository (demo_baseline two_test_files) ∅
              None (Some (Baseline.mkAiderConfig "gpt-4o" false))
              [demo_instance] demo_bworld) as [Hnone _].
  apply Hnone. by left.
Defined.

(** ** The command line of the baseline *)

Lemma aider_cmd_shape (ac : Baseline.AiderConfig)
  (repo_name files message lint_cmd tf : string) :
  Baseline.aider_cmd_of ac repo_name files message lint_cmd tf =
  ("aider --model " ++ Baseline.llm_name ac ++ " --file " ++ files
     ++ " --message " ++ Baseline.dquote ++ message ++ Baseline.dquote)
  ++ (if String.eqb lint_cmd "" then ""
      else " --auto-lint --lint-cmd '" ++ lint_cmd ++ "'")
  ++ " --auto-test --test --test-cmd '"
  ++ ("python -m commit0 test " ++ repo_name ++ " " ++ tf) ++ "'"
  ++ " --yes".
Proof.
  unfold Baseline.aider_cmd_of, Baseline.get_aider_cmd.
  rewrite (append_cons "p" _ (repo_name ++ " " ++ tf)).
  cbn [String.eqb negb].
  destruct (String.eqb lint_cmd ""); cbn [negb]; by rewrite !append_assoc.
Qed.

(** X18.  The command line that the baseline builds for a test file
    always asks for automatic testing, with the test command of that
    file, since that command is never empty; it asks for automatic
    linting, with the fixed pre-commit command, exactly when lint
    information is configured; it ends with [--yes]; and the command
    lines of two test files are the same only when the files are the
    same. *)
Theorem baseline_command_line (ac : Baseline.AiderConfig)
  (repo_name files message tf : string) :
  let lint_cmd :=
    if Baseline.use_lint_info ac
    then "pre-commit run --config ../../.pre-commit-config.yaml --files"
    else "" in
  let cmd := Baseline.aider_cmd_of ac repo_name files message lint_cmd in
  cmd tf =
    ("aider --model " ++ Baseline.llm_name ac ++ " --file " ++ files
       ++ " --message " ++ Baseline.dquote ++ message ++ Baseline.dquote)
    ++ (if Baseline.use_lint_info ac
        then " --auto-lint --lint-cmd 'pre-commit run --config ../../.pre-commit-config.yaml --files'"
        else "")
    ++ " --auto-test --test --test-cmd 'python -m commit0 test "
    ++ repo_name ++ " " ++ tf ++ "'" ++ " --yes"
  /\ (forall tf', cmd tf' = cmd tf -> tf' = tf).
Proof.
  intros lint_cmd cmd. subst cmd. split.
  - rewrite aider_cmd_shape. subst lint_cmd.
    destruct (Baseline.use_lint_info ac); cbn [String.eqb];
      by rewrite ?append_assoc.
  - intros tf'. rewrite !aider_cmd_shape. intros H.
    apply append_inj_l, append_inj_l, append_inj_l in H.
    rewrite !append_assoc in H.
    apply append_inj_l, append_inj_l, append_inj_l in H.
    by apply append_inj_r in H.
Qed.

(** ** Where the notices of the attempts go *)

Section Notices.

Variable E : Collaborators.
Variable self : AiderAgents.
Variables (message test_cmd lint_cmd : string) (fnames : list string).
Variable log_dir : Path.

Let body := AiderAgents_run_body E self message test_cmd lint_cmd fnames log_dir.

Let notice (here : string) : string :=
  "check " ++ abspath E here
                (path_str (resolve E here log_dir // ".aider.chat.history.md"))
  ++ " for prompts and lm generations".

(** An attempt prints its notice to what [sys.stderr] is bound to when
    it starts. *)
Lemma body_printed (w : World) :
  printed (body w).2 = (printed w ++ [(sys_stderr w, notice (cwd w))])%list.
Proof.
  subst body notice. unfold AiderAgents_run_body, bind, gets, modify, coder_run.
  cbn. by destruct (coder E _ _ _) as [[|e] g].
Qed.

Lemma retrying_notices wait n :
  forall fuel a w,
    n < fuel ->
    (forall i, i < n -> fails_at E (length (coder_runs w) + i)) ->
    done_at E (length (coder_runs w) + n) ->
    let r := retrying wait fuel a body w in
    let lf := log_file_of E (cwd w) log_dir in
    printed r.2 =
      (printed w ++ (sys_stderr w, notice (cwd w))
                 :: replicate n (log_stream lf, notice (cwd w)))%list.
Proof.
  induction n as [|n IH]; intros [|fuel] a w Hfuel Hfail Hdone; try lia.
  - cbn [retrying]. pose proof (body_printed w) as Hp.
    destruct (run_body_spec E self message test_cmd lint_cmd fnames log_dir w)
      as (_ & _ & _ & _ & _ & Hr).
    rewrite Nat.add_0_r in Hdone. rewrite Hdone in Hr. destruct Hr as (Hr & _).
    fold body in Hr. destruct (body w) as [r w1]. cbn in *. by subst r.
  - cbn [retrying]. pose proof (body_printed w) as Hp.
    destruct (run_body_spec E self message test_cmd lint_cmd fnames log_dir w)
      as (_ & _ & Hcwd & _ & Hc & Hr).
    destruct (Hfail 0) as (e & He & Hf); [lia|].
    rewrite Nat.add_0_r in Hf. rewrite Hf in Hr. destruct Hr as (Hr & _ & Herr).
    fold body in Hcwd, Hc, Hr, Herr.
    destruct (body w) as [r w1]. cbn [fst snd] in *. subst r. rewrite He.
    assert (Hlen : length (coder_runs (sleep (wait a) w1))
                   = S (length (coder_runs w))).
    { cbn. rewrite Hc, length_app. cbn. lia. }
    rewrite (IH fuel (S a) (sleep (wait a) w1)).
    + change (printed (sleep (wait a) w1)) with (printed w1).
      change (sys_stderr (sleep (wait a) w1)) with (sys_stderr w1).
      change (cwd (sleep (wait a) w1)) with (cwd w1).
      rewrite Hp, Herr, Hcwd, <-app_assoc. done.
    + lia.
    + intros i Hi. rewrite Hlen.
      replace (S (length (coder_runs w)) + i)
        with (length (coder_runs w) + S i) by lia.
      apply Hfail. lia.
    + rewrite Hlen.
      by replace (S (length (coder_runs w)) + n)
        with (length (coder_runs w) + S n) by lia.
Qed.

End Notices.

(** X19.  Every attempt of an invocation prints the notice that names
    the chat history file, to what [sys.stderr] is bound to at that
    moment: when the first [n] attempts fail with an [Exception] and the
    next one succeeds, the notice of the first attempt goes to the
    stream that was [sys.stderr] before the call, and the notices of the
    [n] retries go to the log file, where the failed attempts have left
    [sys.stderr]. *)
Theorem retry_notices_go_to_the_log (E : Collaborators) (self : AiderAgents)
  (message test_cmd lint_cmd : string) (fnames : list string) (log_dir : Path)
  (fuel n : nat) (w : World) :
  n < fuel ->
  (forall i, i < n -> fails_at E (length (coder_runs w) + i)) ->
  done_at E (length (coder_runs w) + n) ->
  let r := AiderAgents_run E fuel self message test_cmd lint_cmd fnames log_dir w in
  let lf := log_file_of E (cwd w) log_dir in
  let notice :=
    "check " ++ abspath E (cwd w)
                  (path_str (resolve E (cwd w) log_dir // ".aider.chat.history.md"))
    ++ " for prompts and lm generations" in
  printed r.2 =
    (printed w ++ (sys_stderr w, notice) :: replicate n (log_stream lf, notice))%list.
Proof.
  intros Hfuel Hfail Hdone.
  exact (retrying_notices E self message test_cmd lint_cmd fnames log_dir
           (wait_exponential 1 4 10) n fuel 1
           (log_agent_run (mkInvocation message test_cmd lint_cmd fnames log_dir) w)
           Hfuel Hfail Hdone).
Qed.

(** X19 on an invocation that succeeds at its third attempt: one notice
    on the terminal, two in the log file. *)
Lemma retry_notices_go_to_the_log_witness :
  let w := demo_world fresh_git in
  let r := AiderAgents_run flaky_env 5 (mkAiderAgents 3 "gpt-4o") "msg" "" ""
             ["src/a.py"] (path_of "logs/aider/no_tests/src__a") w in
  List.map fst (printed r.2) =
    [std_stderr;
     log_stream (path_of "/work/logs/aider/no_tests/src__a/aider.log");
     log_stream (path_of "/work/logs/aider/no_tests/src__a/aider.log")].
Proof.
  cbv zeta.
  rewrite (retry_notices_go_to_the_log flaky_env (mkAiderAgents 3 "gpt-4o") "msg"
             "" "" ["src/a.py"] (path_of "logs/aider/no_tests/src__a") 5 2
             (demo_world fresh_git)).
  - vm_compute. reflexivity.
  - lia.
  - intros i Hi. exists (ExternalError "APIConnectionError").
    split; [reflexivity|]. intros c g.
    destruct i as [|[|i]]; [reflexivity|reflexivity|lia].
  - intros c g. reflexivity.
Defined.
